(** * gitstat: the repository lifecycle of [gitstat/routes.py]

    A shallow embedding of the handlers of [routes.py] as functions over an
    explicit world (the Redis store, the files on disk, the advisory locks
    and a trace of the effects performed), with Python exceptions as an
    outcome of every computation.  The Redis server, the [git] executable,
    [du], the clock and the [validators] package are not part of the
    repository: the store primitives are written out below as the Redis
    commands behave, the others are fields of an [environment]. *)

From Stdlib Require Import ZArith Ascii String List Lia DecimalString DecimalPos DecimalZ.
From stdpp Require Import gmap strings list.

Local Open Scope Z_scope.

(** ** Python values and strings *)

Module Py.

(** A scalar as [json.loads] hands it to the handlers: a number or a
    text (the other JSON values are left out). *)
Inductive jval :=
  | JInt (z : Z)
  | JStr (s : string).

#[global] Instance jval_eq_dec : EqDecision jval.
Proof. solve_decision. Defined.

(** [str(n)] for an integer. *)
Definition str_int (z : Z) : string := NilZero.string_of_int (Z.to_int z).

(** [str(v)], which is also how redis-py encodes keys and field values. *)
Definition str (v : jval) : string :=
  match v with
  | JInt z => str_int z
  | JStr s => s
  end.

(** Truth value of an optional string: [None] and [''] are false. *)
Definition truthy (o : option string) : bool :=
  match o with
  | Some (String _ _) => true
  | _ => false
  end.

(** [s.split(sep)] for a one-character separator: never the empty list. *)
Fixpoint split_on (sep : ascii) (s : string) : list string :=
  match s with
  | EmptyString => [EmptyString]
  | String c r =>
      if Ascii.eqb c sep then EmptyString :: split_on sep r
      else match split_on sep r with
           | h :: t => String c h :: t
           | [] => [String c EmptyString]
           end
  end.

(** [l[-1]] on a list that is known not to be empty. *)
Definition last_item (l : list string) : string := List.last l EmptyString.

(** The characters [str.split()] treats as separators. *)
Definition is_space (c : ascii) : bool :=
  match c with
  | "009" | "010" | "011" | "012" | "013" | " " => true
  | _ => false
  end%char.

Definition cons_word (w : string) (ws : list string) : list string :=
  match w with
  | EmptyString => ws
  | _ => w :: ws
  end.

(** One pass from the right: the run of non-blank characters [s] starts
    with (empty when [s] starts with a blank), and the words after it. *)
Fixpoint scan_words (s : string) : string * list string :=
  match s with
  | EmptyString => (EmptyString, [])
  | String c r =>
      let '(w, ws) := scan_words r in
      if is_space c then (EmptyString, cons_word w ws) else (String c w, ws)
  end.

(** [s.split()]: the maximal runs of characters that are not whitespace. *)
Definition split (s : string) : list string :=
  let '(w, ws) := scan_words s in cons_word w ws.

Fixpoint ends_with_slash (s : string) : bool :=
  match s with
  | EmptyString => false
  | String c EmptyString => Ascii.eqb c "/"
  | String _ r => ends_with_slash r
  end.

(** What [os.path.join(a, b)] puts in front of a relative [b]. *)
Definition dir_prefix (a : string) : string :=
  match a with
  | EmptyString => EmptyString
  | _ => if ends_with_slash a then a else a +:+ "/"
  end.

(** [os.path.join(a, b)] on POSIX. *)
Definition path_join (a b : string) : string :=
  match b with
  | String "/" _ => b
  | _ => dir_prefix a +:+ b
  end.

End Py.

(** ** The world the handlers act on *)

(** The exceptions of [git.exc] that [run_git_clone_or_checkout] catches. *)
Inductive git_exc :=
  | CheckoutError
  | InvalidGitRepositoryError
  | NoSuchPathError
  | GitCommandError.

(** Python exceptions.  [BadRequest] is the class of [gitstat/errors.py];
    [ResponseError] and [DataError] are those of redis-py. *)
Inductive exc :=
  | BadRequest (message : string) (status_code : Z) (payload : gmap string string)
  | ResponseError
  | DataError
  | GitError (e : git_exc)
  | CalledProcessError
  | AttributeError
  | IndexError
  | TypeError
  | ValueError.

(** A value under a Redis key: a string or a hash of fields. *)
Inductive rval :=
  | RStr (s : string)
  | RHash (h : gmap string string).

#[global] Instance rval_eq_dec : EqDecision rval.
Proof. solve_decision. Defined.

(** What a computation does to the outside, in the order it does it. *)
Inductive effect :=
  | Incr (key : string) (z : Z)
  | GetSet (key value : string)
  | HmSet (key : string) (mapping : gmap string string)
  | HDel (key field : string)
  | Delete (key : string)
  | OpenW (file : string)
  | Flock (file : string)
  | Funlock (file : string)
  | Close (file : string)
  | CloneFrom (url path branch : string) (ok : bool)
  | OpenRepo (path : string) (ok : bool)
  | Checkout (path ref : string) (ok : bool)
  | Rmtree (path : string)
  | Spawn (git_repo_id : string)
  | LogError (e : git_exc).

(** [db]: the Redis store.  [files]: the regular files on disk, with their
    size.  [flocks]: for each lock file, the open file description that
    holds its [flock], if one does.  [now]: the wall clock, as [strftime]
    prints it.  [trace]: the effects so far, oldest first, each with the
    store as it was right after it (what a reader of the store sees until
    the next effect). *)
Record world := World {
  db : gmap string rval;
  files : gmap string N;
  flocks : gmap string N;
  now : string;
  trace : list (effect * gmap string rval);
}.

(** Updates of one component; [record e w] appends [e] to the trace, with
    the store as it is. *)
Definition set_db (d : gmap string rval) (w : world) : world :=
  World d (files w) (flocks w) (now w) (trace w).
Definition set_files (f : gmap string N) (w : world) : world :=
  World (db w) f (flocks w) (now w) (trace w).
Definition set_flocks (l : gmap string N) (w : world) : world :=
  World (db w) (files w) l (now w) (trace w).
Definition record (e : effect) (w : world) : world :=
  World (db w) (files w) (flocks w) (now w) (trace w ++ [(e, db w)]).

(** A computation returns, raises, or waits for a lock it cannot have. *)
Inductive outcome (A : Type) :=
  | Ret (a : A)
  | Raise (e : exc)
  | Blocked.
Arguments Ret {A} a.
Arguments Raise {A} e.
Arguments Blocked {A}.

Definition M (A : Type) : Type := world -> outcome A * world.

Definition ret {A} (a : A) : M A := fun w => (Ret a, w).
Definition raise {A} (e : exc) : M A := fun w => (Raise e, w).
Definition bind {A B} (m : M A) (k : A -> M B) : M B := fun w =>
  match m w with
  | (Ret a, w') => k a w'
  | (Raise e, w') => (Raise e, w')
  | (Blocked, w') => (Blocked, w')
  end.

Declare Scope py_scope.
Delimit Scope py_scope with py.
Notation "x <- m ;; k" := (bind m (fun x => k))
  (at level 100, m at next level, right associativity) : py_scope.
Notation "m ;; k" := (bind m (fun _ => k))
  (at level 100, right associativity) : py_scope.
Local Open Scope py_scope.

(** [try: body except (the four git errors) as exc: handler(exc)]. *)
Definition try_git {A} (body : M A) (handler : git_exc -> M A) : M A := fun w =>
  match body w with
  | (Raise (GitError e), w') => handler e w'
  | r => r
  end.

(** ** The Redis commands the handlers use *)

Module Redis.

(** INCR accepts only the canonical decimal form of an integer. *)
Definition parse_int (s : string) : option Z :=
  match NilZero.int_of_string s with
  | Some d => if decide (Py.str_int (Z.of_int d) = s) then Some (Z.of_int d) else None
  | None => None
  end.

Definition write (e : effect) (d : gmap string rval) : M unit := fun w =>
  (Ret tt, record e (set_db d w)).

Definition get (key : string) : M (option string) := fun w =>
  match db w !! key with
  | None => (Ret None, w)
  | Some (RStr s) => (Ret (Some s), w)
  | Some (RHash _) => (Raise ResponseError, w)
  end.

(** The counter is not bounded here (the server's is a signed 64-bit one). *)
Definition incr (key : string) : M Z := fun w =>
  match db w !! key with
  | None => (Ret 1, record (Incr key 1) (set_db (<[key := RStr (Py.str_int 1)]> (db w)) w))
  | Some (RStr s) =>
      match parse_int s with
      | Some z =>
          (Ret (z + 1),
           record (Incr key (z + 1)) (set_db (<[key := RStr (Py.str_int (z + 1))]> (db w)) w))
      | None => (Raise ResponseError, w)
      end
  | Some (RHash _) => (Raise ResponseError, w)
  end.

Definition getset (key value : string) : M (option string) := fun w =>
  match db w !! key with
  | None => (Ret None, record (GetSet key value) (set_db (<[key := RStr value]> (db w)) w))
  | Some (RStr s) =>
      (Ret (Some s), record (GetSet key value) (set_db (<[key := RStr value]> (db w)) w))
  | Some (RHash _) => (Raise ResponseError, w)
  end.

(** [hmget(key, field)[0]] *)
Definition hmget (key field : string) : M (option string) := fun w =>
  match db w !! key with
  | None => (Ret None, w)
  | Some (RHash h) => (Ret (h !! field), w)
  | Some (RStr _) => (Raise ResponseError, w)
  end.

Definition hgetall (key : string) : M (gmap string string) := fun w =>
  match db w !! key with
  | None => (Ret ∅, w)
  | Some (RHash h) => (Ret h, w)
  | Some (RStr _) => (Raise ResponseError, w)
  end.

(** The fields of [mapping] replace those of the same name. *)
Definition hmset (key : string) (mapping : gmap string string) : M unit := fun w =>
  if decide (mapping = ∅) then (Raise DataError, w)
  else match db w !! key with
       | None => write (HmSet key mapping) (<[key := RHash mapping]> (db w)) w
       | Some (RHash h) => write (HmSet key mapping) (<[key := RHash (mapping ∪ h)]> (db w)) w
       | Some (RStr _) => (Raise ResponseError, w)
       end.

(** A hash that loses its last field is removed with its key. *)
Definition hdel (key field : string) : M unit := fun w =>
  match db w !! key with
  | None => write (HDel key field) (db w) w
  | Some (RHash h) =>
      let h' := delete field h in
      write (HDel key field)
        (if decide (h' = ∅) then delete key (db w) else <[key := RHash h']> (db w)) w
  | Some (RStr _) => (Raise ResponseError, w)
  end.

Definition delete (key : string) : M unit := fun w =>
  write (Delete key) (base.delete key (db w)) w.

(** [keys(pattern=p + '*')]; the server gives no order, the model takes
    that of the map's enumeration. *)
Definition keys (p : string) : M (list string) := fun w =>
  (Ret (filter (fun k => String.prefix p k = true) (map_to_list (db w)).*1), w).

End Redis.

(** ** What the handlers use from outside the repository *)

(** A commit as [iter_commits] yields it: [str(c.committer)],
    [c.binsha.encode('hex')] and [c.message.encode('utf8', 'ignore')]. *)
Record commit := Commit {
  committer : string;
  hexsha : string;
  message : string;
}.

(** [home]: [path.expanduser('~')].  [url_validator u]: whether
    [validators.url(u, True)] lets [u] through.  The git operations are
    GitPython's, on the files of the disk: [clone_from] and [checkout] give
    the files they leave behind and the error they raise, if any; [repo] is
    the constructor [Repo(path)]; [iter_commits] lists the commits reachable
    from the checkout, newest first; [tracked_files] is the list of paths
    [git ls-files] prints.  [du_sh] is the output of [du -sh path], [None]
    when the command fails.  [repr_list] is [str()] of a list of strings. *)
Record environment := Environment {
  home : string;
  url_validator : string -> bool;
  clone_from : string -> string -> string -> gmap string N -> option git_exc * gmap string N;
  repo : string -> gmap string N -> option git_exc;
  checkout : string -> string -> gmap string N -> option git_exc * gmap string N;
  iter_commits : string -> gmap string N -> list commit;
  tracked_files : string -> gmap string N -> list string;
  du_sh : string -> gmap string N -> option string;
  repr_list : list string -> string;
}.

(** The body of a request, as [request.get_json(force=True, silent=True)]
    followed by [json.loads] sees it: nothing (or something false), a text
    that [json.loads] rejects with a [ValueError] of the given message, or
    the decoded value the handler goes on with: for POST the object, for
    GET and DELETE the list [.get('id', [])]. *)
Inductive request (A : Type) :=
  | NoJson
  | NotJson (error : string)
  | Json (a : A).
Arguments NoJson {A}.
Arguments NotJson {A} error.
Arguments Json {A} a.

(** The body of a response: a text, for GET the list whose [str()] is
    sent, one singleton dict per repository, or a dict put through
    [jsonify]. *)
Inductive body :=
  | Text (s : string)
  | Repositories (l : list (Py.jval * gmap string string))
  | Jsonified (d : gmap string string).

Definition response : Type := body * Z.

(** ** errors.py *)

(** [BadRequest.to_dict] *)
Definition to_dict (message : string) (payload : gmap string string) : gmap string string :=
  <["message" := message]> payload.

(** ** routes.py *)

(** [BadRequest('Bad Request', 400, {'error': error})], the only way the
    handlers build the exception. *)
Definition bad_request (error : string) : exc :=
  BadRequest "Bad Request" 400 {["error" := error]}.

(** The handler registered with [app.errorhandler(BadRequest)]. *)
Definition handle_invalid_usage (message : string) (status_code : Z)
  (payload : gmap string string) : response :=
  (Jsonified (to_dict message payload), status_code).

(** The newline character. *)
Definition nl : string := String "010" EmptyString.

Definition get_files : M (gmap string N) := fun w => (Ret (files w), w).
Definition strftime_localtime : M string := fun w => (Ret (now w), w).

(** [Process(target=run_git_clone_or_checkout, args=(id,)).start()]: the
    process is only started here; what it does is a later call of
    [run_git_clone_or_checkout]. *)
Definition start_process (git_repo_id : string) : M unit := fun w =>
  (Ret tt, record (Spawn git_repo_id) w).

(** [shutil.rmtree(path)]: no file under [path] is left. *)
Definition rmtree (path : string) : M unit := fun w =>
  (Ret tt,
   record (Rmtree path)
     (set_files (filter (fun e => String.prefix (Py.dir_prefix path) e.1 = false) (files w)) w)).

Definition log_error (e : git_exc) : M unit := fun w => (Ret tt, record (LogError e) w).

(** [fcntl.flock(f, LOCK_EX)]: waits while another open file holds it. *)
Definition flock_ex (file : string) (pid : N) : M unit := fun w =>
  match flocks w !! file with
  | None => (Ret tt, record (Flock file) (set_flocks (<[file := pid]> (flocks w)) w))
  | Some _ => (Blocked, w)
  end.

Definition release (file : string) (pid : N) (l : gmap string N) : gmap string N :=
  if decide (l !! file = Some pid) then delete file l else l.

(** [fcntl.flock(f, LOCK_UN)] *)
Definition flock_un (file : string) (pid : N) : M unit := fun w =>
  (Ret tt, record (Funlock file) (set_flocks (release file pid (flocks w)) w)).

(** [with open(file, 'w') as f: body]: the file is created or truncated,
    and closed when the block is left, by its end or by an exception;
    closing it gives up the lock it holds. *)
Definition with_open_w {A} (file : string) (pid : N) (block : M A) : M A := fun w =>
  match block (record (OpenW file) (set_files (<[file := 0%N]> (files w)) w)) with
  | (Blocked, w') => (Blocked, w')
  | (r, w') => (r, record (Close file) (set_flocks (release file pid (flocks w')) w'))
  end.

Definition git_clone_from (env : environment) (url path branch : string) : M unit := fun w =>
  match clone_from env url path branch (files w) with
  | (None, f) => (Ret tt, record (CloneFrom url path branch true) (set_files f w))
  | (Some e, f) => (Raise (GitError e), record (CloneFrom url path branch false) (set_files f w))
  end.

Definition git_repo (env : environment) (path : string) : M unit := fun w =>
  match repo env path (files w) with
  | None => (Ret tt, record (OpenRepo path true) w)
  | Some e => (Raise (GitError e), record (OpenRepo path false) w)
  end.

Definition git_checkout (env : environment) (path ref : string) : M unit := fun w =>
  match checkout env path ref (files w) with
  | (None, f) => (Ret tt, record (Checkout path ref true) (set_files f w))
  | (Some e, f) => (Raise (GitError e), record (Checkout path ref false) (set_files f w))
  end.

(** [git_repo.git.ls_files()]: one tracked path per line, without the
    last newline.  (Git quotes a path that has control characters, quotes
    or a backslash in it; such paths are left out of the model.) *)
Definition ls_files (env : environment) (path : string) : M string :=
  f <- get_files ;; ret (String.concat nl (tracked_files env path f)).

(** [check_output(('du', '-sh', path))] *)
Definition check_output_du (env : environment) (path : string) : M string :=
  f <- get_files ;;
  match du_sh env path f with
  | Some out => ret out
  | None => raise CalledProcessError
  end.

Definition GIT_REPOS_PATH (env : environment) : string :=
  Py.path_join (home env) "git_repositories/".

(** The text of an optional string, [str(None)] being ['None']. *)
Definition str_option (o : option string) : string :=
  match o with
  | Some s => s
  | None => "None"
  end.

(** The [Repo] object the Python function is given is stood for by the
    path it was opened or cloned at. *)
Definition update_repo_stats (env : environment) (git_repo_id git_repo_path : string) : M unit :=
  out <- check_output_du env git_repo_path ;;
  disk_usage <- match Py.split out with
                | tok :: _ => ret tok
                | [] => raise IndexError
                end ;;
  checkout_time <- strftime_localtime ;;
  f <- get_files ;;
  let recent_commits := take 5 (iter_commits env git_repo_path f) in
  let '(last_author, last_hash) :=
    match recent_commits with
    | c :: _ => (Some (committer c), Some (hexsha c))
    | [] => (None, None)
    end in
  listing <- ls_files env git_repo_path ;;
  let all_repo_files := Py.split listing in
  let last_msgs := message <$> recent_commits in
  let repo_stats : gmap string string :=
    <["recent_committer" := str_option last_author]>
    (<["current_revision" := str_option last_hash]>
    (<["last_5_messages" := repr_list env last_msgs]>
    (<["total_files" := Py.str_int (Z.of_nat (length all_repo_files))]>
    (<["disk_usage" := disk_usage]>
    (<["last_checkout" := checkout_time]> ∅))))) in
  Redis.hmset git_repo_id repo_stats.

Definition check_repo_was_cloned (repo_path repo_id : string) : M bool :=
  let path_to_git_index := Py.path_join repo_path ".git/index" in
  f <- get_files ;;
  match f !! path_to_git_index with
  | Some size =>
      if (0 <? size)%N
      then last_checkout <- Redis.hmget repo_id "last_checkout" ;;
           ret (Py.truthy last_checkout)
      else ret false
  | None => ret false
  end.

(** [pid] names the process that runs the function, that is the open lock
    file its [flock] belongs to. *)
Definition run_git_clone_or_checkout (env : environment) (pid : N) (git_repo_id : string)
  : M unit :=
  url <- Redis.hmget git_repo_id "url" ;;
  branch <- Redis.hmget git_repo_id "branch" ;;
  let repo_branch := if Py.truthy branch then str_option branch else "master" in
  repo_revision <- Redis.hmget git_repo_id "revision" ;;
  match url with
  | None => raise AttributeError
  | Some repo_url =>
      let repo_name := Py.last_item (Py.split_on "/" repo_url) in
      let git_repo_path := Py.path_join (GIT_REPOS_PATH env) repo_name in
      let lock_file := repo_name +:+ ".lock" in
      with_open_w lock_file pid
        (flock_ex lock_file pid ;;
         try_git
           (cloned <- check_repo_was_cloned git_repo_path git_repo_id ;;
            (if cloned
             then Redis.hdel git_repo_id "last_checkout" ;;
                  git_repo env git_repo_path ;;
                  git_checkout env git_repo_path repo_branch
             else git_clone_from env repo_url git_repo_path repo_branch) ;;
            (if Py.truthy repo_revision
             then git_checkout env git_repo_path (str_option repo_revision)
             else ret tt) ;;
            update_repo_stats env git_repo_id git_repo_path)
           log_error ;;
         flock_un lock_file pid)
  end.

(** The function returns nothing in Python; the model returns the
    [git_repo_id] it settled on, which is what it writes to and what the
    process it starts is given. *)
Definition clone_checkout_git_repository (url : string) (repository : gmap string Py.jval)
  : M string :=
  url_id_known <- Redis.get url ;;
  git_repo_id <-
    (if Py.truthy url_id_known
     then ret (str_option url_id_known)
     else n <- Redis.incr "git_repo_id:id" ;;
          let git_repo_id := "git_repo_id:" +:+ Py.str_int n in
          Redis.getset url git_repo_id ;;
          ret git_repo_id) ;;
  Redis.hmset git_repo_id (Py.str <$> repository) ;;
  start_process git_repo_id ;;
  ret git_repo_id.

(** The code expects [validators.url] to raise [ValidationFailure] on a
    URL it does not accept. *)
Definition validate_git_url (env : environment) (url : string) : M unit :=
  if url_validator env url then ret tt
  else raise (bad_request ("The repository url '" +:+ url +:+ "' is not valid.")).

(** A ['url'] that is a number is handed to [validators.url], which
    matches a regular expression against it and raises [TypeError]. *)
Definition post_git_repositories (env : environment) (post_json : request (gmap string Py.jval))
  : M response :=
  match post_json with
  | Json repository =>
      match repository !! "url" with
      | Some (Py.JStr repo_url) =>
          validate_git_url env repo_url ;;
          clone_checkout_git_repository repo_url repository ;;
          ret (Text "Accepted", 202)
      | Some (Py.JInt _) => raise TypeError
      | None =>
          raise (bad_request ("An Error while processing incoming JSON Git repository "
                             +:+ "information: 'url'. 'url' is an obligatory parameter."))
      end
  | NotJson error =>
      raise (bad_request ("An Error while processing incoming JSON Git repository "
                         +:+ "information: " +:+ error
                         +:+ ". 'url' is an obligatory parameter."))
  | NoJson =>
      raise (bad_request ("Expected a JSON serialized Git "
                         +:+ "repository representation with a valid "
                         +:+ "remote url with optional [branch, revision]"))
  end.

(** The body of the loop of [remove_repos_by_id]. *)
Definition remove_repo (env : environment) (git_repo : Py.jval) : M unit :=
  let git_repo_id := "git_repo_id:" +:+ Py.str git_repo in
  url <- Redis.hmget git_repo_id "url" ;;
  if Py.truthy url then
    let repo_url := str_option url in
    let repo_name := Py.last_item (Py.split_on "/" repo_url) in
    let git_repo_path := Py.path_join (GIT_REPOS_PATH env) repo_name in
    cloned <- check_repo_was_cloned git_repo_path git_repo_id ;;
    if cloned then
      rmtree git_repo_path ;;
      Redis.delete git_repo_id ;;
      Redis.delete repo_url
    else
      raise (bad_request ("The repository with id " +:+ Py.str git_repo
                         +:+ " is not yet cloned."))
  else
    raise (bad_request ("Could not find an url for repository "
                       +:+ "with a given id " +:+ Py.str git_repo
                       +:+ ". Repository may not exist.")).

Fixpoint remove_repos_by_id (env : environment) (repo_ids : list Py.jval) : M unit :=
  match repo_ids with
  | [] => ret tt
  | git_repo :: rest => remove_repo env git_repo ;; remove_repos_by_id env rest
  end.

Definition delete_git_repositories (env : environment) (delete_json : request (list Py.jval))
  : M response :=
  match delete_json with
  | Json repo_ids =>
      match repo_ids with
      | _ :: _ => remove_repos_by_id env repo_ids ;; ret (Text "OK", 200)
      | [] => raise (bad_request ("Expected a JSON serialized list "
                                 +:+ "of repository id to delete, e.g. id: [1,2,3]"))
      end
  | NotJson _ => raise ValueError
  | NoJson => raise (bad_request ("Expected a JSON serialized list "
                                 +:+ "of repository id (-s) to be deleted."))
  end.

(** [pipe.hgetall(k)] for each key, then [pipe.execute()]. *)
Fixpoint pipeline_hgetall (keys : list string) : M (list (gmap string string)) :=
  match keys with
  | [] => ret []
  | k :: rest =>
      h <- Redis.hgetall k ;;
      hs <- pipeline_hgetall rest ;;
      ret (h :: hs)
  end.

Definition get_git_repositories (get_req_json : request (list Py.jval)) : M response :=
  repo_ids <-
    match get_req_json with
    | Json repo_ids => ret repo_ids
    | NotJson _ =>
        raise (bad_request ("Expected a JSON serialized list of "
                           +:+ "repository id (-s) to retrieve. "
                           +:+ "Or no data to get all."))
    | NoJson =>
        ks <- Redis.keys "git_repo_id:" ;;
        ret (Py.JStr <$> filter (fun k => k <> "git_repo_id:id") ks)
    end ;;
  repos <- pipeline_hgetall (Py.str <$> repo_ids) ;;
  ret (Repositories (zip repo_ids repos), 200).

(** A request to [/resources/], by its method and body.  These are the
    three methods the route is registered for; the last branch of the
    Python function, which answers 405, is left to the only other method
    Flask lets through to the view, HEAD, which is not modelled. *)
Inductive http_request :=
  | GET (get_req_json : request (list Py.jval))
  | POST (post_json : request (gmap string Py.jval))
  | DELETE (delete_json : request (list Py.jval)).

Definition get_post_delete_resources (env : environment) (r : http_request) : M response :=
  match r with
  | GET get_req_json => get_git_repositories get_req_json
  | POST post_json => post_git_repositories env post_json
  | DELETE delete_json => delete_git_repositories env delete_json
  end.

(** The view as the application serves it: a [BadRequest] that leaves it
    becomes the response of [handle_invalid_usage]; any other exception
    is left to Flask. *)
Definition serve (env : environment) (r : http_request) : M response := fun w =>
  match get_post_delete_resources env r w with
  | (Raise (BadRequest message status_code payload), w') =>
      (Ret (handle_invalid_usage message status_code payload), w')
  | result => result
  end.

(** ** Stores the handlers can produce *)

Definition counter_key : string := "git_repo_id:id".
Definition repo_key (n : Z) : string := "git_repo_id:" +:+ Py.str_int n.

(** The shape of a URI scheme: a letter, then letters, digits, [+], [-]
    or [.], up to a colon.  No key of the [git_repo_id:] namespace and no
    decimal number has it. *)
Definition is_alpha (c : ascii) : bool :=
  let n := nat_of_ascii c in
  ((65 <=? n) && (n <=? 90))%nat || ((97 <=? n) && (n <=? 122))%nat.

Definition is_scheme_char (c : ascii) : bool :=
  let n := nat_of_ascii c in
  is_alpha c || ((48 <=? n) && (n <=? 57))%nat
  || Ascii.eqb c "+" || Ascii.eqb c "-" || Ascii.eqb c ".".

Fixpoint scheme_tail (s : string) : bool :=
  match s with
  | EmptyString => false
  | String c r => if Ascii.eqb c ":" then true else is_scheme_char c && scheme_tail r
  end.

Definition has_scheme (u : string) : bool :=
  match u with
  | String c r => is_alpha c && scheme_tail r
  | EmptyString => false
  end.

(** [s] without its prefix [p], if it has it. *)
Fixpoint strip_prefix (p s : string) : option string :=
  match p, s with
  | EmptyString, _ => Some s
  | String a p', String b s' => if Ascii.eqb a b then strip_prefix p' s' else None
  | String _ _, EmptyString => None
  end.

(** The number in a key ['git_repo_id:<n>']. *)
Definition key_id (k : string) : option Z :=
  match strip_prefix "git_repo_id:" k with
  | Some r => Redis.parse_int r
  | None => None
  end.

(** The value of the counter ['git_repo_id:id'], 0 before its first INCR. *)
Definition counter (d : gmap string rval) : option Z :=
  match d !! counter_key with
  | None => Some 0
  | Some (RStr s) => Redis.parse_int s
  | Some (RHash _) => None
  end.

(** A hash sits under ['git_repo_id:<n>'] for an [n] the counter has
    reached, and the URL it names, if it names one, is mapped to it. *)
Definition record_ok (d : gmap string rval) (c : Z) (k : string) (h : gmap string string)
  : bool :=
  match key_id k with
  | Some n =>
      (1 <=? n) && (n <=? c)
      && match h !! "url" with
         | Some u => bool_decide (d !! u = Some (RStr k))
         | None => true
         end
  | None => false
  end.

(** A string sits under the counter, or under a URL and then names the
    record of that URL. *)
Definition mapping_ok (d : gmap string rval) (k s : string) : bool :=
  bool_decide (k = counter_key)
  || has_scheme k
     && match d !! s with
        | Some (RHash h) => bool_decide (h !! "url" = Some k)
        | _ => false
        end.

(** The stores the handlers produce, from the empty one: see
    [reachable_store_ok]. *)
Definition entry_ok (d : gmap string rval) (c : Z) (e : string * rval) : bool :=
  match e.2 with
  | RHash h => record_ok d c e.1 h
  | RStr s => mapping_ok d e.1 s
  end.

Definition store_ok (d : gmap string rval) : bool :=
  match counter d with
  | Some c => (0 <=? c) && forallb (entry_ok d c) (map_to_list d)
  | None => false
  end.

(** The keys of the records whose ['url'] field is [u]. *)
Definition names_url (u : string) (v : rval) : bool :=
  match v with
  | RHash h => bool_decide (h !! "url" = Some u)
  | RStr _ => false
  end.

Definition records_for (u : string) (d : gmap string rval) : gset string :=
  dom (filter (fun e => names_url u e.2 = true) d).

(** The effects a computation added to the trace. *)
Definition effects_since (w w' : world) : list effect :=
  (drop (length (trace w)) (trace w')).*1.

(** A registered repository: the record of [git_repo_id] names a URL. *)
Definition registered_url (d : gmap string rval) (git_repo_id : string) : option string :=
  match d !! git_repo_id with
  | Some (RHash h) => h !! "url"
  | _ => None
  end.

Definition last_checkout (d : gmap string rval) (git_repo_id : string) : option string :=
  match d !! git_repo_id with
  | Some (RHash h) => h !! "last_checkout"
  | _ => None
  end.

(** The working copy of a URL and the test of [check_repo_was_cloned],
    as a function of the store and the files. *)
Definition working_copy (env : environment) (url : string) : string :=
  Py.path_join (GIT_REPOS_PATH env) (Py.last_item (Py.split_on "/" url)).

Definition materialized (env : environment) (w : world) (url git_repo_id : string) : bool :=
  match files w !! Py.path_join (working_copy env url) ".git/index" with
  | Some size => (0 <? size)%N && Py.truthy (last_checkout (db w) git_repo_id)
  | None => false
  end.

(** ** Notions the properties are stated with *)

(** A text that does not start with a letter, as [str(n)] for a number
    [n], which starts with a digit or a minus sign. *)
Definition numeric_head (s : string) : bool :=
  match s with
  | String c _ => negb (is_alpha c)
  | EmptyString => false
  end.

(** An id that does not start with a letter: every number, as the API
    takes them ([{"id": [1,2,3]}]), and a text such as ["12"]. *)
Definition numeric_id (v : Py.jval) : bool := numeric_head (Py.str v).

(** [store_ok], as a proposition: the counter is at [c], every hash is the
    record of an identity between 1 and [c] and the URL it names is mapped
    to it, and every string other than the counter sits under a URL and
    names the record of that URL. *)
Record wf (d : gmap string rval) (c : Z) : Prop := {
  wf_counter : counter d = Some c;
  wf_nonneg : 0 <= c;
  wf_record : forall k h, d !! k = Some (RHash h) ->
    exists n, k = repo_key n /\ 1 <= n <= c
              /\ forall u, h !! "url" = Some u -> d !! u = Some (RStr k);
  wf_mapping : forall k s, d !! k = Some (RStr s) ->
    k = counter_key
    \/ has_scheme k = true /\ exists h, d !! s = Some (RHash h) /\ h !! "url" = Some k;
}.

(** A computation that neither takes nor gives up a lock, never waits,
    and only adds to the trace. *)
Definition lock_free {A} (m : M A) : Prop :=
  forall w out w', m w = (out, w') ->
    flocks w' = flocks w /\ out <> Blocked /\ exists l, trace w' = trace w ++ l.

(** The lock file [run_git_clone_or_checkout] opens for a URL. *)
Definition lock_file (url : string) : string :=
  Py.last_item (Py.split_on "/" url) +:+ ".lock".

(** The last character of a text. *)
Fixpoint last_char (s : string) : option ascii :=
  match s with
  | EmptyString => None
  | String c EmptyString => Some c
  | String _ r => last_char r
  end.

(** The dict [update_repo_stats] writes, for a disk-usage token. *)
Definition repo_stats (env : environment) (w : world) (path disk_usage : string)
  : gmap string string :=
  let recent_commits := take 5 (iter_commits env path (files w)) in
  let listing := String.concat nl (tracked_files env path (files w)) in
  <["recent_committer" := str_option (committer <$> head recent_commits)]>
  (<["current_revision" := str_option (hexsha <$> head recent_commits)]>
  (<["last_5_messages" := repr_list env (message <$> recent_commits)]>
  (<["total_files" := Py.str_int (Z.of_nat (length (Py.split listing)))]>
  (<["disk_usage" := disk_usage]>
  (<["last_checkout" := now w]> ∅))))).

(** The git operations of an update, in their order, each to be told
    whether it succeeded; [attempt script k] is the run in which the first
    [k] succeed and the next one, if there is one, raises. *)
Definition update_script (path branch : string) (rev : option string) : list (bool -> effect) :=
  OpenRepo path :: Checkout path branch
  :: (if Py.truthy rev then [Checkout path (str_option rev)] else []).

Definition attempt (script : list (bool -> effect)) (k : nat) : list effect :=
  ((fun f => f true) <$> take k script)
  ++ match script !! k with Some f => [f false] | None => [] end.

(** [repo_branch]: the ['branch'] of the record, or ['master']. *)
Definition requested_branch (h : gmap string string) : string :=
  if Py.truthy (h !! "branch") then str_option (h !! "branch") else "master".

(** How an update ends, after [k] git operations of [script] that
    succeeded, on the store [d1] in which the record has the fields [h1]:
    the last effects, the outcome and the store that is left. *)
Inductive update_end (git_repo_id lf : string) (script : list (bool -> effect))
  (h1 : gmap string string) (d1 : gmap string rval) (time : string) (k : nat)
  : list (effect * gmap string rval) -> outcome unit -> gmap string rval -> Prop :=
  | update_written stats :
      (length script <= k)%nat ->
      stats !! "last_checkout" = Some time ->
      let d2 := <[git_repo_id := RHash (stats ∪ h1)]> d1 in
      update_end git_repo_id lf script h1 d1 time k
        [(HmSet git_repo_id stats, d2); (Funlock lf, d2); (Close lf, d2)] (Ret tt) d2
  | update_stats_raised e :
      (length script <= k)%nat ->
      update_end git_repo_id lf script h1 d1 time k [(Close lf, d1)] (Raise e) d1
  | update_git_raised e :
      (k < length script)%nat ->
      update_end git_repo_id lf script h1 d1 time k
        [(LogError e, d1); (Funlock lf, d1); (Close lf, d1)] (Ret tt) d1.

(** The block that [run_git_clone_or_checkout] runs under the lock, word
    for word, under a name. *)
Definition materialize_block (env : environment) (git_repo_id repo_url git_repo_path
  repo_branch : string) (repo_revision : option string) : M unit :=
  cloned <- check_repo_was_cloned git_repo_path git_repo_id ;;
  (if cloned
   then Redis.hdel git_repo_id "last_checkout" ;;
        git_repo env git_repo_path ;;
        git_checkout env git_repo_path repo_branch
   else git_clone_from env repo_url git_repo_path repo_branch) ;;
  (if Py.truthy repo_revision
   then git_checkout env git_repo_path (str_option repo_revision)
   else ret tt) ;;
  update_repo_stats env git_repo_id git_repo_path.

(** A computation that, run on the record of a registered [id], leaves the
    store well formed and no record's URL changed. *)
Definition keeps_wf {A} (id : string) (m : M A) : Prop :=
  forall w c out w', wf (db w) c -> is_Some (registered_url (db w) id) -> m w = (out, w') ->
    wf (db w') c /\ forall k, registered_url (db w') k = registered_url (db w) k.

(** The two exceptions of [remove_repos_by_id], and the key of an id. *)
Definition not_yet_cloned (git_repo : Py.jval) : exc :=
  bad_request ("The repository with id " +:+ Py.str git_repo +:+ " is not yet cloned.").

Definition no_url_found (git_repo : Py.jval) : exc :=
  bad_request ("Could not find an url for repository "
              +:+ "with a given id " +:+ Py.str git_repo
              +:+ ". Repository may not exist.").

Definition id_key (git_repo : Py.jval) : string := "git_repo_id:" +:+ Py.str git_repo.

(** What is left of the files once the tree under [path] is removed. *)
Definition without_tree (path : string) (f : gmap string N) : gmap string N :=
  filter (fun e => String.prefix (Py.dir_prefix path) e.1 = false) f.



(** A process started earlier runs. *)
Definition process_step (env : environment) (w w' : world) : Prop :=
  exists pid id out, run_git_clone_or_checkout env pid id w = (out, w').

(** A path that is not empty and has no whitespace in it. *)
Fixpoint no_blank (s : string) : bool :=
  match s with
  | EmptyString => true
  | String c r => negb (Py.is_space c) && no_blank r
  end.

Definition plain_path (p : string) : bool :=
  no_blank p && negb (bool_decide (p = "")).

(** A field of the record of [git_repo_id]. *)
Definition record_field (d : gmap string rval) (git_repo_id field : string) : option string :=
  match d !! git_repo_id with
  | Some (RHash h) => h !! field
  | _ => None
  end.

(** ** Notions of the further properties *)

(** What [HGETALL key] answers: the fields of a hash, nothing for a key
    that is not there. *)
Definition fields_at (d : gmap string rval) (key : string) : gmap string string :=
  match d !! key with
  | Some (RHash h) => h
  | _ => ∅
  end.

(** The keys [get_git_repositories] reads when no id is given: those
    that start with ['git_repo_id:'], without the counter. *)
Definition record_keys (d : gmap string rval) : list string :=
  filter (fun k => k <> "git_repo_id:id")
    (filter (fun k => String.prefix "git_repo_id:" k = true) (map_to_list d).*1).

(** The effects of removing one repository, with the URL its record has
    in the store [d]. *)
Definition removal_effects (env : environment) (d : gmap string rval) (git_repo : Py.jval)
  : list effect :=
  let url := default "" (registered_url d (id_key git_repo)) in
  [Rmtree (working_copy env url); Delete (id_key git_repo); Delete url].

(** [repo_name]: what follows the last ['/'] of a URL. *)
Definition repo_name (url : string) : string := Py.last_item (Py.split_on "/" url).

(** Whether a text has a ['/'] in it. *)
Fixpoint has_slash (s : string) : bool :=
  match s with
  | EmptyString => false
  | String c r => Ascii.eqb c "/" || has_slash r
  end.

(** The fields of the dict [update_repo_stats] writes. *)
Definition stats_fields : list string :=
  ["recent_committer"; "current_revision"; "last_5_messages"; "total_files";
   "disk_usage"; "last_checkout"].

(** A computation that changes nothing in the store but statistics
    fields of the record of [id]. *)
Definition only_stats {A} (id : string) (m : M A) : Prop :=
  forall w out w', m w = (out, w') ->
    (forall k, k <> id -> db w' !! k = db w !! k)
    /\ (forall f, f ∉ stats_fields -> record_field (db w') id f = record_field (db w) id f).

(** A computation that never waits for a lock and raises nothing but the
    two exceptions of redis-py. *)
Definition store_errors_only {A} (m : M A) : Prop :=
  forall w out w', m w = (out, w') ->
    out <> Blocked /\ forall e, out = Raise e -> e = ResponseError \/ e = DataError.

(** ** A small installation to run the handlers on *)

Definition demo_url : string := "https://github.com/galkindmitrii/HapticFeedback".

(** The request of [client.py]. *)
Definition demo_repository : gmap string Py.jval :=
  <["url" := Py.JStr demo_url]>
  (<["branch" := Py.JStr "master"]>
  (<["revision" := Py.JStr "60f36e54065bd44bfd29f5efd7ba88efc2c0c970"]> ∅)).

Definition demo_other_branch : gmap string Py.jval :=
  <["url" := Py.JStr demo_url]> (<["branch" := Py.JStr "develop"]> ∅).

(** A git that clones by leaving an index of 120 bytes, tracks the files
    [tracked], and whose checkouts raise [checkout_error] if one is given;
    [du_output] is what [du -sh] prints. *)
Definition demo_env (tracked : list string) (checkout_error : option git_exc)
  (du_output : option string) : environment :=
  Environment "/home/gitstat"
    has_scheme
    (fun url path branch f => (None, <[Py.path_join path ".git/index" := 120%N]> f))
    (fun path f => None)
    (fun path ref f => (checkout_error, f))
    (fun path f => [Commit "Dmitry Galkin" "60f36e54065bd44bfd29f5efd7ba88efc2c0c970" "init"])
    (fun path f => tracked)
    (fun path f => du_output)
    (String.concat ", ").

(** [demo_quiet_env] is for what does not run git; its [du] fails. *)
Definition demo_quiet_env : environment := demo_env [] None None.
Definition demo_update_env : environment := demo_env ["README.md"] None (Some "440K").
Definition demo_failing_env : environment := demo_env [] (Some CheckoutError) (Some "440K").
Definition demo_blank_env : environment := demo_env ["my file.txt"] None (Some "440K").

Definition demo_empty : world := World ∅ ∅ ∅ "Thu, 05 Nov 2015 19:10:44" [].

(** The URL registered, and then cloned by the process that was started. *)
Definition demo_registered : world :=
  (clone_checkout_git_repository demo_url demo_repository demo_empty).2.

Definition demo_cloned : world :=
  (run_git_clone_or_checkout (demo_env ["README.md"; "setup.py"] None (Some "440K")) 1
     "git_repo_id:1" demo_registered).2.

Definition demo_record : gmap string string :=
  match db demo_cloned !! "git_repo_id:1" with
  | Some (RHash h) => h
  | _ => ∅
  end.

(** The URL registered a second time, for another branch. *)
Definition demo_second : outcome string * world :=
  clone_checkout_git_repository demo_url demo_other_branch demo_registered.

(** The process run again on the clone: with a git that works, with one
    whose checkout raises, and on a file with a blank in its name. *)
Definition demo_update : outcome unit * world :=
  run_git_clone_or_checkout demo_update_env 2 "git_repo_id:1" demo_cloned.
Definition demo_failed_update : outcome unit * world :=
  run_git_clone_or_checkout demo_failing_env 2 "git_repo_id:1" demo_cloned.
Definition demo_blank_update : outcome unit * world :=
  run_git_clone_or_checkout demo_blank_env 2 "git_repo_id:1" demo_cloned.

(** The clone removed, and a batch that names an unknown id before it. *)
Definition demo_removed : world :=
  (remove_repos_by_id demo_quiet_env [Py.JInt 1] demo_cloned).2.
Definition demo_batch : outcome unit * world :=
  remove_repos_by_id demo_quiet_env [Py.JInt 2; Py.JInt 1] demo_cloned.

(** A URL that ends with a slash, registered and cloned; another URL with
    the last segment of [demo_url]. *)
Definition demo_slash_url : string := "https://github.com/galkindmitrii/HapticFeedback/".
Definition demo_slash_cloned : world :=
  (run_git_clone_or_checkout demo_update_env 1 "git_repo_id:1"
     (clone_checkout_git_repository demo_slash_url {["url" := Py.JStr demo_slash_url]}
        demo_empty).2).2.
Definition demo_fork_url : string := "https://github.com/someone/HapticFeedback".

(** A second repository, registered and cloned next to the first. *)
Definition demo_other_url : string := "https://github.com/galkindmitrii/openstack_swift_s3".
Definition demo_two_cloned : world :=
  (run_git_clone_or_checkout demo_update_env 3 "git_repo_id:2"
     (clone_checkout_git_repository demo_other_url {["url" := Py.JStr demo_other_url]}
        demo_cloned).2).2.
(** The clone of [demo_url] while another process holds its lock; a git
    that cannot reach any remote. *)
Definition demo_locked : world := set_flocks {["HapticFeedback.lock" := 7%N]} demo_cloned.
Definition demo_offline_env : environment :=
  Environment "/home/gitstat"
    has_scheme
    (fun url path branch f => (Some GitCommandError, f))
    (fun path f => Some NoSuchPathError)
    (fun path ref f => (Some GitCommandError, f))
    (fun path f => [])
    (fun path f => [])
    (fun path f => None)
    (String.concat ", ").

(** The request of [client.py] served on the empty store, and again once
    the repository has been removed; the same request without its URL. *)
Definition demo_accepted : outcome response * world :=
  serve demo_quiet_env (POST (Json demo_repository)) demo_empty.
Definition demo_no_url : http_request := POST (Json (delete "url" demo_repository)).

(** The store of [run_tests.py]: one record, written by the test itself. *)
Definition test_repo_stats : gmap string string :=
  {["disk_usage" := "440K";
    "last_checkout" := "Thu, 05 Nov 2015 19:10:44 +0000";
    "url" := "https://github.com/galkindmitrii/openstack_swift_s3";
    "current_revision" := "31e695b60cde8149340303d1e282f194128cc676";
    "recent_committer" := "Dmitry Galkin"]}.
Definition test_world : world :=
  (Redis.hmset "git_repo_id:1" test_repo_stats demo_empty).2.

(** * Properties *)

(** ** Results of a computation *)

Lemma run_result {A} (m : M A) w : m w = ((m w).1, (m w).2).
Proof. by destruct (m w). Qed.

Lemma run_outcome {A} (m : M A) w o : (m w).1 = o -> m w = (o, (m w).2).
Proof. destruct (m w). simpl. by intros ->. Qed.

(** ** Strings and numbers *)

Example split_on_url :
  Py.last_item (Py.split_on "/" "https://github.com/galkindmitrii/HapticFeedback")
  = "HapticFeedback".
Proof. reflexivity. Qed.

Example split_words :
  Py.split ("  a b" +:+ nl +:+ "c  ") = ["a"; "b"; "c"].
Proof. reflexivity. Qed.

Example path_join_ex :
  Py.path_join (Py.path_join "/root" "git_repositories/") "x" = "/root/git_repositories/x".
Proof. reflexivity. Qed.

Example str_int_ex : Py.str_int (-120) = "-120" /\ Py.str_int 0 = "0".
Proof. split; reflexivity. Qed.

Lemma parse_int_str_int z : Redis.parse_int (Py.str_int z) = Some z.
Proof.
  unfold Redis.parse_int, Py.str_int.
  rewrite NilZero.isi.
  - rewrite DecimalZ.of_to. rewrite decide_True; done.
  - destruct z as [|p|p]; simpl; [done| |done].
    intros [= H]. by apply DecimalPos.Unsigned.to_uint_nonnil in H.
  - destruct z as [|p|p]; simpl; [done|done|].
    intros [= H]. by apply DecimalPos.Unsigned.to_uint_nonnil in H.
Qed.

Lemma parse_int_Some s z : Redis.parse_int s = Some z -> s = Py.str_int z.
Proof.
  unfold Redis.parse_int. destruct (NilZero.int_of_string s); [|done].
  case_decide; [|done]. congruence.
Qed.

#[global] Instance str_int_inj : Inj (=) (=) Py.str_int.
Proof.
  intros x y H. apply (f_equal Redis.parse_int) in H.
  rewrite !parse_int_str_int in H. congruence.
Qed.

Lemma str_int_head z : numeric_head (Py.str_int z) = true.
Proof.
  unfold Py.str_int. destruct (Z.to_int z) as [d|d]; [|reflexivity].
  destruct d; reflexivity.
Qed.

Lemma numeric_head_no_scheme s : numeric_head s = true -> has_scheme s = false.
Proof. destruct s as [|c r]; [done|]. simpl. by destruct (is_alpha c). Qed.

Lemma strip_prefix_Some p s r : strip_prefix p s = Some r <-> s = p +:+ r.
Proof.
  revert s. induction p as [|a p IH]; intros s; simpl.
  - split; [intros [= ->]|intros ->]; reflexivity.
  - destruct s as [|b s]; [split; discriminate|].
    destruct (Ascii.eqb_spec a b) as [->|Hne].
    + rewrite IH. split; [intros ->; reflexivity|]. intros [= ->]. reflexivity.
    + split; [done|]. intros [= -> ->]. done.
Qed.

Lemma key_id_repo_key n : key_id (repo_key n) = Some n.
Proof.
  unfold key_id, repo_key.
  assert (strip_prefix "git_repo_id:" ("git_repo_id:" +:+ Py.str_int n) = Some (Py.str_int n))
    as -> by by apply strip_prefix_Some.
  apply parse_int_str_int.
Qed.

Lemma key_id_Some k n : key_id k = Some n -> k = repo_key n.
Proof.
  unfold key_id, repo_key.
  destruct (strip_prefix _ k) as [r|] eqn:Hr; [|done].
  apply strip_prefix_Some in Hr as ->. by intros ->%parse_int_Some.
Qed.

#[global] Instance repo_key_inj : Inj (=) (=) repo_key.
Proof.
  intros x y H. apply (f_equal key_id) in H. rewrite !key_id_repo_key in H. congruence.
Qed.

Lemma repo_key_not_counter n : repo_key n <> counter_key.
Proof.
  unfold repo_key, counter_key. intros H.
  change "git_repo_id:id" with ("git_repo_id:" +:+ "id") in H.
  apply (inj _) in H. pose proof (str_int_head n) as Hh. rewrite H in Hh. done.
Qed.

(** ** Stores the handlers can produce *)

Lemma record_ok_spec d c k h :
  record_ok d c k h = true <->
  exists n, k = repo_key n /\ 1 <= n <= c
            /\ forall u, h !! "url" = Some u -> d !! u = Some (RStr k).
Proof.
  unfold record_ok. split.
  - destruct (key_id k) as [n|] eqn:Hk; [|done].
    apply key_id_Some in Hk as ->.
    rewrite !andb_true_iff, !Z.leb_le. intros [[??] Hu].
    exists n. split_and!; try done. intros u Hu'. rewrite Hu' in Hu.
    by apply bool_decide_eq_true in Hu.
  - intros (n & -> & [??] & Hu). rewrite key_id_repo_key.
    rewrite !andb_true_iff, !Z.leb_le. split_and!; try done.
    destruct (h !! "url") as [u|]; [|done]. apply bool_decide_eq_true. by apply Hu.
Qed.

Lemma mapping_ok_spec d k s :
  mapping_ok d k s = true <->
  k = counter_key
  \/ has_scheme k = true /\ exists h, d !! s = Some (RHash h) /\ h !! "url" = Some k.
Proof.
  unfold mapping_ok. rewrite orb_true_iff, andb_true_iff, bool_decide_eq_true.
  split; (intros [?|[? H]]; [by left|right; split; [done|]]).
  - destruct (d !! s) as [[|h]|]; try done. exists h. split; [done|].
    by apply bool_decide_eq_true in H.
  - destruct H as (h & -> & ?). by apply bool_decide_eq_true.
Qed.

Lemma store_ok_spec d : store_ok d = true <-> exists c, wf d c.
Proof.
  unfold store_ok. split.
  - destruct (counter d) as [c|] eqn:Hc; [|done].
    rewrite andb_true_iff, Z.leb_le, forallb_forall. intros [? Hall].
    exists c. split; [done..| |].
    + intros k h Hk. apply record_ok_spec.
      apply (Hall (k, RHash h)). apply list_elem_of_In. by apply elem_of_map_to_list.
    + intros k s Hk. apply mapping_ok_spec.
      apply (Hall (k, RStr s)). apply list_elem_of_In. by apply elem_of_map_to_list.
  - intros [c [Hc ? Hr Hm]]. rewrite Hc.
    rewrite andb_true_iff, Z.leb_le, forallb_forall. split; [done|].
    intros [k [s|h]] Hin%list_elem_of_In%elem_of_map_to_list; unfold entry_ok; simpl.
    + apply mapping_ok_spec. by apply Hm.
    + apply record_ok_spec. by apply Hr.
Qed.

Section Invariant.
Context (d : gmap string rval) (c : Z) (Hwf : wf d c).

Lemma wf_counter_lookup :
  d !! counter_key = None /\ c = 0 \/ d !! counter_key = Some (RStr (Py.str_int c)).
Proof.
  pose proof (wf_counter _ _ Hwf) as Hc. unfold counter in Hc.
  destruct (d !! counter_key) as [[s|h]|]; [|done|].
  - right. by apply parse_int_Some in Hc as ->.
  - left. split; congruence.
Qed.

Lemma wf_hash_key k h : d !! k = Some (RHash h) ->
  k <> counter_key /\ has_scheme k = false /\ exists n, k = repo_key n /\ 1 <= n <= c.
Proof.
  intros (n & -> & ? & _)%(wf_record _ _ Hwf).
  split_and!; [apply repo_key_not_counter|done|eauto].
Qed.

Lemma wf_mapping_url k s : d !! k = Some (RStr s) -> k <> counter_key ->
  has_scheme k = true /\ exists h, d !! s = Some (RHash h) /\ h !! "url" = Some k.
Proof. intros [?|?]%(wf_mapping _ _ Hwf) ?; done. Qed.

Lemma wf_url_field k h u : d !! k = Some (RHash h) -> h !! "url" = Some u ->
  d !! u = Some (RStr k) /\ has_scheme u = true /\ u <> counter_key.
Proof.
  intros Hk Hu. destruct (wf_record _ _ Hwf _ _ Hk) as (n & -> & ? & Hmap).
  specialize (Hmap _ Hu). split; [done|].
  assert (u <> counter_key) as Hne.
  { intros ->. destruct wf_counter_lookup as [[? _]|Hs]; [congruence|].
    rewrite Hs in Hmap. injection Hmap as Hmap.
    pose proof (str_int_head c) as Hh. rewrite Hmap in Hh. done. }
  split; [|done]. by destruct (wf_mapping_url _ _ Hmap Hne).
Qed.

Lemma wf_scheme_lookup u : has_scheme u = true ->
  d !! u = None
  \/ exists n h, 1 <= n <= c /\ d !! u = Some (RStr (repo_key n))
                 /\ d !! repo_key n = Some (RHash h) /\ h !! "url" = Some u.
Proof.
  intros Hu. destruct (d !! u) as [[s|h]|] eqn:Hlook; [|exfalso|by left].
  - right. assert (u <> counter_key) as Hne by (intros ->; done).
    destruct (wf_mapping_url _ _ Hlook Hne) as (_ & h & Hs & Hurl).
    destruct (wf_hash_key _ _ Hs) as (_ & _ & n & -> & ?). eauto 10.
  - destruct (wf_hash_key _ _ Hlook) as (_ & ? & _). congruence.
Qed.

Lemma wf_repo_key_lookup n :
  d !! repo_key n = None \/ exists h, 1 <= n <= c /\ d !! repo_key n = Some (RHash h).
Proof.
  destruct (d !! repo_key n) as [[s|h]|] eqn:Hlook; [exfalso| |by left].
  - destruct (wf_mapping _ _ Hwf _ _ Hlook) as [?|[? _]].
    + by eapply repo_key_not_counter.
    + done.
  - right. destruct (wf_hash_key _ _ Hlook) as (_ & _ & m & ->%(inj _) & ?). eauto.
Qed.

Lemma wf_repo_key_fresh n : c < n -> d !! repo_key n = None.
Proof. intros ?. destruct (wf_repo_key_lookup n) as [?|(h & ? & _)]; [done|lia]. Qed.

(** A hash is never found under the decimal form of a number, nor a string. *)
Lemma wf_numeric_key s : numeric_head s = true -> d !! s = None.
Proof.
  intros Hs. destruct (d !! s) as [[v|h]|] eqn:Hlook; [| |done]; exfalso.
  - destruct (wf_mapping _ _ Hwf _ _ Hlook) as [->|[? _]]; [done|].
    by rewrite numeric_head_no_scheme in *.
  - destruct (wf_hash_key _ _ Hlook) as (_ & _ & n & -> & _). done.
Qed.

End Invariant.

Lemma wf_register d c u m :
  wf d c -> has_scheme u = true -> d !! u = None -> m !! "url" = Some u ->
  wf (<[repo_key (c + 1) := RHash m]>
        (<[u := RStr (repo_key (c + 1))]>
           (<[counter_key := RStr (Py.str_int (c + 1))]> d))) (c + 1).
Proof.
  intros Hwf Hu Hnone Hm.
  pose proof (wf_nonneg _ _ Hwf).
  assert (u <> counter_key) as Hu1 by (intros ->; done).
  assert (forall n, u <> repo_key n) as Hu2 by (intros n ->; done).
  assert (d !! repo_key (c + 1) = None) as Hfresh by (eapply wf_repo_key_fresh; [done|lia]).
  pose proof (repo_key_not_counter (c + 1)) as Hk.
  split.
  - unfold counter. rewrite lookup_insert_ne, lookup_insert_ne, lookup_insert_eq by done.
    apply parse_int_str_int.
  - lia.
  - intros k h Hlook.
    destruct (decide (k = repo_key (c + 1))) as [->|Hne].
    + rewrite lookup_insert_eq in Hlook. injection Hlook as <-.
      exists (c + 1). split_and!; [done|lia|lia|].
      intros u' Hu'. assert (u' = u) as -> by congruence.
      rewrite lookup_insert_ne, lookup_insert_eq; done.
    + rewrite lookup_insert_ne in Hlook by done.
      destruct (decide (k = u)) as [->|?]; [by rewrite lookup_insert_eq in Hlook|].
      rewrite lookup_insert_ne in Hlook by done.
      destruct (decide (k = counter_key)) as [->|?]; [by rewrite lookup_insert_eq in Hlook|].
      rewrite lookup_insert_ne in Hlook by done.
      destruct (wf_record _ _ Hwf _ _ Hlook) as (j & -> & ? & Hmap).
      exists j. split_and!; [done|lia|lia|].
      intros u' Hu'. destruct (wf_url_field _ _ Hwf _ _ _ Hlook Hu') as (Hl & ? & ?).
      rewrite !lookup_insert_ne; [done|congruence..].
  - intros k s Hlook.
    destruct (decide (k = counter_key)) as [->|Hne]; [by left|right].
    destruct (decide (k = repo_key (c + 1))) as [->|?]; [by rewrite lookup_insert_eq in Hlook|].
    rewrite lookup_insert_ne in Hlook by done.
    destruct (decide (k = u)) as [->|?].
    + rewrite lookup_insert_eq in Hlook. injection Hlook as <-.
      split; [done|]. exists m. by rewrite lookup_insert_eq.
    + rewrite !lookup_insert_ne in Hlook by done.
      destruct (wf_mapping_url _ _ Hwf _ _ Hlook Hne) as (? & h & Hs & ?).
      destruct (wf_hash_key _ _ Hwf _ _ Hs) as (? & _).
      split; [done|]. exists h. split; [|done].
      rewrite !lookup_insert_ne; [done|congruence..].
Qed.

Lemma wf_update d c k h h' :
  wf d c -> d !! k = Some (RHash h) -> h' !! "url" = h !! "url" ->
  wf (<[k := RHash h']> d) c.
Proof.
  intros Hwf Hk Hurl.
  destruct (wf_hash_key _ _ Hwf _ _ Hk) as (Hkc & Hks & n & -> & Hn).
  split.
  - unfold counter. rewrite lookup_insert_ne by done. apply Hwf.
  - apply Hwf.
  - intros k' h0 Hlook.
    assert (exists h1, d !! k' = Some (RHash h1) /\ h0 !! "url" = h1 !! "url") as (h1 & Hl1 & Hu1).
    { destruct (decide (k' = repo_key n)) as [->|?].
      - rewrite lookup_insert_eq in Hlook. injection Hlook as <-. eauto.
      - rewrite lookup_insert_ne in Hlook by done. eauto. }
    destruct (wf_record _ _ Hwf _ _ Hl1) as (m & -> & ? & Hmap).
    exists m. split_and!; [done|lia|lia|].
    intros u Hu. rewrite Hu1 in Hu.
    destruct (wf_url_field _ _ Hwf _ _ _ Hl1 Hu) as (Hl & ? & ?).
    rewrite lookup_insert_ne; [done|]. intros <-. done.
  - intros k' s Hlook.
    destruct (decide (k' = repo_key n)) as [->|?]; [by rewrite lookup_insert_eq in Hlook|].
    rewrite lookup_insert_ne in Hlook by done.
    destruct (wf_mapping _ _ Hwf _ _ Hlook) as [?|(? & h1 & Hs & Hu1)]; [by left|right].
    split; [done|].
    destruct (decide (s = repo_key n)) as [->|?].
    + rewrite lookup_insert_eq. exists h'. split; [done|]. congruence.
    + rewrite lookup_insert_ne by done. eauto.
Qed.

Lemma wf_remove d c k h u :
  wf d c -> d !! k = Some (RHash h) -> h !! "url" = Some u ->
  wf (delete u (delete k d)) c.
Proof.
  intros Hwf Hk Hurl.
  destruct (wf_hash_key _ _ Hwf _ _ Hk) as (Hkc & Hks & n & -> & Hn).
  destruct (wf_url_field _ _ Hwf _ _ _ Hk Hurl) as (Hu & Hus & Huc).
  split.
  - unfold counter. rewrite !lookup_delete_ne by done. apply Hwf.
  - apply Hwf.
  - intros k' h0 [? [? Hlook]%lookup_delete_Some]%lookup_delete_Some.
    destruct (wf_record _ _ Hwf _ _ Hlook) as (m & -> & ? & Hmap).
    exists m. split_and!; [done|lia|lia|].
    intros u' Hu'. destruct (wf_url_field _ _ Hwf _ _ _ Hlook Hu') as (Hl & ? & ?).
    rewrite !lookup_delete_ne; [done|intros <-; done|intros <-; congruence].
  - intros k' s [? [? Hlook]%lookup_delete_Some]%lookup_delete_Some.
    destruct (wf_mapping _ _ Hwf _ _ Hlook) as [?|(? & h1 & Hs & Hu1)]; [by left|right].
    split; [done|]. exists h1. split; [|done].
    rewrite !lookup_delete_ne; [done|intros <-; congruence|intros <-; congruence].
Qed.

(** ** Registration *)

Lemma fmap_str_nonempty (repository : gmap string Py.jval) v :
  repository !! "url" = Some v -> Py.str <$> repository <> ∅.
Proof.
  intros H Hm. apply (f_equal (fun m => m !! "url")) in Hm.
  rewrite lookup_fmap, H, lookup_empty in Hm. done.
Qed.

Lemma truthy_Some s : s <> "" -> Py.truthy (Some s) = true.
Proof. by destruct s. Qed.

Lemma incr_counter w c :
  counter (db w) = Some c ->
  Redis.incr counter_key w =
  (Ret (c + 1),
   record (Incr counter_key (c + 1))
     (set_db (<[counter_key := RStr (Py.str_int (c + 1))]> (db w)) w)).
Proof.
  unfold counter, Redis.incr. destruct (db w !! counter_key) as [[s|h]|]; [|done|].
  - by intros ->.
  - by intros [= <-].
Qed.

Lemma clone_checkout_known w url id h repository :
  db w !! url = Some (RStr id) -> id <> "" -> db w !! id = Some (RHash h) ->
  Py.str <$> repository <> ∅ ->
  let d' := <[id := RHash ((Py.str <$> repository) ∪ h)]> (db w) in
  clone_checkout_git_repository url repository w =
  (Ret id,
   World d' (files w) (flocks w) (now w)
     (trace w ++ [(HmSet id (Py.str <$> repository), d'); (Spawn id, d')])).
Proof.
  intros Hurl Hid Hrec Hne d'.
  unfold clone_checkout_git_repository, bind, Redis.get. rewrite Hurl.
  rewrite truthy_Some by done. simpl.
  unfold Redis.hmset. rewrite decide_False by done. rewrite Hrec.
  unfold Redis.write, start_process, record, set_db. simpl.
  rewrite <- !app_assoc. reflexivity.
Qed.

Lemma clone_checkout_fresh w url c repository :
  db w !! url = None -> counter (db w) = Some c -> url <> counter_key ->
  db w !! repo_key (c + 1) = None -> url <> repo_key (c + 1) ->
  Py.str <$> repository <> ∅ ->
  let id := repo_key (c + 1) in
  let d1 := <[counter_key := RStr (Py.str_int (c + 1))]> (db w) in
  let d2 := <[url := RStr id]> d1 in
  let d3 := <[id := RHash (Py.str <$> repository)]> d2 in
  clone_checkout_git_repository url repository w =
  (Ret id,
   World d3 (files w) (flocks w) (now w)
     (trace w ++ [(Incr counter_key (c + 1), d1); (GetSet url id, d2);
                  (HmSet id (Py.str <$> repository), d3); (Spawn id, d3)])).
Proof.
  intros Hurl Hc Hu1 Hfresh Hu2 Hne id d1 d2 d3.
  unfold clone_checkout_git_repository, bind, Redis.get. rewrite Hurl. simpl.
  change "git_repo_id:id" with counter_key. rewrite (incr_counter _ _ Hc).
  unfold Redis.getset. simpl. rewrite lookup_insert_ne, Hurl by done.
  unfold ret, Redis.hmset. rewrite decide_False by done. simpl.
  fold (repo_key (c + 1)). fold id. fold d1. fold d2.
  assert (d2 !! id = None) as ->.
  { unfold d2, d1. rewrite !lookup_insert_ne; [done|..]; [by apply not_eq_sym, repo_key_not_counter|done]. }
  unfold Redis.write, start_process, record, set_db. simpl.
  rewrite <- !app_assoc. reflexivity.
Qed.

Lemma wf_records_for d c u k h :
  wf d c -> d !! k = Some (RHash h) -> h !! "url" = Some u -> records_for u d = {[ k ]}.
Proof.
  intros Hwf Hk Hu. apply set_eq. intros k'.
  unfold records_for. rewrite elem_of_dom, elem_of_singleton. split.
  - intros [v [Hk' Hv]%map_lookup_filter_Some]. simpl in Hv.
    destruct v as [s|h']; [done|]. simpl in Hv. apply bool_decide_eq_true in Hv.
    destruct (wf_url_field _ _ Hwf _ _ _ Hk Hu) as (H1 & _).
    destruct (wf_url_field _ _ Hwf _ _ _ Hk' Hv) as (H2 & _). congruence.
  - intros ->. exists (RHash h). apply map_lookup_filter_Some. split; [done|].
    simpl. by apply bool_decide_eq_true.
Qed.

Lemma effects_since_trace w w' l :
  trace w' = trace w ++ l -> effects_since w w' = l.*1.
Proof. unfold effects_since. intros ->. by rewrite drop_app_length. Qed.

(** Registering a URL: what [clone_checkout_git_repository] does on a store
    the handlers can produce. *)
Lemma clone_checkout_wf w c url repository :
  wf (db w) c -> has_scheme url = true -> repository !! "url" = Some (Py.JStr url) ->
  exists n h w',
    clone_checkout_git_repository url repository w = (Ret (repo_key n), w')
    /\ db w' !! url = Some (RStr (repo_key n))
    /\ db w' !! repo_key n = Some (RHash h)
    /\ h !! "url" = Some url
    /\ files w' = files w /\ flocks w' = flocks w
    /\ (db w !! url = None /\ n = c + 1 /\ wf (db w') (c + 1)
        /\ h = Py.str <$> repository
        \/ exists h0, db w !! url = Some (RStr (repo_key n)) /\ wf (db w') c
           /\ db w !! repo_key n = Some (RHash h0)
           /\ h = (Py.str <$> repository) ∪ h0
           /\ db w' = <[repo_key n := RHash h]> (db w)
           /\ trace w' = trace w ++ [(HmSet (repo_key n) (Py.str <$> repository), db w');
                                     (Spawn (repo_key n), db w')]).
Proof.
  intros Hwf Hu Hrepo.
  pose proof (fmap_str_nonempty _ _ Hrepo) as Hne.
  assert ((Py.str <$> repository) !! "url" = Some url) as Hm by by rewrite lookup_fmap, Hrepo.
  assert (url <> counter_key) as Huc by (intros ->; done).
  destruct (wf_scheme_lookup _ _ Hwf _ Hu) as [Hnone|(n & h0 & Hn & Hmap & Hrec & Hurl)].
  - assert (db w !! repo_key (c + 1) = None) as Hfresh by (eapply wf_repo_key_fresh; [done|lia]).
    assert (url <> repo_key (c + 1)) as Hur by (intros ->; done).
    eexists (c + 1), (Py.str <$> repository), _. split.
    { apply clone_checkout_fresh; try done. apply Hwf. }
    simpl. split_and!; try done.
    + rewrite lookup_insert_ne by congruence. by rewrite lookup_insert_eq.
    + by rewrite lookup_insert_eq.
    + left. split_and!; try done. by apply wf_register.
  - eexists n, ((Py.str <$> repository) ∪ h0), _. split.
    { eapply clone_checkout_known; try done. }
    simpl. split_and!; try done.
    + rewrite lookup_insert_ne; [done|]. intros <-. done.
    + by rewrite lookup_insert_eq.
    + by rewrite lookup_union_l'.
    + right. exists h0. split_and!; try done.
      eapply wf_update; [done..|]. rewrite lookup_union_l' by done. congruence.
Qed.

(** ** Locks *)

Lemma lock_free_ret {A} (a : A) : lock_free (ret a).
Proof. intros w out w' [= <- <-]. split_and!; [done..|]. exists []. by rewrite app_nil_r. Qed.

Lemma lock_free_raise {A} e : lock_free (@raise A e).
Proof. intros w out w' [= <- <-]. split_and!; [done..|]. exists []. by rewrite app_nil_r. Qed.

Lemma lock_free_bind {A B} (m : M A) (k : A -> M B) :
  lock_free m -> (forall a, lock_free (k a)) -> lock_free (bind m k).
Proof.
  intros Hm Hk w out w' Hrun. unfold bind in Hrun.
  destruct (m w) as [[a|e|] w1] eqn:Hmw; destruct (Hm _ _ _ Hmw) as (Hf & Hb & l & Hl).
  - destruct (Hk a _ _ _ Hrun) as (Hf' & Hb' & l' & Hl').
    split_and!; [congruence|done|]. exists (l ++ l'). by rewrite Hl', Hl, app_assoc.
  - injection Hrun as <- <-. split_and!; [done..|eauto].
  - done.
Qed.

Lemma lock_free_try_git {A} (m : M A) (k : git_exc -> M A) :
  lock_free m -> (forall e, lock_free (k e)) -> lock_free (try_git m k).
Proof.
  intros Hm Hk w out w' Hrun. unfold try_git in Hrun.
  destruct (m w) as [[a|e|] w1] eqn:Hmw; destruct (Hm _ _ _ Hmw) as (Hf & Hb & l & Hl);
    [by simplify_eq; eauto| |done].
  destruct e as [| | |g| | | | |]; try by simplify_eq; eauto.
  destruct (Hk g _ _ _ Hrun) as (Hf' & Hb' & l' & Hl').
  split_and!; [congruence|done|]. exists (l ++ l'). by rewrite Hl', Hl, app_assoc.
Qed.

Lemma lock_free_record_db {A} (f : world -> outcome A * world) :
  (forall w, (f w).2 = w
             \/ exists e d fs, (f w).1 <> Blocked
                  /\ (f w).2 = World d fs (flocks w) (now w) (trace w ++ [(e, d)])) ->
  (forall w, (f w).1 <> Blocked) ->
  lock_free f.
Proof.
  intros Hf Hb w out w' Hrun. specialize (Hf w). specialize (Hb w). rewrite Hrun in Hf, Hb.
  simpl in *. destruct Hf as [->|(e & d & fs & _ & ->)].
  - split_and!; [done..|]. exists []. by rewrite app_nil_r.
  - split_and!; [done..|]. eauto.
Qed.

Ltac lock_free_prim :=
  apply lock_free_record_db;
  [ intros w; cbv beta delta
      [Redis.get Redis.hmget Redis.hgetall Redis.hmset Redis.hdel Redis.delete Redis.incr
       Redis.getset Redis.write get_files strftime_localtime start_process rmtree log_error
       git_clone_from git_repo git_checkout record set_db set_files];
    repeat case_match; simpl; eauto 10
  | intros w; cbv beta delta
      [Redis.get Redis.hmget Redis.hgetall Redis.hmset Redis.hdel Redis.delete Redis.incr
       Redis.getset Redis.write get_files strftime_localtime start_process rmtree log_error
       git_clone_from git_repo git_checkout record set_db set_files];
    repeat case_match; simpl; done ].

Lemma lock_free_hmget k f : lock_free (Redis.hmget k f).
Proof. lock_free_prim. Qed.
Lemma lock_free_hmset k m : lock_free (Redis.hmset k m).
Proof. lock_free_prim. Qed.
Lemma lock_free_hdel k f : lock_free (Redis.hdel k f).
Proof. lock_free_prim. Qed.
Lemma lock_free_get_files : lock_free get_files.
Proof. lock_free_prim. Qed.
Lemma lock_free_strftime : lock_free strftime_localtime.
Proof. lock_free_prim. Qed.
Lemma lock_free_log_error e : lock_free (log_error e).
Proof. lock_free_prim. Qed.
Lemma lock_free_git_repo env p : lock_free (git_repo env p).
Proof. lock_free_prim. Qed.
Lemma lock_free_git_checkout env p r : lock_free (git_checkout env p r).
Proof. lock_free_prim. Qed.
Lemma lock_free_git_clone_from env u p b : lock_free (git_clone_from env u p b).
Proof. lock_free_prim. Qed.

Create HintDb lock_free.
#[local] Hint Resolve lock_free_ret lock_free_raise lock_free_hmget lock_free_hmset
  lock_free_hdel lock_free_get_files lock_free_strftime lock_free_log_error
  lock_free_git_repo lock_free_git_checkout lock_free_git_clone_from : lock_free.

Ltac lock_free_go :=
  repeat first
    [ progress eauto with lock_free
    | apply lock_free_bind; [|intros ?]
    | apply lock_free_try_git; [|intros ?]
    | match goal with
      | |- lock_free (match ?x with _ => _ end) => destruct x
      | |- lock_free (if ?x then _ else _) => destruct x
      | |- lock_free (let '(_, _) := ?x in _) => destruct x
      end ].

Lemma lock_free_check_repo_was_cloned p id : lock_free (check_repo_was_cloned p id).
Proof. unfold check_repo_was_cloned. lock_free_go. Qed.

Lemma lock_free_update_repo_stats env id p : lock_free (update_repo_stats env id p).
Proof. unfold update_repo_stats, check_output_du, ls_files. lock_free_go. Qed.
#[local] Hint Resolve lock_free_check_repo_was_cloned lock_free_update_repo_stats : lock_free.

Lemma registered_url_Some d id url :
  registered_url d id = Some url <-> exists h, d !! id = Some (RHash h) /\ h !! "url" = Some url.
Proof.
  unfold registered_url. split.
  - destruct (d !! id) as [[s|h]|]; try done. eauto.
  - by intros (h & -> & ?).
Qed.

Lemma release_held file pid (l : gmap string N) :
  l !! file = None -> release file pid (<[file := pid]> l) = l.
Proof.
  intros H. unfold release. rewrite lookup_insert_eq, decide_True by done.
  by rewrite delete_insert_id.
Qed.

Lemma release_free file pid (l : gmap string N) :
  l !! file = None -> release file pid l = l.
Proof. intros H. unfold release. rewrite H. by rewrite decide_False. Qed.

Lemma bind_Ret {A B} (m : M A) (k : A -> M B) w a w1 :
  m w = (Ret a, w1) -> bind m k w = k a w1.
Proof. unfold bind. by intros ->. Qed.

Lemma bind_Raise {A B} (m : M A) (k : A -> M B) w e w1 :
  m w = (Raise e, w1) -> bind m k w = (Raise e, w1).
Proof. unfold bind. by intros ->. Qed.

Lemma hmget_hash w k f h :
  db w !! k = Some (RHash h) -> Redis.hmget k f w = (Ret (h !! f), w).
Proof. unfold Redis.hmget. by intros ->. Qed.

Lemma hmget_None w k f :
  db w !! k = None -> Redis.hmget k f w = (Ret None, w).
Proof. unfold Redis.hmget. by intros ->. Qed.

(** C6: a run of [run_git_clone_or_checkout] that takes the lock of its
    repository (the record names a URL and nobody holds the lock) never
    ends holding it, whichever way it ends: it returns, also when a git
    operation raised and was logged, or it raises another exception; the
    locks are then as they were at entry, the lock was taken right after
    the lock file was opened, and closing that file is the last effect.
    On a return the explicit unlock comes just before. *)
Theorem lock_released env pid git_repo_id w url out w' :
  registered_url (db w) git_repo_id = Some url ->
  flocks w !! lock_file url = None ->
  run_git_clone_or_checkout env pid git_repo_id w = (out, w') ->
  out <> Blocked
  /\ flocks w' !! lock_file url = None
  /\ flocks w' = flocks w
  /\ exists mid,
       effects_since w w' = OpenW (lock_file url) :: Flock (lock_file url) :: mid
                            ++ [Close (lock_file url)]
       /\ (out = Ret tt -> exists mid', mid = mid' ++ [Funlock (lock_file url)]).
Proof.
  intros (h & Hrec & Hurl)%registered_url_Some Hfree.
  unfold run_git_clone_or_checkout.
  do 3 (erewrite bind_Ret; [|by apply hmget_hash]). rewrite Hurl.
  fold (lock_file url).
  unfold with_open_w. erewrite bind_Ret; [|by unfold flock_ex; simpl; rewrite Hfree].
  set (w1 := record (Flock (lock_file url)) _).
  unfold bind at 1.
  match goal with |- context [try_git ?b ?hd w1] =>
    assert (lock_free (try_git b hd)) as Hlf; [|destruct (try_git b hd w1) as [o w2] eqn:Hbody]
  end.
  { lock_free_go. }
  destruct (Hlf _ _ _ Hbody) as (Hfl & Hnb & l & Hl).
  assert (flocks w2 = <[lock_file url := pid]> (flocks w)) as Hfl2 by by rewrite Hfl.
  destruct o as [[]|e|]; [| |done].
  - intros [= <- <-]. simpl. rewrite Hfl2, release_held, release_free by done.
    split_and!; [done..|].
    exists (l.*1 ++ [Funlock (lock_file url)]). split; [|eauto].
    unfold effects_since. simpl. rewrite Hl. unfold w1. simpl.
    rewrite <- ?app_assoc. rewrite drop_app_length. simpl.
    rewrite ?fmap_app. simpl. by rewrite <- ?app_assoc.
  - intros [= <- <-]. simpl. rewrite Hfl2, release_held by done.
    split_and!; [done..|].
    exists (l.*1). split; [|done].
    unfold effects_since. simpl. rewrite Hl. unfold w1. simpl.
    rewrite <- ?app_assoc. rewrite drop_app_length. simpl.
    rewrite ?fmap_app. simpl. by rewrite <- ?app_assoc.
Qed.

Lemma lock_released_witness :
  (registered_url (db demo_cloned) "git_repo_id:1" = Some demo_url
   /\ flocks demo_cloned !! lock_file demo_url = None)
  /\ demo_failed_update.1 <> Blocked
  /\ flocks demo_failed_update.2 !! lock_file demo_url = None
  /\ flocks demo_failed_update.2 = flocks demo_cloned
  /\ exists mid,
       effects_since demo_cloned demo_failed_update.2
       = OpenW (lock_file demo_url) :: Flock (lock_file demo_url) :: mid
         ++ [Close (lock_file demo_url)]
       /\ (demo_failed_update.1 = Ret tt ->
           exists mid', mid = mid' ++ [Funlock (lock_file demo_url)]).
Proof.
  split; [split; vm_compute; reflexivity|].
  apply (lock_released demo_failing_env 2 "git_repo_id:1" demo_cloned demo_url);
    [vm_compute; reflexivity|vm_compute; reflexivity|apply run_result].
Defined.

(** The run above is one in which git raises: the error is logged, the
    lock given up, and [last_checkout] stays deleted. *)
Example failed_update_trace :
  demo_failed_update.1 = Ret tt
  /\ effects_since demo_cloned demo_failed_update.2
     = [OpenW "HapticFeedback.lock"; Flock "HapticFeedback.lock";
        HDel "git_repo_id:1" "last_checkout";
        OpenRepo "/home/gitstat/git_repositories/HapticFeedback" true;
        Checkout "/home/gitstat/git_repositories/HapticFeedback" "master" false;
        LogError CheckoutError;
        Funlock "HapticFeedback.lock"; Close "HapticFeedback.lock"]
  /\ last_checkout (db demo_failed_update.2) "git_repo_id:1" = None.
Proof. split_and!; vm_compute; reflexivity. Qed.

(** When [du] fails, the exception leaves the block: the explicit unlock
    is skipped and the lock goes with the file being closed. *)
Example du_failure_trace :
  (run_git_clone_or_checkout demo_quiet_env 2 "git_repo_id:1" demo_cloned).1
  = Raise CalledProcessError
  /\ effects_since demo_cloned
       (run_git_clone_or_checkout demo_quiet_env 2 "git_repo_id:1" demo_cloned).2
     = [OpenW "HapticFeedback.lock"; Flock "HapticFeedback.lock";
        HDel "git_repo_id:1" "last_checkout";
        OpenRepo "/home/gitstat/git_repositories/HapticFeedback" true;
        Checkout "/home/gitstat/git_repositories/HapticFeedback" "master" true;
        Checkout "/home/gitstat/git_repositories/HapticFeedback"
          "60f36e54065bd44bfd29f5efd7ba88efc2c0c970" true;
        Close "HapticFeedback.lock"]
  /\ flocks (run_git_clone_or_checkout demo_quiet_env 2 "git_repo_id:1" demo_cloned).2 = ∅.
Proof. split_and!; vm_compute; reflexivity. Qed.

(** ** The background process *)

Lemma last_char_app a b : b <> "" -> last_char (a +:+ b) = last_char b.
Proof.
  intros Hb. induction a as [|c a IH]; [done|].
  change (String c a +:+ b) with (String c (a +:+ b)). simpl.
  destruct (a +:+ b) eqn:Hab; [|done].
  destruct a; [|done]. by destruct b.
Qed.

Lemma lock_file_not_index env url :
  lock_file url <> Py.path_join (working_copy env url) ".git/index".
Proof.
  intros H. apply (f_equal last_char) in H. unfold lock_file, Py.path_join in H.
  rewrite !last_char_app in H by done. done.
Qed.

Lemma check_repo_was_cloned_eq env w url id :
  (forall s, db w !! id <> Some (RStr s)) ->
  check_repo_was_cloned (working_copy env url) id w = (Ret (materialized env w url id), w).
Proof.
  intros Hdb. unfold check_repo_was_cloned, materialized, last_checkout, bind, get_files.
  destruct (files w !! _) as [size|]; [|done].
  destruct (0 <? size)%N; [|done]. unfold Redis.hmget.
  destruct (db w !! id) as [[s|h]|]; [by destruct (Hdb s)|done..].
Qed.

Lemma hdel_hash w k f h :
  db w !! k = Some (RHash h) -> delete f h <> ∅ ->
  Redis.hdel k f w =
  (Ret tt, World (<[k := RHash (delete f h)]> (db w)) (files w) (flocks w) (now w)
             (trace w ++ [(HDel k f, <[k := RHash (delete f h)]> (db w))])).
Proof.
  intros Hk Hne. unfold Redis.hdel. rewrite Hk. simpl. by rewrite decide_False.
Qed.

Lemma hmset_hash w k m h :
  db w !! k = Some (RHash h) -> m <> ∅ ->
  Redis.hmset k m w =
  (Ret tt, World (<[k := RHash (m ∪ h)]> (db w)) (files w) (flocks w) (now w)
             (trace w ++ [(HmSet k m, <[k := RHash (m ∪ h)]> (db w))])).
Proof.
  intros Hk Hne. unfold Redis.hmset. rewrite decide_False by done. by rewrite Hk.
Qed.

Lemma repo_stats_lookup env w path du :
  repo_stats env w path du !! "last_checkout" = Some (now w)
  /\ repo_stats env w path du !! "url" = None
  /\ repo_stats env w path du <> ∅.
Proof.
  unfold repo_stats. split_and!.
  - do 5 (rewrite lookup_insert_ne by done). by rewrite lookup_insert_eq.
  - do 6 (rewrite lookup_insert_ne by done). done.
  - apply insert_non_empty.
Qed.

Lemma update_repo_stats_eq env id path w :
  update_repo_stats env id path w =
  match du_sh env path (files w) with
  | None => (Raise CalledProcessError, w)
  | Some out =>
      match Py.split out with
      | [] => (Raise IndexError, w)
      | tok :: _ => Redis.hmset id (repo_stats env w path tok) w
      end
  end.
Proof.
  unfold update_repo_stats, check_output_du, bind at 1 2, get_files.
  destruct (du_sh env path (files w)) as [out|]; [|done]. simpl.
  unfold bind at 1. destruct (Py.split out) as [|tok toks]; [done|]. simpl.
  unfold bind, strftime_localtime, get_files, ls_files, bind, get_files, ret. simpl.
  unfold repo_stats. destruct (take 5 _) as [|c cs]; reflexivity.
Qed.

Lemma try_git_Ret {A} (m : M A) hd w a w1 :
  m w = (Ret a, w1) -> try_git m hd w = (Ret a, w1).
Proof. unfold try_git. by intros ->. Qed.

Lemma try_git_GitError {A} (m : M A) hd w e w1 :
  m w = (Raise (GitError e), w1) -> try_git m hd w = hd e w1.
Proof. unfold try_git. by intros ->. Qed.

Lemma try_git_other {A} (m : M A) hd w e w1 :
  m w = (Raise e, w1) -> (forall g, e <> GitError g) -> try_git m hd w = (Raise e, w1).
Proof. unfold try_git. intros -> H. destruct e; try done. by destruct (H e). Qed.

Lemma bind_assoc {A B C} (m : M A) (k1 : A -> M B) (k2 : B -> M C) w :
  bind (bind m k1) k2 w = bind m (fun a => bind (k1 a) k2) w.
Proof. unfold bind. by destruct (m w) as [[a|e|] w1]. Qed.

Lemma bind_eq {A B} (m : M A) (k : A -> M B) w r :
  m w = r ->
  bind m k w = match r with
               | (Ret a, w1) => k a w1
               | (Raise e, w1) => (Raise e, w1)
               | (Blocked, w1) => (Blocked, w1)
               end.
Proof. unfold bind. by intros ->. Qed.

Lemma git_repo_eq env path w :
  git_repo env path w =
  match repo env path (files w) with
  | None => (Ret tt, World (db w) (files w) (flocks w) (now w)
                       (trace w ++ [(OpenRepo path true, db w)]))
  | Some e => (Raise (GitError e), World (db w) (files w) (flocks w) (now w)
                                     (trace w ++ [(OpenRepo path false, db w)]))
  end.
Proof. unfold git_repo. by destruct (repo env path (files w)). Qed.

Lemma git_checkout_eq env path ref w :
  git_checkout env path ref w =
  match checkout env path ref (files w) with
  | (None, f) => (Ret tt, World (db w) f (flocks w) (now w)
                            (trace w ++ [(Checkout path ref true, db w)]))
  | (Some e, f) => (Raise (GitError e), World (db w) f (flocks w) (now w)
                                          (trace w ++ [(Checkout path ref false, db w)]))
  end.
Proof. unfold git_checkout. by destruct (checkout env path ref (files w)) as [[e|] f]. Qed.

Lemma update_block env git_repo_id url h w out w' :
  db w !! git_repo_id = Some (RHash h) -> h !! "url" = Some url ->
  materialized env w url git_repo_id = true ->
  let path := working_copy env url in
  let rev := h !! "revision" in
  let script := update_script path (requested_branch h) rev in
  let d1 := <[git_repo_id := RHash (delete "last_checkout" h)]> (db w) in
  materialize_block env git_repo_id url path (requested_branch h) rev w = (out, w') ->
  flocks w' = flocks w
  /\ exists k tail,
       trace w' = trace w ++ [(HDel git_repo_id "last_checkout", d1)]
                  ++ ((fun e => (e, d1)) <$> attempt script k) ++ tail
       /\ ((length script <= k)%nat /\ out = Ret tt
           /\ (exists stats,
                stats !! "last_checkout" = Some (now w)
                /\ (let d2 := <[git_repo_id := RHash (stats ∪ delete "last_checkout" h)]> d1 in
                    tail = [(HmSet git_repo_id stats, d2)] /\ db w' = d2))
           \/ (length script <= k)%nat /\ (exists e, out = Raise e /\ forall g, e <> GitError g)
              /\ tail = [] /\ db w' = d1
           \/ (k < length script)%nat /\ (exists g, out = Raise (GitError g))
              /\ tail = [] /\ db w' = d1).
Proof.
  intros Hrec Hurl Hmat path rev script d1.
  assert (delete "last_checkout" h <> ∅) as Hne.
  { intros He. apply (f_equal (fun m => m !! "url")) in He.
    rewrite lookup_delete_ne, Hurl, lookup_empty in He; done. }
  unfold materialize_block.
  erewrite bind_Ret;
    [|unfold path; rewrite check_repo_was_cloned_eq, Hmat; [done|by intros s; rewrite Hrec]].
  cbv beta iota. rewrite ?bind_assoc.
  erewrite bind_Ret; [|by apply hdel_hash]. fold d1.
  cbv beta iota. rewrite ?bind_assoc.
  erewrite bind_eq; [|apply git_repo_eq]. cbn [db files flocks now trace].
  destruct (repo env path (files w)) as [g|].
  { intros [= <- <-]. split; [done|].
    exists 0%nat, []. split; [simpl; by rewrite <- ?app_assoc|]. right; right.
    split_and!; eauto. unfold script, update_script. simpl. lia. }
  cbv beta iota. rewrite ?bind_assoc.
  erewrite bind_eq; [|apply git_checkout_eq]. cbn [db files flocks now trace].
  destruct (checkout env path (requested_branch h) (files w)) as [[g|] f1].
  { intros [= <- <-]. split; [done|].
    exists 1%nat, []. split; [simpl; by rewrite <- ?app_assoc|]. right; right.
    split_and!; eauto. unfold script, update_script. simpl. lia. }
  cbv beta iota. rewrite ?bind_assoc. cbn [db files flocks now trace].
  rewrite <- ?app_assoc. simpl app.
  set (w3 := World d1 f1 _ _ _).
  assert (exists k w4 o,
     (if Py.truthy rev then git_checkout env path (str_option rev) else ret tt) w3 = (o, w4)
     /\ db w4 = d1 /\ flocks w4 = flocks w /\ now w4 = now w
     /\ trace w4 = trace w ++ [(HDel git_repo_id "last_checkout", d1)]
                   ++ ((fun e => (e, d1)) <$> attempt script k)
     /\ ((length script <= k)%nat /\ o = Ret tt
         \/ (k < length script)%nat /\ exists g, o = Raise (GitError g)))
    as (k & w4 & o & Hrun & Hdb & Hfl & Hnow & Htr & Hcase).
  { unfold script, update_script. destruct (Py.truthy rev) eqn:Hrev.
    - rewrite git_checkout_eq. unfold w3. cbn [db files flocks now trace].
      destruct (checkout env path (str_option rev) f1) as [[g|] f2].
      + eexists 2%nat, _, _. split; [reflexivity|]. simpl.
        split_and!; [done..|by rewrite <- !app_assoc|]. right. split; [lia|eauto].
      + eexists 3%nat, _, _. split; [reflexivity|]. simpl.
        split_and!; [done..|by rewrite <- !app_assoc|]. left. split; [lia|eauto].
    - eexists 2%nat, _, _. split; [reflexivity|]. unfold w3. simpl.
      split_and!; [done..|]. left. split; [lia|eauto]. }
  clearbody w3. erewrite bind_eq; [|exact Hrun]. cbv beta iota.
  destruct Hcase as [(Hlen & ->)|(Hlen & g & ->)].
  - rewrite update_repo_stats_eq.
    assert (db w4 !! git_repo_id = Some (RHash (delete "last_checkout" h))) as Hrec4
      by by rewrite Hdb; unfold d1; rewrite lookup_insert_eq.
    destruct (du_sh env path (files w4)) as [o|].
    2:{ intros [= <- <-]. split; [done|]. exists k, []. split; [by rewrite app_nil_r|].
        right; left. split_and!; eauto. }
    destruct (Py.split o) as [|tok toks].
    { intros [= <- <-]. split; [done|]. exists k, []. split; [by rewrite app_nil_r|].
      right; left. split_and!; eauto. }
    destruct (repo_stats_lookup env w4 path tok) as (Hs1 & Hs2 & Hs3).
    rewrite (hmset_hash _ _ _ _ Hrec4 Hs3). intros [= <- <-]. simpl. split; [done|].
    exists k, [(HmSet git_repo_id (repo_stats env w4 path tok),
                <[git_repo_id:=RHash (repo_stats env w4 path tok ∪ delete "last_checkout" h)]> d1)].
    split; [by rewrite Htr, Hdb, <- !app_assoc|]. left. split_and!; [done..|].
    eexists. split; [by rewrite <- Hnow|]. simpl. by rewrite Hdb.
  - intros [= <- <-]. split; [done|].
    exists k, []. split; [by rewrite app_nil_r|]. right; right. split_and!; eauto.
Qed.

(** C2: on a working copy that is already materialized (index present
    and not empty, record with a [last_checkout]) a run that gets the lock
    deletes [last_checkout] from the record before anything else, then
    opens the repository and checks out the requested branch, then the
    pinned revision if the record has one, and only after all of these
    succeeded writes the statistics, with [last_checkout] set to the time
    of the run.  [k] counts the git operations that succeeded.  Every
    state of the store from the deletion up to that write is [d1], in
    which the record has no [last_checkout]; when a git operation raises,
    or collecting the statistics does, nothing is written and the store
    stays [d1]. *)
Theorem update_clears_last_checkout_first env pid git_repo_id w url h out w' :
  db w !! git_repo_id = Some (RHash h) -> h !! "url" = Some url ->
  materialized env w url git_repo_id = true ->
  flocks w !! lock_file url = None ->
  run_git_clone_or_checkout env pid git_repo_id w = (out, w') ->
  let lf := lock_file url in
  let script := update_script (working_copy env url) (requested_branch h) (h !! "revision") in
  let d1 := <[git_repo_id := RHash (delete "last_checkout" h)]> (db w) in
  last_checkout d1 git_repo_id = None
  /\ exists k tail,
       trace w' = trace w
                  ++ [(OpenW lf, db w); (Flock lf, db w); (HDel git_repo_id "last_checkout", d1)]
                  ++ ((fun e => (e, d1)) <$> attempt script k) ++ tail
       /\ update_end git_repo_id lf script (delete "last_checkout" h) d1 (now w) k tail
            out (db w').
Proof.
  intros Hrec Hurl Hmat Hfree Hrun lf script d1. subst lf.
  split.
  { unfold last_checkout, d1. rewrite lookup_insert_eq. apply lookup_delete_eq. }
  revert Hrun. unfold run_git_clone_or_checkout.
  do 3 (erewrite bind_Ret; [|by apply hmget_hash]). rewrite Hurl.
  fold (lock_file url). fold (working_copy env url). fold (requested_branch h).
  set (path := working_copy env url). set (branch := requested_branch h).
  unfold with_open_w. erewrite bind_Ret; [|by unfold flock_ex; simpl; rewrite Hfree].
  set (w1 := record (Flock (lock_file url)) _).
  assert (materialized env w1 url git_repo_id = true) as Hmat1.
  { unfold materialized in *. simpl. rewrite lookup_insert_ne; [done|].
    apply lock_file_not_index. }
  assert (delete "last_checkout" h <> ∅) as Hne.
  { intros He. apply (f_equal (fun m => m !! "url")) in He.
    rewrite lookup_delete_ne, Hurl, lookup_empty in He; done. }
  change (bind (try_git ?b log_error) ?k w1)
    with (bind (try_git (materialize_block env git_repo_id url path branch (h !! "revision"))
                  log_error) k w1).
  destruct (materialize_block env git_repo_id url path branch (h !! "revision") w1)
    as [o w2] eqn:Hblock.
  assert (db w1 !! git_repo_id = Some (RHash h)) as Hrec1 by done.
  destruct (update_block _ _ _ _ _ _ _ Hrec1 Hurl Hmat1 Hblock)
    as (Hfl & k & tail & Htr & Hcase).
  fold script in Htr, Hcase. change (db w1) with (db w) in Htr, Hcase. fold d1 in Htr, Hcase.
  assert (flocks w2 = <[lock_file url := pid]> (flocks w)) as Hfl2 by by rewrite Hfl.
  change (now w1) with (now w) in Hcase.
  assert (trace w1 = trace w ++ [(OpenW (lock_file url), db w); (Flock (lock_file url), db w)])
    as Htr1 by (unfold w1; simpl; by rewrite <- app_assoc).
  rewrite Htr1 in Htr. clear Htr1.
  destruct Hcase as [(Hlen & -> & stats & Hlc & -> & Hdb)
                    |[(Hlen & (e & -> & Hng) & -> & Hdb)|(Hlen & (g & ->) & -> & Hdb)]].
  - erewrite bind_Ret; [|by apply try_git_Ret].
    intros [= <- <-]. exists k. eexists. split.
    { cbn [trace flock_un record set_flocks db files flocks now]. rewrite Htr, Hdb.
      rewrite <- !app_assoc. simpl. reflexivity. }
    cbn [db record set_flocks]. rewrite Hdb. by apply update_written.
  - erewrite bind_Raise; [|by apply try_git_other].
    rewrite app_nil_r in Htr.
    intros [= <- <-]. exists k. eexists. split.
    { cbn [trace flock_un record set_flocks db files flocks now]. rewrite Htr, Hdb.
      rewrite <- !app_assoc. simpl. reflexivity. }
    cbn [db record set_flocks]. rewrite Hdb. by apply update_stats_raised.
  - erewrite bind_Ret; [|by erewrite try_git_GitError; [|done]].
    rewrite app_nil_r in Htr.
    intros [= <- <-]. exists k. eexists. split.
    { cbn [trace flock_un record set_flocks db files flocks now]. rewrite Htr, Hdb.
      rewrite <- !app_assoc. simpl. reflexivity. }
    cbn [db record set_flocks log_error]. rewrite Hdb. by apply update_git_raised.
Qed.

Lemma update_clears_last_checkout_first_witness :
  (db demo_cloned !! "git_repo_id:1" = Some (RHash demo_record)
   /\ demo_record !! "url" = Some demo_url
   /\ materialized demo_update_env demo_cloned demo_url "git_repo_id:1" = true
   /\ flocks demo_cloned !! lock_file demo_url = None)
  /\ last_checkout (<["git_repo_id:1" := RHash (delete "last_checkout" demo_record)]>
                      (db demo_cloned)) "git_repo_id:1" = None
  /\ exists k tail,
       trace demo_update.2
       = trace demo_cloned
         ++ [(OpenW (lock_file demo_url), db demo_cloned);
             (Flock (lock_file demo_url), db demo_cloned);
             (HDel "git_repo_id:1" "last_checkout",
              <["git_repo_id:1" := RHash (delete "last_checkout" demo_record)]>
                (db demo_cloned))]
         ++ ((fun e => (e, <["git_repo_id:1" := RHash (delete "last_checkout" demo_record)]>
                             (db demo_cloned)))
             <$> attempt (update_script (working_copy demo_update_env demo_url)
                            (requested_branch demo_record) (demo_record !! "revision")) k)
         ++ tail
       /\ update_end "git_repo_id:1" (lock_file demo_url)
            (update_script (working_copy demo_update_env demo_url)
               (requested_branch demo_record) (demo_record !! "revision"))
            (delete "last_checkout" demo_record)
            (<["git_repo_id:1" := RHash (delete "last_checkout" demo_record)]> (db demo_cloned))
            (now demo_cloned) k tail demo_update.1 (db demo_update.2).
Proof.
  split; [split_and!; vm_compute; reflexivity|].
  apply (update_clears_last_checkout_first demo_update_env 2 "git_repo_id:1" demo_cloned
           demo_url demo_record);
    [vm_compute; reflexivity..|apply run_result].
Defined.

(** The run of the witness is one in which everything succeeds. *)
Example update_trace :
  demo_update.1 = Ret tt
  /\ (effects_since demo_cloned demo_update.2 =
      [OpenW "HapticFeedback.lock"; Flock "HapticFeedback.lock";
       HDel "git_repo_id:1" "last_checkout";
       OpenRepo "/home/gitstat/git_repositories/HapticFeedback" true;
       Checkout "/home/gitstat/git_repositories/HapticFeedback" "master" true;
       Checkout "/home/gitstat/git_repositories/HapticFeedback"
         "60f36e54065bd44bfd29f5efd7ba88efc2c0c970" true;
       HmSet "git_repo_id:1"
         (repo_stats demo_update_env demo_cloned
            "/home/gitstat/git_repositories/HapticFeedback" "440K");
       Funlock "HapticFeedback.lock"; Close "HapticFeedback.lock"])
  /\ last_checkout (db demo_update.2) "git_repo_id:1" = Some "Thu, 05 Nov 2015 19:10:44".
Proof. split_and!; vm_compute; reflexivity. Qed.

Lemma keeps_wf_bind {A B} id (m : M A) (k : A -> M B) :
  keeps_wf id m -> (forall a, keeps_wf id (k a)) -> keeps_wf id (bind m k).
Proof.
  intros Hm Hk w c out w' Hwf Hreg Hrun. unfold bind in Hrun.
  destruct (m w) as [[a|e|] w1] eqn:Hmw; destruct (Hm _ _ _ _ Hwf Hreg Hmw) as [Hwf1 Hsame].
  - destruct (Hk a _ _ _ _ Hwf1 ltac:(by rewrite Hsame) Hrun) as [Hwf2 Hsame2].
    split; [done|]. intros k0. by rewrite Hsame2.
  - by simplify_eq.
  - by simplify_eq.
Qed.

Lemma keeps_wf_try_git {A} id (m : M A) (k : git_exc -> M A) :
  keeps_wf id m -> (forall e, keeps_wf id (k e)) -> keeps_wf id (try_git m k).
Proof.
  intros Hm Hk w c out w' Hwf Hreg Hrun. unfold try_git in Hrun.
  destruct (m w) as [[a|e|] w1] eqn:Hmw; destruct (Hm _ _ _ _ Hwf Hreg Hmw) as [Hwf1 Hsame];
    [by simplify_eq| |by simplify_eq].
  destruct e as [| | |g| | | | |]; try by simplify_eq.
  destruct (Hk g _ _ _ _ Hwf1 ltac:(by rewrite Hsame) Hrun) as [Hwf2 Hsame2].
  split; [done|]. intros k0. by rewrite Hsame2.
Qed.

Lemma keeps_wf_same_db {A} id (m : M A) :
  (forall w, db (m w).2 = db w) -> keeps_wf id m.
Proof.
  intros H w c out w' Hwf _ Hrun. specialize (H w). rewrite Hrun in H. simpl in H.
  by rewrite H.
Qed.

Ltac same_db :=
  apply keeps_wf_same_db; intros ?;
  cbv beta delta
    [Redis.get Redis.hmget Redis.hgetall get_files strftime_localtime start_process rmtree
     log_error git_clone_from git_repo git_checkout flock_un record set_db set_files
     set_flocks ret raise];
  repeat case_match; reflexivity.

Lemma keeps_wf_ret {A} id (a : A) : keeps_wf id (ret a).
Proof. same_db. Qed.
Lemma keeps_wf_log_error id e : keeps_wf id (log_error e).
Proof. same_db. Qed.
Lemma keeps_wf_git_repo id env p : keeps_wf id (git_repo env p).
Proof. same_db. Qed.
Lemma keeps_wf_git_checkout id env p r : keeps_wf id (git_checkout env p r).
Proof. same_db. Qed.
Lemma keeps_wf_git_clone_from id env u p b : keeps_wf id (git_clone_from env u p b).
Proof. same_db. Qed.

Lemma registered_url_insert d k h h' :
  d !! k = Some (RHash h) -> h' !! "url" = h !! "url" ->
  forall k0, registered_url (<[k := RHash h']> d) k0 = registered_url d k0.
Proof.
  intros Hk Hu k0. unfold registered_url.
  destruct (decide (k0 = k)) as [->|?].
  - by rewrite lookup_insert_eq, Hk.
  - by rewrite lookup_insert_ne.
Qed.

Lemma keeps_wf_hdel id f : f <> "url" -> keeps_wf id (Redis.hdel id f).
Proof.
  intros Hf w c out w' Hwf [u (h & Hrec & Hu)%registered_url_Some] Hrun.
  rewrite (hdel_hash _ _ _ _ Hrec) in Hrun.
  2:{ intros He. apply (f_equal (fun m => m !! "url")) in He.
      rewrite lookup_delete_ne, Hu, lookup_empty in He; done. }
  injection Hrun as <- <-. simpl.
  assert (delete f h !! "url" = h !! "url") by by rewrite lookup_delete_ne.
  split; [by eapply wf_update|by eapply registered_url_insert].
Qed.

Lemma keeps_wf_hmset id m : m !! "url" = None -> keeps_wf id (Redis.hmset id m).
Proof.
  intros Hm w c out w' Hwf [u (h & Hrec & Hu)%registered_url_Some] Hrun.
  unfold Redis.hmset in Hrun. case_decide; [by simplify_eq|]. rewrite Hrec in Hrun.
  injection Hrun as <- <-. simpl.
  assert ((m ∪ h) !! "url" = h !! "url") by by rewrite lookup_union_r.
  split; [by eapply wf_update|by eapply registered_url_insert].
Qed.

Lemma keeps_wf_check_repo_was_cloned id p k : keeps_wf id (check_repo_was_cloned p k).
Proof.
  apply keeps_wf_same_db. intros w.
  unfold check_repo_was_cloned, bind, get_files, Redis.hmget, ret.
  repeat case_match; simplify_eq; reflexivity.
Qed.

Lemma keeps_wf_update_repo_stats env id p : keeps_wf id (update_repo_stats env id p).
Proof.
  intros w c out w' Hwf Hreg. rewrite update_repo_stats_eq.
  destruct (du_sh env p (files w)) as [o|]; [|by intros [= <- <-]].
  destruct (Py.split o) as [|tok toks]; [by intros [= <- <-]|].
  apply keeps_wf_hmset; [|done..]. apply repo_stats_lookup.
Qed.

Lemma keeps_wf_materialize_block env id url path branch rev :
  keeps_wf id (materialize_block env id url path branch rev).
Proof.
  unfold materialize_block.
  repeat first
    [ apply keeps_wf_check_repo_was_cloned
    | apply keeps_wf_update_repo_stats
    | apply keeps_wf_hdel; done
    | apply keeps_wf_git_repo
    | apply keeps_wf_git_checkout
    | apply keeps_wf_git_clone_from
    | apply keeps_wf_ret
    | match goal with
      | |- keeps_wf _ (if ?x then _ else _) => destruct x
      end
    | apply keeps_wf_bind; [|intros ?] ].
Qed.

(** The process leaves a well-formed store well formed, whatever it is
    started on, and changes the URL of no record. *)
Lemma run_git_clone_or_checkout_wf env pid id w c out w' :
  wf (db w) c -> run_git_clone_or_checkout env pid id w = (out, w') ->
  wf (db w') c /\ forall k, registered_url (db w') k = registered_url (db w) k.
Proof.
  intros Hwf. unfold run_git_clone_or_checkout.
  destruct (db w !! id) as [[s|h]|] eqn:Hrec.
  - erewrite bind_Raise; [|by unfold Redis.hmget; rewrite Hrec]. by intros [= <- <-].
  - do 3 (erewrite bind_Ret; [|by apply hmget_hash]).
    destruct (h !! "url") as [url|] eqn:Hurl; [|by intros [= <- <-]].
    unfold with_open_w. unfold bind at 1, flock_ex. cbn [flocks record set_files].
    destruct (flocks w !! _); [by intros [= <- <-]|].
    set (w1 := record (Flock _) _).
    change (bind (try_git ?b log_error) ?k w1)
      with (bind (try_git (materialize_block env id url
                             (Py.path_join (GIT_REPOS_PATH env) (Py.last_item (Py.split_on "/" url)))
                             (if Py.truthy (h !! "branch") then str_option (h !! "branch")
                              else "master") (h !! "revision"))
                    log_error) k w1).
    match goal with |- context [bind ?m ?k w1] =>
      assert (keeps_wf id (bind m k)) as Hk; [|destruct (bind m k w1) as [o w2] eqn:Hrun]
    end.
    { apply keeps_wf_bind; [|intros ?; same_db].
      apply keeps_wf_try_git; [apply keeps_wf_materialize_block|intros; apply keeps_wf_log_error]. }
    assert (wf (db w1) c) as Hwf1 by done.
    assert (is_Some (registered_url (db w1) id)) as Hreg1.
    { exists url. apply registered_url_Some. eauto. }
    destruct (Hk _ _ _ _ Hwf1 Hreg1 Hrun) as [Hwf2 Hsame].
    destruct o; intros [= <- <-]; done.
  - do 3 (erewrite bind_Ret; [|by apply hmget_None]). by intros [= <- <-].
Qed.

(** ** Removal *)

(** The loop body of [remove_repos_by_id], case by case. *)
Lemma remove_repo_eq env git_repo w :
  remove_repo env git_repo w =
  match db w !! id_key git_repo with
  | Some (RStr _) => (Raise ResponseError, w)
  | None => (Raise (no_url_found git_repo), w)
  | Some (RHash h) =>
      match h !! "url" with
      | Some (String a u as url) =>
          if materialized env w url (id_key git_repo)
          then let d1 := delete (id_key git_repo) (db w) in
               let d2 := delete url d1 in
               (Ret tt,
                World d2 (without_tree (working_copy env url) (files w)) (flocks w) (now w)
                  (trace w ++ [(Rmtree (working_copy env url), db w);
                               (Delete (id_key git_repo), d1); (Delete url, d2)]))
          else (Raise (not_yet_cloned git_repo), w)
      | _ => (Raise (no_url_found git_repo), w)
      end
  end.
Proof.
  unfold remove_repo. fold (id_key git_repo).
  destruct (db w !! id_key git_repo) as [[s|h]|] eqn:Hrec.
  - rewrite (bind_Raise _ _ _ ResponseError w); [done|]. unfold Redis.hmget. by rewrite Hrec.
  - erewrite bind_Ret; [|by apply hmget_hash].
    destruct (h !! "url") as [[|a u]|] eqn:Hurl; [done| |done].
    cbn [Py.truthy str_option]. fold (working_copy env (String a u)).
    erewrite bind_Ret; [|apply check_repo_was_cloned_eq; intros s; by rewrite Hrec].
    destruct (materialized env w (String a u) (id_key git_repo)); [|done].
    unfold bind, rmtree, Redis.delete, Redis.write, record, set_db, set_files. simpl.
    unfold without_tree. by rewrite <- !app_assoc.
  - rewrite (bind_Ret _ _ _ None w); [done|]. by apply hmget_None.
Qed.

Lemma remove_repo_fails env git_repo w e w' :
  remove_repo env git_repo w = (Raise e, w') -> w' = w.
Proof.
  rewrite remove_repo_eq. repeat case_match; by intros [= ? ?].
Qed.

Lemma remove_repos_app env pre post w w1 :
  remove_repos_by_id env pre w = (Ret tt, w1) ->
  remove_repos_by_id env (pre ++ post) w = remove_repos_by_id env post w1.
Proof.
  revert w. induction pre as [|v pre IH]; intros w; simpl.
  - by intros [= <-].
  - unfold bind. destruct (remove_repo env v w) as [[[]|e|] w0]; [|done..].
    apply IH.
Qed.

(** C4: when the loop of [remove_repos_by_id] comes to an id that is
    registered (its record names a URL) but not materialized (no index, an
    empty one, or no [last_checkout] in the record), having removed the
    ids before it, it raises the [BadRequest] that names this id, which
    the DELETE request answers with status 400, and the world stays as it
    was when the id was reached: the record, the mapping of the URL and
    the files are untouched. *)
Theorem remove_unmaterialized_refused env w pre git_repo post w1 url :
  remove_repos_by_id env pre w = (Ret tt, w1) ->
  registered_url (db w1) (id_key git_repo) = Some url -> url <> "" ->
  materialized env w1 url (id_key git_repo) = false ->
  remove_repo env git_repo w1 = (Raise (not_yet_cloned git_repo), w1)
  /\ remove_repos_by_id env (pre ++ git_repo :: post) w
     = (Raise (not_yet_cloned git_repo), w1)
  /\ serve env (DELETE (Json (pre ++ git_repo :: post))) w
     = (Ret (Jsonified (<["message" := "Bad Request"]>
                         {["error" := "The repository with id " +:+ Py.str git_repo
                                      +:+ " is not yet cloned."]}), 400), w1).
Proof.
  intros Hpre (h & Hrec & Hurl)%registered_url_Some Hne Hmat.
  assert (remove_repo env git_repo w1 = (Raise (not_yet_cloned git_repo), w1)) as Hone.
  { rewrite remove_repo_eq, Hrec, Hurl. destruct url as [|a u]; [done|]. by rewrite Hmat. }
  assert (remove_repos_by_id env (pre ++ git_repo :: post) w
          = (Raise (not_yet_cloned git_repo), w1)) as Hall.
  { rewrite (remove_repos_app _ _ _ _ _ Hpre). simpl. unfold bind. by rewrite Hone. }
  split_and!; [done..|].
  unfold serve, get_post_delete_resources, delete_git_repositories.
  destruct (pre ++ git_repo :: post) as [|v ids] eqn:Hids; [by destruct pre|].
  erewrite bind_Raise; [|exact Hall]. reflexivity.
Qed.

Lemma remove_unmaterialized_refused_witness :
  (registered_url (db demo_registered) (id_key (Py.JInt 1)) = Some demo_url
   /\ materialized demo_quiet_env demo_registered demo_url (id_key (Py.JInt 1)) = false)
  /\ remove_repo demo_quiet_env (Py.JInt 1) demo_registered
     = (Raise (not_yet_cloned (Py.JInt 1)), demo_registered)
  /\ remove_repos_by_id demo_quiet_env ([] ++ Py.JInt 1 :: [Py.JInt 2]) demo_registered
     = (Raise (not_yet_cloned (Py.JInt 1)), demo_registered)
  /\ serve demo_quiet_env (DELETE (Json ([] ++ Py.JInt 1 :: [Py.JInt 2]))) demo_registered
     = (Ret (Jsonified (<["message" := "Bad Request"]>
                         {["error" := "The repository with id " +:+ Py.str (Py.JInt 1)
                                      +:+ " is not yet cloned."]}), 400), demo_registered).
Proof.
  split; [split; vm_compute; reflexivity|].
  apply (remove_unmaterialized_refused demo_quiet_env demo_registered []
           (Py.JInt 1) [Py.JInt 2] demo_registered demo_url);
    [reflexivity|vm_compute; reflexivity|discriminate|vm_compute; reflexivity].
Defined.

(** C7, as the code has it: the ids of a batch are removed in order; when
    the removal of one fails, the removals done for the ids before it stay
    (the world is the one they left), the ids after it are not attempted,
    and the caller gets one exception, that of the id that failed. *)
Theorem remove_stops_at_first_failure env w pre git_repo post w1 e w2 :
  remove_repos_by_id env pre w = (Ret tt, w1) ->
  remove_repo env git_repo w1 = (Raise e, w2) ->
  remove_repos_by_id env (pre ++ git_repo :: post) w = (Raise e, w1).
Proof.
  intros Hpre Hbad. rewrite (remove_repos_app _ _ _ _ _ Hpre). simpl. unfold bind.
  rewrite Hbad. by rewrite (remove_repo_fails _ _ _ _ _ Hbad).
Qed.

Lemma remove_stops_at_first_failure_witness :
  remove_repos_by_id demo_quiet_env ([Py.JInt 1] ++ Py.JStr "x" :: [Py.JInt 1]) demo_cloned
  = (Raise (no_url_found (Py.JStr "x")), demo_removed).
Proof.
  apply (remove_stops_at_first_failure demo_quiet_env demo_cloned [Py.JInt 1]
           (Py.JStr "x") [Py.JInt 1] demo_removed (no_url_found (Py.JStr "x"))
           (remove_repo demo_quiet_env (Py.JStr "x") demo_removed).2);
    apply run_outcome; vm_compute; reflexivity.
Defined.

(** C7 as stated fails: id 1 can be removed, but in a batch after an id
    that fails it is not: its record and its index file are still there. *)
Lemma remove_batch_counterexample :
  (remove_repos_by_id demo_quiet_env [Py.JInt 1] demo_cloned).1 = Ret tt
  /\ demo_batch.1 = Raise (no_url_found (Py.JInt 2))
  /\ record_field (db demo_batch.2) "git_repo_id:1" "url" = Some demo_url
  /\ files demo_batch.2 !! Py.path_join (working_copy demo_quiet_env demo_url) ".git/index"
     = Some 120%N.
Proof. split_and!; vm_compute; reflexivity. Qed.

Lemma without_tree_lookup path f file :
  String.prefix (Py.dir_prefix path) file = true -> without_tree path f !! file = None.
Proof.
  intros H. unfold without_tree. apply map_lookup_filter_None. right. intros x _. simpl.
  by rewrite H.
Qed.




Example new_identity_is_2 :
  (clone_checkout_git_repository demo_url demo_repository demo_removed).1
  = Ret "git_repo_id:2".
Proof. vm_compute. reflexivity. Qed.

Lemma remove_repo_wf env git_repo w c out w' :
  wf (db w) c -> remove_repo env git_repo w = (out, w') -> wf (db w') c.
Proof.
  intros Hwf. rewrite remove_repo_eq.
  destruct (db w !! id_key git_repo) as [[s|h]|] eqn:Hrec; [by intros [= <- <-]| |by intros [= <- <-]].
  destruct (h !! "url") as [[|a u]|] eqn:Hurl; [by intros [= <- <-]| |by intros [= <- <-]].
  destruct (materialized _ _ _ _); intros [= <- <-]; [|done].
  simpl. by eapply wf_remove.
Qed.

Lemma remove_repos_by_id_wf env ids w c out w' :
  wf (db w) c -> remove_repos_by_id env ids w = (out, w') -> wf (db w') c.
Proof.
  revert w. induction ids as [|v ids IH]; intros w Hwf; simpl.
  - by intros [= <- <-].
  - unfold bind. destruct (remove_repo env v w) as [[[]|e|] w0] eqn:Hv;
      pose proof (remove_repo_wf _ _ _ _ _ _ Hwf Hv); [by apply IH|by intros [= <- <-]..].
Qed.

(** ** Reading, and the service as a whole *)

Lemma hgetall_None w k : db w !! k = None -> Redis.hgetall k w = (Ret ∅, w).
Proof. unfold Redis.hgetall. by intros ->. Qed.

Lemma pipeline_hgetall_numeric w c (ids : list Py.jval) :
  wf (db w) c -> forallb numeric_id ids = true ->
  pipeline_hgetall (Py.str <$> ids) w = (Ret ((fun _ => ∅) <$> ids), w).
Proof.
  intros Hwf. induction ids as [|v ids IH]; [done|]. cbn [forallb].
  intros [Hv Hids]%andb_true_iff. csimpl.
  erewrite bind_Ret; [|apply hgetall_None; by eapply wf_numeric_key].
  erewrite bind_Ret; [|exact (IH Hids)]. done.
Qed.

Lemma zip_ids_empty (ids : list Py.jval) :
  zip ids ((fun _ => (∅ : gmap string string)) <$> ids) = (fun v => (v, ∅)) <$> ids.
Proof. induction ids as [|v ids IH]; [done|]. csimpl. by rewrite IH. Qed.

(** C10: a GET request with an explicit list of ids (numbers, as the API
    takes them) looks each id up as it is, without the ['git_repo_id:']
    prefix the records are stored under.
    On every store the handlers can produce no such key exists, so the
    response pairs every supplied id with the empty field map and leaves
    the world as it was, whether or not a record of that id exists: its
    fields and its [last_checkout] are never reported. *)
Theorem get_by_id_finds_nothing w (ids : list Py.jval) :
  store_ok (db w) = true ->
  forallb numeric_id ids = true ->
  get_git_repositories (Json ids) w
  = (Ret (Repositories ((fun v => (v, ∅)) <$> ids), 200), w)
  /\ forall v, In v ids -> db w !! Py.str v = None.
Proof.
  intros [c Hwf]%store_ok_spec Hids. split.
  - unfold get_git_repositories. erewrite bind_Ret; [|done].
    erewrite bind_Ret; [|by eapply pipeline_hgetall_numeric].
    unfold ret. by rewrite zip_ids_empty.
  - intros v Hv. eapply wf_numeric_key; [done|].
    rewrite forallb_forall in Hids. by apply Hids.
Qed.

Lemma get_by_id_finds_nothing_witness :
  (store_ok (db demo_cloned) = true
   /\ forallb numeric_id [Py.JInt 1; Py.JInt 2] = true
   /\ record_field (db demo_cloned) "git_repo_id:1" "url" = Some demo_url)
  /\ get_git_repositories (Json [Py.JInt 1; Py.JInt 2]) demo_cloned
     = (Ret (Repositories ((fun v => (v, ∅)) <$> [Py.JInt 1; Py.JInt 2]), 200), demo_cloned)
  /\ forall v, In v [Py.JInt 1; Py.JInt 2] -> db demo_cloned !! Py.str v = None.
Proof.
  split; [split_and!; vm_compute; reflexivity|].
  apply (get_by_id_finds_nothing demo_cloned [Py.JInt 1; Py.JInt 2]); vm_compute; reflexivity.
Defined.

(** Without a list of ids the same record is found under its key. *)
Example get_all_finds_the_record :
  (get_git_repositories NoJson demo_cloned).1
  = Ret (Repositories [(Py.JStr "git_repo_id:1", demo_record)], 200).
Proof. vm_compute. reflexivity. Qed.

Lemma pipeline_hgetall_same keys w out w' :
  pipeline_hgetall keys w = (out, w') -> w' = w.
Proof.
  revert out w'. induction keys as [|k keys IH]; intros out w'; simpl; [by intros [= _ <-]|].
  unfold bind, Redis.hgetall, ret.
  destruct (db w !! k) as [[s|h]|]; [by intros [= _ <-]|..];
    destruct (pipeline_hgetall keys w) as [[hs|e|] w0] eqn:Hp;
    pose proof (IH _ _ eq_refl) as ->; by intros [= _ <-].
Qed.

Lemma get_git_repositories_same req w out w' :
  get_git_repositories req w = (out, w') -> w' = w.
Proof.
  unfold get_git_repositories.
  destruct req as [|err|ids]; unfold bind at 1; simpl.
  - unfold bind. destruct (pipeline_hgetall _ w) as [[hs|e|] w0] eqn:Hp;
      apply pipeline_hgetall_same in Hp as ->; by intros [= _ <-].
  - by intros [= _ <-].
  - unfold bind. destruct (pipeline_hgetall _ w) as [[hs|e|] w0] eqn:Hp;
      apply pipeline_hgetall_same in Hp as ->; by intros [= _ <-].
Qed.



Lemma serve_world env r w out w' :
  serve env r w = (out, w') -> exists out0, get_post_delete_resources env r w = (out0, w').
Proof.
  unfold serve. destruct (get_post_delete_resources env r w) as [[resp|e|] w0];
    [|destruct e|]; intros [= _ <-]; eauto.
Qed.



(** ** Identity of a URL *)

Lemma process_steps_wf env w w' c :
  wf (db w) c -> rtc (process_step env) w w' ->
  wf (db w') c /\ forall k, registered_url (db w') k = registered_url (db w) k.
Proof.
  intros Hwf Hsteps. induction Hsteps as [|x y z (pid & id & out & Hrun) _ IH]; [done|].
  destruct (run_git_clone_or_checkout_wf _ _ _ _ _ _ _ Hwf Hrun) as [Hwf1 Hsame].
  destruct (IH Hwf1) as [Hwf2 Hsame2]. split; [done|]. intros k. by rewrite Hsame2.
Qed.

(** C1: on a store the handlers can produce, registering a URL gives an
    identity, and registering it again, also after any number of runs of
    background processes, gives the same identity: the second call finds
    the mapping of the URL, takes nothing from the counter, adds no key to
    the store (its only effects are the write of the request's fields to
    the existing record and the start of a process), and exactly one
    record names the URL. *)
Theorem resolve_or_create_idempotent env w url repository repository' :
  store_ok (db w) = true -> has_scheme url = true ->
  repository !! "url" = Some (Py.JStr url) ->
  repository' !! "url" = Some (Py.JStr url) ->
  exists id w1,
    clone_checkout_git_repository url repository w = (Ret id, w1)
    /\ forall w1', rtc (process_step env) w1 w1' ->
       exists w2,
         clone_checkout_git_repository url repository' w1' = (Ret id, w2)
         /\ counter (db w2) = counter (db w1')
         /\ effects_since w1' w2 = [HmSet id (Py.str <$> repository'); Spawn id]
         /\ dom (db w2) = dom (db w1')
         /\ records_for url (db w2) = {[ id ]}.
Proof.
  intros [c Hwf]%store_ok_spec Hu Hr Hr'.
  destruct (clone_checkout_wf w c url repository Hwf Hu Hr)
    as (n & h & w1 & Hrun1 & Hmap1 & Hrec1 & Hurl1 & _ & _ & Hcase).
  assert (exists c1, wf (db w1) c1) as [c1 Hwf1].
  { destruct Hcase as [(_ & _ & ? & _)|(? & _ & ? & _)]; eauto. }
  exists (repo_key n), w1. split; [done|]. intros w1' Hsteps.
  destruct (process_steps_wf _ _ _ _ Hwf1 Hsteps) as [Hwf1' Hsame].
  assert (registered_url (db w1') (repo_key n) = Some url) as Hreg.
  { rewrite Hsame. apply registered_url_Some. eauto. }
  apply registered_url_Some in Hreg as (h1 & Hrec1' & Hurl1').
  destruct (wf_url_field _ _ Hwf1' _ _ _ Hrec1' Hurl1') as (Hmap1' & _).
  destruct (clone_checkout_wf w1' c1 url repository' Hwf1' Hu Hr')
    as (n' & h' & w2 & Hrun2 & Hmap2 & Hrec2 & Hurl2 & _ & _ & Hcase2).
  destruct Hcase2 as [(Hnone & _)|(h0 & Hmap0 & Hwf2 & Hrec0 & -> & Hdb & Htr)];
    [congruence|].
  assert (n' = n) as -> by (apply (inj repo_key); congruence).
  exists w2. split_and!; try done.
  - rewrite (wf_counter _ _ Hwf2). symmetry. apply Hwf1'.
  - by apply effects_since_trace in Htr.
  - rewrite Hdb. apply dom_insert_lookup_L. eauto.
  - by eapply wf_records_for.
Qed.

Lemma resolve_or_create_idempotent_witness :
  store_ok (db demo_empty) = true
  /\ exists id w1,
       clone_checkout_git_repository demo_url demo_repository demo_empty = (Ret id, w1)
       /\ forall w1', rtc (process_step demo_update_env) w1 w1' ->
          exists w2,
            clone_checkout_git_repository demo_url demo_other_branch w1' = (Ret id, w2)
            /\ counter (db w2) = counter (db w1')
            /\ effects_since w1' w2 = [HmSet id (Py.str <$> demo_other_branch); Spawn id]
            /\ dom (db w2) = dom (db w1')
            /\ records_for demo_url (db w2) = {[ id ]}.
Proof.
  split; [vm_compute; reflexivity|].
  apply (resolve_or_create_idempotent demo_update_env demo_empty demo_url
           demo_repository demo_other_branch); vm_compute; reflexivity.
Defined.

(** C3, as the code has it: registering a URL that is already mapped
    returns the identity it is mapped to, takes nothing from the counter
    and adds no key to the store; it writes the fields of the request to
    the existing record and starts a background process for that
    identity. *)
Theorem register_known_url_restarts_process w url id repository :
  store_ok (db w) = true -> has_scheme url = true ->
  db w !! url = Some (RStr id) ->
  repository !! "url" = Some (Py.JStr url) ->
  exists w',
    clone_checkout_git_repository url repository w = (Ret id, w')
    /\ effects_since w w' = [HmSet id (Py.str <$> repository); Spawn id]
    /\ dom (db w') = dom (db w)
    /\ counter (db w') = counter (db w).
Proof.
  intros [c Hwf]%store_ok_spec Hu Hmap Hr.
  destruct (clone_checkout_wf w c url repository Hwf Hu Hr)
    as (n & h & w' & Hrun & _ & _ & _ & _ & _ & Hcase).
  destruct Hcase as [(Hnone & _)|(h0 & Hmap0 & Hwf2 & Hrec0 & -> & Hdb & Htr)];
    [congruence|].
  assert (id = repo_key n) as -> by congruence.
  exists w'. split_and!; [done|by apply effects_since_trace in Htr| |].
  - rewrite Hdb. apply dom_insert_lookup_L. eauto.
  - rewrite (wf_counter _ _ Hwf2). symmetry. apply Hwf.
Qed.

Lemma register_known_url_restarts_process_witness :
  (store_ok (db demo_cloned) = true /\ db demo_cloned !! demo_url = Some (RStr "git_repo_id:1"))
  /\ exists w',
       clone_checkout_git_repository demo_url demo_repository demo_cloned
       = (Ret "git_repo_id:1", w')
       /\ effects_since demo_cloned w'
          = [HmSet "git_repo_id:1" (Py.str <$> demo_repository); Spawn "git_repo_id:1"]
       /\ dom (db w') = dom (db demo_cloned)
       /\ counter (db w') = counter (db demo_cloned).
Proof.
  split; [split; vm_compute; reflexivity|].
  apply (register_known_url_restarts_process demo_cloned demo_url "git_repo_id:1"
           demo_repository); vm_compute; reflexivity.
Defined.

(** C3 as stated fails: the URL is mapped and cloned, and registering it
    again starts a process. *)
Lemma register_known_url_counterexample :
  db demo_cloned !! demo_url = Some (RStr "git_repo_id:1")
  /\ (clone_checkout_git_repository demo_url demo_repository demo_cloned).1
     = Ret "git_repo_id:1"
  /\ effects_since demo_cloned
       (clone_checkout_git_repository demo_url demo_repository demo_cloned).2
     = [HmSet "git_repo_id:1" (Py.str <$> demo_repository); Spawn "git_repo_id:1"].
Proof. split_and!; vm_compute; reflexivity. Qed.

(** ** The fields of a record *)

(** C9, as the code has it: a second registration of a URL reuses the
    identity of the first, and every field the second request supplies
    (its branch, its revision) replaces the value the record had; a field
    the second request does not supply keeps its value. *)
Theorem second_registration_overwrites_fields w url repository repository' :
  store_ok (db w) = true -> has_scheme url = true ->
  repository !! "url" = Some (Py.JStr url) ->
  repository' !! "url" = Some (Py.JStr url) ->
  exists id w1 w2,
    clone_checkout_git_repository url repository w = (Ret id, w1)
    /\ clone_checkout_git_repository url repository' w1 = (Ret id, w2)
    /\ (forall field v, repository' !! field = Some v ->
          record_field (db w2) id field = Some (Py.str v))
    /\ (forall field, repository' !! field = None ->
          record_field (db w2) id field = record_field (db w1) id field).
Proof.
  intros [c Hwf]%store_ok_spec Hu Hr Hr'.
  destruct (clone_checkout_wf w c url repository Hwf Hu Hr)
    as (n & h & w1 & Hrun1 & Hmap1 & Hrec1 & Hurl1 & _ & _ & Hcase).
  assert (exists c1, wf (db w1) c1) as [c1 Hwf1].
  { destruct Hcase as [(_ & _ & ? & _)|(? & _ & ? & _)]; eauto. }
  destruct (clone_checkout_wf w1 c1 url repository' Hwf1 Hu Hr')
    as (n' & h' & w2 & Hrun2 & Hmap2 & Hrec2 & Hurl2 & _ & _ & Hcase2).
  destruct Hcase2 as [(Hnone & _)|(h0 & Hmap0 & Hwf2 & Hrec0 & -> & Hdb & Htr)];
    [congruence|].
  assert (n' = n) as -> by (apply (inj repo_key); congruence).
  assert (h0 = h) as -> by congruence.
  exists (repo_key n), w1, w2. split_and!; [done..| |].
  - intros field v Hf. unfold record_field. rewrite Hrec2.
    apply lookup_union_Some_l. by rewrite lookup_fmap, Hf.
  - intros field Hf. unfold record_field. rewrite Hrec2, Hrec1.
    apply lookup_union_r. by rewrite lookup_fmap, Hf.
Qed.

Lemma second_registration_overwrites_fields_witness :
  store_ok (db demo_empty) = true
  /\ exists id w1 w2,
       clone_checkout_git_repository demo_url demo_repository demo_empty = (Ret id, w1)
       /\ clone_checkout_git_repository demo_url demo_other_branch w1 = (Ret id, w2)
       /\ (forall field v, demo_other_branch !! field = Some v ->
             record_field (db w2) id field = Some (Py.str v))
       /\ (forall field, demo_other_branch !! field = None ->
             record_field (db w2) id field = record_field (db w1) id field).
Proof.
  split; [vm_compute; reflexivity|].
  apply (second_registration_overwrites_fields demo_empty demo_url demo_repository
           demo_other_branch); vm_compute; reflexivity.
Defined.

(** C9 as stated fails: the record has the branch of the first request,
    and after the second request, which reuses the identity, that of the
    second. *)
Lemma second_registration_counterexample :
  record_field (db demo_registered) "git_repo_id:1" "branch" = Some "master"
  /\ demo_second.1 = Ret "git_repo_id:1"
  /\ record_field (db demo_second.2) "git_repo_id:1" "branch" = Some "develop"
  /\ record_field (db demo_second.2) "git_repo_id:1" "revision"
     = Some "60f36e54065bd44bfd29f5efd7ba88efc2c0c970".
Proof. split_and!; vm_compute; reflexivity. Qed.

(** ** Counting tracked files *)

Lemma append_nil_r s : s +:+ "" = s.
Proof. induction s as [|c s IH]; [done|]. change (String c s +:+ "") with (String c (s +:+ "")). by rewrite IH. Qed.

Lemma scan_words_app w s :
  no_blank w = true ->
  Py.scan_words (w +:+ s) = ((w +:+ (Py.scan_words s).1), (Py.scan_words s).2).
Proof.
  induction w as [|c w IH]; intros Hw.
  - change ("" +:+ s) with s. by destruct (Py.scan_words s).
  - simpl in Hw. apply andb_true_iff in Hw as [Hc Hw].
    change (String c w +:+ s) with (String c (w +:+ s)). simpl.
    rewrite (IH Hw). by destruct (Py.is_space c).
Qed.

Lemma scan_words_newline s : Py.scan_words (nl +:+ s) = ("", Py.split s).
Proof. unfold Py.split. change (nl +:+ s) with (String "010" s). simpl. by destruct (Py.scan_words s). Qed.

(** Where no path is empty or contains whitespace, [split()] gives the
    lines of [git ls-files] back. *)
Lemma split_lines_plain paths :
  forallb plain_path paths = true -> Py.split (String.concat nl paths) = paths.
Proof.
  induction paths as [|p paths IH]; [done|]. cbn [forallb].
  intros [[Hp Hne%negb_true_iff%bool_decide_eq_false]%andb_true_iff Hall]%andb_true_iff.
  specialize (IH Hall). destruct paths as [|q paths].
  - change (String.concat nl [p]) with p.
    unfold Py.split. rewrite <- (append_nil_r p) at 1. rewrite scan_words_app by done.
    simpl. rewrite append_nil_r. by destruct p.
  - change (String.concat nl (p :: q :: paths))
      with (p +:+ nl +:+ String.concat nl (q :: paths)).
    unfold Py.split at 1. rewrite scan_words_app by done. rewrite scan_words_newline.
    cbn [fst snd]. rewrite append_nil_r, IH. by destruct p.
Qed.

Lemma update_repo_stats_total_files env id path w w' :
  update_repo_stats env id path w = (Ret tt, w') ->
  record_field (db w') id "total_files"
  = Some (Py.str_int (Z.of_nat (length (Py.split (String.concat nl
                                    (tracked_files env path (files w))))))).
Proof.
  rewrite update_repo_stats_eq.
  destruct (du_sh env path (files w)) as [o|]; [|done].
  destruct (Py.split o) as [|tok toks]; [done|].
  unfold Redis.hmset. case_decide; [done|].
  assert (repo_stats env w path tok !! "total_files"
          = Some (Py.str_int (Z.of_nat (length (Py.split (String.concat nl
                                    (tracked_files env path (files w)))))))) as Hf.
  { unfold repo_stats. do 3 (rewrite lookup_insert_ne by done). by rewrite lookup_insert_eq. }
  destruct (db w !! id) as [[s|h]|]; [done|..]; intros [= <-]; unfold record_field; simpl;
    rewrite lookup_insert_eq; [|done]. by apply lookup_union_Some_l.
Qed.

(** X29: when no tracked path is empty or contains whitespace, the
    [total_files] that [update_repo_stats] stores is the number of
    tracked files. *)
Lemma total_files_plain env id path w w' :
  forallb plain_path (tracked_files env path (files w)) = true ->
  update_repo_stats env id path w = (Ret tt, w') ->
  record_field (db w') id "total_files"
  = Some (Py.str_int (Z.of_nat (length (tracked_files env path (files w))))).
Proof.
  intros Hplain Hrun. rewrite (update_repo_stats_total_files _ _ _ _ _ Hrun).
  by rewrite split_lines_plain.
Qed.

(** C8: [total_files] is the number of words of the output of
    [git ls-files], not the number of tracked files: with one tracked
    file, whose name has a blank in it, the process stores 2. *)
Theorem total_files_counts_words :
  demo_blank_update.1 = Ret tt
  /\ tracked_files demo_blank_env (working_copy demo_blank_env demo_url)
       (files demo_blank_update.2) = ["my file.txt"]
  /\ record_field (db demo_blank_update.2) "git_repo_id:1" "total_files" = Some "2".
Proof. split_and!; vm_compute; reflexivity. Qed.

(** * Further properties of the handlers *)

(** ** Reading the store *)

Lemma hgetall_fields w k :
  (forall s, db w !! k <> Some (RStr s)) -> Redis.hgetall k w = (Ret (fields_at (db w) k), w).
Proof.
  intros Hk. unfold Redis.hgetall, fields_at.
  destruct (db w !! k) as [[s|h]|] eqn:Hl; [by destruct (Hk s)|reflexivity..].
Qed.

Lemma pipeline_hgetall_fields w keys :
  (forall k, k ∈ keys -> forall s, db w !! k <> Some (RStr s)) ->
  pipeline_hgetall keys w = (Ret (fields_at (db w) <$> keys), w).
Proof.
  induction keys as [|k keys IH]; intros Hk; [done|]. csimpl.
  erewrite bind_Ret; [|apply hgetall_fields, Hk; by left].
  erewrite bind_Ret; [|apply IH; intros k' Hk'; apply Hk; by right]. done.
Qed.

Lemma pipeline_hgetall_wrongtype w keys k s :
  k ∈ keys -> db w !! k = Some (RStr s) ->
  pipeline_hgetall keys w = (Raise ResponseError, w).
Proof.
  induction keys as [|k0 keys IH]; intros Hin Hk; [by apply elem_of_nil in Hin|].
  simpl. unfold bind at 1. unfold Redis.hgetall.
  destruct (db w !! k0) as [[s0|h0]|] eqn:Hl; [done|..];
    (apply elem_of_cons in Hin as [->|Hin]; [congruence|]);
    unfold bind; by rewrite (IH Hin Hk).
Qed.


Lemma zip_fmap_str (f : string -> gmap string string) (ids : list Py.jval) :
  zip ids (f <$> (Py.str <$> ids)) = (fun v => (v, f (Py.str v))) <$> ids.
Proof. induction ids as [|v ids IH]; [done|]. csimpl. by rewrite IH. Qed.

Lemma zip_JStr (f : string -> gmap string string) (ks : list string) :
  zip (Py.JStr <$> ks) (f <$> ks) = (fun k => (Py.JStr k, f k)) <$> ks.
Proof. induction ks as [|k ks IH]; [done|]. csimpl. by rewrite IH. Qed.

Lemma str_JStr (ks : list string) : Py.str <$> (Py.JStr <$> ks) = ks.
Proof. induction ks as [|k ks IH]; [done|]. csimpl. by rewrite IH. Qed.

Lemma prefix_app p r : String.prefix p (p +:+ r) = true.
Proof.
  induction p as [|a p IH]; [by destruct r|].
  change (String a p +:+ r) with (String a (p +:+ r)). simpl.
  by destruct (ascii_dec a a).
Qed.

Lemma prefix_split p s : String.prefix p s = true -> exists r, s = p +:+ r.
Proof.
  revert s. induction p as [|a p IH]; intros s; [by exists s|].
  destruct s as [|b s]; [done|]. simpl.
  destruct (ascii_dec a b) as [->|]; [|done].
  intros [r ->]%IH. by exists r.
Qed.

Lemma record_prefix_no_scheme k : String.prefix "git_repo_id:" k = true -> has_scheme k = false.
Proof. intros [r ->]%prefix_split. reflexivity. Qed.

(** On a store the handlers can produce, the keys read without an id
    list are the keys of the records. *)
Lemma listed_keys d c k :
  wf d c -> k ∈ record_keys d <-> exists h, d !! k = Some (RHash h).
Proof.
  intros Hwf. unfold record_keys. rewrite !list_elem_of_filter, list_elem_of_fmap. split.
  - intros (Hne & Hp & [k' v] & -> & Hin%elem_of_map_to_list). simpl in *.
    destruct v as [s|h]; [|eauto]. exfalso.
    destruct (wf_mapping _ _ Hwf _ _ Hin) as [?|[Hs _]]; [done|].
    by rewrite record_prefix_no_scheme in Hs.
  - intros [h Hk]. destruct (wf_hash_key _ _ Hwf _ _ Hk) as (Hc & _ & n & -> & _).
    split_and!; [done|apply prefix_app|].
    exists (repo_key n, RHash h). split; [done|]. by apply elem_of_map_to_list.
Qed.

Lemma get_all_eq w c :
  wf (db w) c ->
  get_git_repositories NoJson w
  = (Ret (Repositories ((fun k => (Py.JStr k, fields_at (db w) k)) <$> record_keys (db w)),
          200), w).
Proof.
  intros Hwf. unfold get_git_repositories.
  rewrite (bind_Ret _ _ w (Py.JStr <$> record_keys (db w)) w) by reflexivity.
  rewrite str_JStr.
  erewrite bind_Ret.
  2:{ apply pipeline_hgetall_fields. intros k [h Hk]%(listed_keys _ c); [|done].
      intros s. congruence. }
  unfold ret. by rewrite zip_JStr.
Qed.

Lemma listed_record d c k h :
  wf d c ->
  (Py.JStr k, h) ∈ (fun k => (Py.JStr k, fields_at d k)) <$> record_keys d
  <-> d !! k = Some (RHash h).
Proof.
  intros Hwf. rewrite list_elem_of_fmap. split.
  - intros [k' [[= <- ->] [h' Hk]%(listed_keys _ c)]]; [|done].
    unfold fields_at. by rewrite Hk.
  - intros Hk. exists k. split.
    + unfold fields_at. by rewrite Hk.
    + apply (listed_keys _ c); eauto.
Qed.

(** X1: a GET request never writes: whatever its body and however it
    ends, the store, the files, the locks and the trace are as before. *)
Theorem get_never_writes env req w out w' :
  serve env (GET req) w = (out, w') -> w' = w.
Proof.
  intros [out0 H]%serve_world. by apply get_git_repositories_same in H.
Qed.

Lemma get_never_writes_witness :
  (serve demo_quiet_env (GET NoJson) demo_cloned).2 = demo_cloned.
Proof.
  apply (get_never_writes demo_quiet_env NoJson demo_cloned
           (serve demo_quiet_env (GET NoJson) demo_cloned).1).
  apply run_result.
Defined.

(** X2: on a store the handlers can produce, a GET request without a
    body answers 200 with one entry for every record, under the key the
    record is stored at and with the fields of the record, each record
    once, and with nothing else: neither the counter nor the mappings of
    the URLs are listed. *)
Theorem get_all_lists_records w :
  store_ok (db w) = true ->
  exists l,
    get_git_repositories NoJson w = (Ret (Repositories l, 200), w)
    /\ NoDup l.*1
    /\ (forall v h, (v, h) ∈ l -> exists k, v = Py.JStr k)
    /\ (forall k h, (Py.JStr k, h) ∈ l <-> db w !! k = Some (RHash h)).
Proof.
  intros [c Hwf]%store_ok_spec.
  exists ((fun k => (Py.JStr k, fields_at (db w) k)) <$> record_keys (db w)). split_and!.
  - by eapply get_all_eq.
  - rewrite <- list_fmap_compose.
    apply NoDup_fmap_2; [by intros k1 k2 [= ->]|].
    unfold record_keys. do 2 apply NoDup_filter. apply NoDup_fst_map_to_list.
  - intros v h [k [[= -> ->] _]]%list_elem_of_fmap. eauto.
  - intros k h. by eapply listed_record.
Qed.

Lemma get_all_lists_records_witness :
  exists l,
    get_git_repositories NoJson demo_cloned = (Ret (Repositories l, 200), demo_cloned)
    /\ NoDup l.*1
    /\ (forall v h, (v, h) ∈ l -> exists k, v = Py.JStr k)
    /\ (forall k h, (Py.JStr k, h) ∈ l <-> db demo_cloned !! k = Some (RHash h)).
Proof. apply (get_all_lists_records demo_cloned). vm_compute. reflexivity. Defined.

(** X3: a GET request with a list of ids answers 200 with one entry per
    id, in the order given and with repetitions kept, each id paired with
    the hash stored under the key [str(id)], the empty dict when there is
    no such key; nothing is written.  On any store: this holds as long as
    no id spells a key that holds a string.  An id given as the whole key
    ['git_repo_id:<n>'] is therefore answered with the record. *)
Theorem get_by_id_reads_keys_verbatim w (ids : list Py.jval) :
  (forall v, v ∈ ids -> forall s, db w !! Py.str v <> Some (RStr s)) ->
  get_git_repositories (Json ids) w
  = (Ret (Repositories ((fun v => (v, fields_at (db w) (Py.str v))) <$> ids), 200), w).
Proof.
  intros Hids. unfold get_git_repositories. erewrite bind_Ret; [|reflexivity].
  erewrite bind_Ret.
  2:{ apply pipeline_hgetall_fields. intros k [v [-> Hv]]%list_elem_of_fmap. by apply Hids. }
  unfold ret. by rewrite zip_fmap_str.
Qed.

Lemma get_by_id_reads_keys_verbatim_witness :
  get_git_repositories (Json [Py.JStr "git_repo_id:1"; Py.JInt 1]) demo_cloned
  = (Ret (Repositories ((fun v => (v, fields_at (db demo_cloned) (Py.str v)))
                          <$> [Py.JStr "git_repo_id:1"; Py.JInt 1]), 200), demo_cloned).
Proof.
  apply (get_by_id_reads_keys_verbatim demo_cloned [Py.JStr "git_repo_id:1"; Py.JInt 1]).
  apply (proj1 (Forall_forall
                  (fun v => forall s, db demo_cloned !! Py.str v <> Some (RStr s)) _)).
  repeat constructor; intros s; vm_compute; discriminate.
Defined.

(** The two ids of the witness: the whole key finds the record, the
    number finds nothing. *)
Example get_by_key_finds_the_record :
  (get_git_repositories (Json [Py.JStr "git_repo_id:1"; Py.JInt 1]) demo_cloned).1
  = Ret (Repositories [(Py.JStr "git_repo_id:1", demo_record); (Py.JInt 1, ∅)], 200).
Proof. vm_compute. reflexivity. Qed.

(** X4: a GET request whose id list has an id that spells a key holding
    a string, that is a registered URL or the counter ['git_repo_id:id'],
    is not answered: [HGETALL] on that key fails, the [ResponseError]
    leaves the handler, which catches nothing, and nothing is written. *)
Theorem get_by_id_wrong_type env w (ids : list Py.jval) v s :
  v ∈ ids -> db w !! Py.str v = Some (RStr s) ->
  serve env (GET (Json ids)) w = (Raise ResponseError, w).
Proof.
  intros Hv Hs. unfold serve, get_post_delete_resources, get_git_repositories.
  erewrite bind_Ret; [|reflexivity].
  rewrite (bind_Raise _ _ _ ResponseError w); [done|].
  eapply pipeline_hgetall_wrongtype; [|done]. apply list_elem_of_fmap. eauto.
Qed.

Lemma get_by_id_wrong_type_witness :
  db demo_cloned !! demo_url = Some (RStr "git_repo_id:1")
  /\ serve demo_quiet_env (GET (Json [Py.JInt 1; Py.JStr demo_url])) demo_cloned
     = (Raise ResponseError, demo_cloned).
Proof.
  split; [vm_compute; reflexivity|].
  apply (get_by_id_wrong_type demo_quiet_env demo_cloned [Py.JInt 1; Py.JStr demo_url]
           (Py.JStr demo_url) "git_repo_id:1").
  - right. left.
  - vm_compute. reflexivity.
Defined.

(** ** What the service answers *)


Lemma store_errors_only_bind {A B} (m : M A) (k : A -> M B) :
  store_errors_only m -> (forall a, store_errors_only (k a)) -> store_errors_only (bind m k).
Proof.
  intros Hm Hk w out w' Hrun. unfold bind in Hrun.
  destruct (m w) as [[a|e|] w1] eqn:Hmw; destruct (Hm _ _ _ Hmw) as [Hb He].
  - by eapply Hk.
  - injection Hrun as <- <-. split; [done|]. intros e' [= <-]. by apply He.
  - done.
Qed.

Ltac store_errors_prim :=
  intros w out w';
  cbv beta delta [Redis.get Redis.incr Redis.getset Redis.hmset Redis.write start_process ret];
  repeat case_match; intros [= <- <-]; (split; [done|]); intros e' [= <-]; eauto.

Lemma store_errors_only_ret {A} (a : A) : store_errors_only (ret a).
Proof. store_errors_prim. Qed.
Lemma store_errors_only_get k : store_errors_only (Redis.get k).
Proof. store_errors_prim. Qed.
Lemma store_errors_only_incr k : store_errors_only (Redis.incr k).
Proof. store_errors_prim. Qed.
Lemma store_errors_only_getset k v : store_errors_only (Redis.getset k v).
Proof. store_errors_prim. Qed.
Lemma store_errors_only_hmset k m : store_errors_only (Redis.hmset k m).
Proof. store_errors_prim. Qed.
Lemma store_errors_only_start_process id : store_errors_only (start_process id).
Proof. store_errors_prim. Qed.

Lemma clone_checkout_store_errors url repository :
  store_errors_only (clone_checkout_git_repository url repository).
Proof.
  unfold clone_checkout_git_repository.
  repeat first
    [ apply store_errors_only_ret | apply store_errors_only_get | apply store_errors_only_incr
    | apply store_errors_only_getset | apply store_errors_only_hmset
    | apply store_errors_only_start_process
    | match goal with |- store_errors_only (if ?x then _ else _) => destruct x end
    | apply store_errors_only_bind; [|intros ?] ].
Qed.

Lemma clone_checkout_raises url repository w e w' :
  clone_checkout_git_repository url repository w = (Raise e, w') ->
  e = ResponseError \/ e = DataError.
Proof. intros H. by eapply clone_checkout_store_errors. Qed.

Lemma clone_checkout_not_blocked url repository w w' :
  clone_checkout_git_repository url repository w <> (Blocked, w').
Proof. intros H. by eapply clone_checkout_store_errors. Qed.

Lemma post_git_repositories_outcome env req w out w' :
  post_git_repositories env req w = (out, w') ->
  out = Ret (Text "Accepted", 202)
  \/ (exists error, out = Raise (bad_request error) /\ w' = w)
  \/ out = Raise TypeError \/ out = Raise ResponseError \/ out = Raise DataError.
Proof.
  unfold post_git_repositories.
  destruct req as [|err|repository]; [intros [= <- <-]; eauto 10..|].
  destruct (repository !! "url") as [[z|url]|];
    [intros [= <- <-]; eauto 10| |intros [= <- <-]; eauto 10].
  unfold validate_git_url. destruct (url_validator env url); [|intros [= <- <-]; eauto 10].
  erewrite bind_Ret; [|reflexivity]. unfold bind at 1.
  destruct (clone_checkout_git_repository url repository w) as [[id|e|] w1] eqn:Hc.
  - intros [= <- _]. eauto.
  - intros [= <- _]. destruct (clone_checkout_raises _ _ _ _ _ Hc) as [->| ->]; eauto 10.
  - by destruct (clone_checkout_not_blocked _ _ _ _ Hc).
Qed.






(** ** Registration, as a request *)

(** X6: a POST request that is refused (no body, a body that is not
    JSON, no ['url'], a URL the validator rejects) is answered with status
    400 and has written nothing: no identity is taken from the counter, no
    record or mapping is created, no process is started. *)
Theorem refused_registration_writes_nothing env req w d code w' :
  serve env (POST req) w = (Ret (Jsonified d, code), w') ->
  w' = w /\ code = 400 /\ d !! "message" = Some "Bad Request" /\ is_Some (d !! "error").
Proof.
  unfold serve. simpl.
  destruct (post_git_repositories env req w) as [o w0] eqn:H.
  destruct (post_git_repositories_outcome _ _ _ _ _ H) as [->|[(err & -> & ->)|[->|[->| ->]]]];
    intros [= <- <- <-]; eauto.
Qed.

Lemma refused_registration_writes_nothing_witness :
  (serve demo_quiet_env demo_no_url demo_cloned).2 = demo_cloned
  /\ 400 = 400
  /\ (<["message" := "Bad Request"]>
        {["error" := "An Error while processing incoming JSON Git repository "
                     +:+ "information: 'url'. 'url' is an obligatory parameter."]}
      : gmap string string) !! "message" = Some "Bad Request"
  /\ is_Some ((<["message" := "Bad Request"]>
        {["error" := "An Error while processing incoming JSON Git repository "
                     +:+ "information: 'url'. 'url' is an obligatory parameter."]}
      : gmap string string) !! "error").
Proof.
  apply (refused_registration_writes_nothing demo_quiet_env
           (Json (delete "url" demo_repository)) demo_cloned).
  apply run_outcome. vm_compute. reflexivity.
Defined.

Lemma hmset_Ret key (mapping : gmap string string) w w' :
  Redis.hmset key mapping w = (Ret tt, w') ->
  exists h, db w' = <[key := RHash h]> (db w)
            /\ (forall f v, mapping !! f = Some v -> h !! f = Some v)
            /\ files w' = files w /\ flocks w' = flocks w /\ now w' = now w
            /\ trace w' = trace w ++ [(HmSet key mapping, db w')].
Proof.
  unfold Redis.hmset. case_decide; [done|].
  destruct (db w !! key) as [[s|h]|]; [done|..]; intros [= <-]; simpl.
  - exists (mapping ∪ h). split_and!; try done. intros f v Hf. by apply lookup_union_Some_l.
  - exists mapping. split_and!; done.
Qed.

(** The end of [clone_checkout_git_repository], for both branches. *)
Lemma register_tail id (m : gmap string string) w0 id' w' :
  (Redis.hmset id m ;; start_process id ;; ret id) w0 = (Ret id', w') ->
  id' = id
  /\ (forall s, db w0 !! id <> Some (RStr s))
  /\ exists h, db w' = <[id := RHash h]> (db w0)
               /\ (forall f v, m !! f = Some v -> h !! f = Some v)
               /\ files w' = files w0 /\ flocks w' = flocks w0
               /\ trace w' = trace w0 ++ [(HmSet id m, db w'); (Spawn id, db w')].
Proof.
  unfold bind at 1. destruct (Redis.hmset id m w0) as [[[]|e|] w1] eqn:Hset; [|done..].
  destruct (hmset_Ret _ _ _ _ Hset) as (h & Hdb & Hh & Hf & Hl & _ & Htr).
  unfold bind, start_process, ret. intros [= <- <-]. simpl.
  split_and!; [done| |].
  - intros s Hs. unfold Redis.hmset in Hset. case_decide; [done|]. by rewrite Hs in Hset.
  - exists h. split_and!; try done. by rewrite Htr, <- app_assoc.
Qed.

(** Its [else] branch: the next identity, and the mapping of the URL. *)
Lemma allocate_Ret url w id w0 :
  (n <- Redis.incr "git_repo_id:id" ;;
   let git_repo_id := "git_repo_id:" +:+ Py.str_int n in
   Redis.getset url git_repo_id ;; ret git_repo_id) w = (Ret id, w0) ->
  exists n d1,
    id = repo_key n
    /\ d1 = <["git_repo_id:id" := RStr (Py.str_int n)]> (db w)
    /\ db w0 = <[url := RStr id]> d1
    /\ files w0 = files w /\ flocks w0 = flocks w
    /\ trace w0 = trace w ++ [(Incr "git_repo_id:id" n, d1); (GetSet url id, db w0)].
Proof.
  unfold bind at 1. unfold Redis.incr.
  destruct (db w !! "git_repo_id:id") as [[c|hc]|]; [|done|].
  - destruct (Redis.parse_int c) as [z|]; [|done].
    unfold bind, Redis.getset, ret. cbn [db record set_db].
    destruct (_ !! url) as [[s'|h']|]; [|done|]; intros [= <- <-];
      eexists (z + 1), _; simpl; split_and!; try done; by rewrite <- app_assoc.
  - unfold bind, Redis.getset, ret. cbn [db record set_db].
    destruct (_ !! url) as [[s'|h']|]; [|done|]; intros [= <- <-];
      eexists 1, _; simpl; split_and!; try done; by rewrite <- app_assoc.
Qed.

(** A registration that returns, on any store. *)
Lemma clone_checkout_Ret url repository w id w' :
  clone_checkout_git_repository url repository w = (Ret id, w') ->
  db w' !! url = Some (RStr id)
  /\ (exists h, db w' !! id = Some (RHash h)
                /\ forall f v, repository !! f = Some v -> h !! f = Some (Py.str v))
  /\ files w' = files w /\ flocks w' = flocks w
  /\ exists l, trace w' = trace w ++ l ++ [(Spawn id, db w')]
               /\ Forall (fun e => forall k, e.1 <> Spawn k) l.
Proof.
  unfold clone_checkout_git_repository. unfold bind at 1. unfold Redis.get.
  assert (forall w0 l, db w0 !! url = Some (RStr id) -> files w0 = files w ->
            flocks w0 = flocks w -> trace w0 = trace w ++ l ->
            Forall (fun e : effect * gmap string rval => forall k, e.1 <> Spawn k) l ->
            forall id0,
            (Redis.hmset id0 (Py.str <$> repository) ;; start_process id0 ;; ret id0) w0
            = (Ret id, w') -> id0 = id ->
            db w' !! url = Some (RStr id)
            /\ (exists h, db w' !! id = Some (RHash h)
                 /\ forall f v, repository !! f = Some v -> h !! f = Some (Py.str v))
            /\ files w' = files w /\ flocks w' = flocks w
            /\ exists l, trace w' = trace w ++ l ++ [(Spawn id, db w')]
                 /\ Forall (fun e => forall k, e.1 <> Spawn k) l) as Htail.
  { intros w0 l Hmap Hf Hl Htr Hall id0 Hrun ->.
    destruct (register_tail _ _ _ _ _ Hrun) as (_ & Hns & h & Hdb & Hh & Hf' & Hl' & Htr').
    assert (id <> url) as Hne by (intros ->; by eapply Hns).
    split_and!; [by rewrite Hdb, lookup_insert_ne| |congruence|congruence|].
    - exists h. split; [by rewrite Hdb, lookup_insert_eq|].
      intros f v Hv. apply Hh. by rewrite lookup_fmap, Hv.
    - exists (l ++ [(HmSet id (Py.str <$> repository), db w')]).
      rewrite Htr', Htr, <- !app_assoc. split; [done|].
      apply Forall_app. split; [done|]. by repeat constructor. }
  assert (forall wx, wx = w ->
    bind (n <- Redis.incr "git_repo_id:id" ;;
          let git_repo_id := "git_repo_id:" +:+ Py.str_int n in
          Redis.getset url git_repo_id ;; ret git_repo_id)
         (fun git_repo_id =>
            Redis.hmset git_repo_id (Py.str <$> repository) ;;
            start_process git_repo_id ;; ret git_repo_id) wx = (Ret id, w') ->
    db w' !! url = Some (RStr id)
    /\ (exists h, db w' !! id = Some (RHash h)
         /\ forall f v, repository !! f = Some v -> h !! f = Some (Py.str v))
    /\ files w' = files w /\ flocks w' = flocks w
    /\ exists l, trace w' = trace w ++ l ++ [(Spawn id, db w')]
         /\ Forall (fun e => forall k, e.1 <> Spawn k) l) as Hfresh.
  { intros wx ->. unfold bind at 1.
    match goal with |- context [match ?m w with _ => _ end] =>
      destruct (m w) as [[id0|e|] w0] eqn:Ha; [|done..] end.
    destruct (allocate_Ret _ _ _ _ Ha) as (n & d1 & -> & -> & Hdb & Hf & Hl & Htr).
    intros Hrun. pose proof Hrun as Hrun'.
    apply register_tail in Hrun' as (Heq & _).
    assert (db w0 !! url = Some (RStr id)) as Hmap0
      by (rewrite Hdb, Heq; by rewrite lookup_insert_eq).
    eapply (Htail w0 _ Hmap0 Hf Hl Htr); [|exact Hrun|done].
    by repeat constructor. }
  destruct (db w !! url) as [[s|h0]|] eqn:Hurl; [|done|].
  - destruct (Py.truthy (Some s)) eqn:Hs.
    + rewrite (bind_Ret _ _ w s w) by reflexivity.
      intros Hrun. pose proof Hrun as Hrun'. apply register_tail in Hrun' as (Heq & _).
      eapply (Htail w []);
        [by rewrite Hurl, Heq|done|done|by rewrite app_nil_r|done|exact Hrun|done].
    + by apply Hfresh.
  - by apply Hfresh.
Qed.

(** X7: a POST request answered with 202 had a body with a ['url'] the
    validator accepts, and has left the URL mapped to an identity whose
    record holds every field of the request, as [str()] of its value; it
    touched no file and no lock, and the last thing it did was to start
    one background process, for that identity.  On any store. *)
Theorem accepted_registration env req w w' :
  serve env (POST req) w = (Ret (Text "Accepted", 202), w') ->
  exists repository url id h,
    req = Json repository
    /\ repository !! "url" = Some (Py.JStr url)
    /\ url_validator env url = true
    /\ db w' !! url = Some (RStr id)
    /\ db w' !! id = Some (RHash h)
    /\ (forall f v, repository !! f = Some v -> h !! f = Some (Py.str v))
    /\ files w' = files w /\ flocks w' = flocks w
    /\ exists l, effects_since w w' = l ++ [Spawn id]
                 /\ Forall (fun e => forall k, e <> Spawn k) l.
Proof.
  unfold serve. simpl. unfold post_git_repositories.
  destruct req as [|err|repository]; [done..|].
  destruct (repository !! "url") as [[z|url]|] eqn:Hurl; [done| |done].
  unfold validate_git_url. destruct (url_validator env url) eqn:Hv; [|done].
  erewrite bind_Ret; [|reflexivity]. unfold bind at 1.
  destruct (clone_checkout_git_repository url repository w) as [[id|e|] w1] eqn:Hc;
    [|by destruct e|done].
  intros [= <-].
  destruct (clone_checkout_Ret _ _ _ _ _ Hc) as (Hmap & (h & Hrec & Hh) & Hf & Hl & l & Htr & Hall).
  exists repository, url, id, h. split_and!; try done.
  exists l.*1. split.
  - rewrite (effects_since_trace _ _ _ Htr). by rewrite fmap_app.
  - apply Forall_fmap. eapply Forall_impl; [exact Hall|]. intros [e d] He k. apply He.
Qed.

Lemma accepted_registration_witness :
  exists repository url id h,
    Json demo_repository = Json repository
    /\ repository !! "url" = Some (Py.JStr url)
    /\ url_validator demo_quiet_env url = true
    /\ db demo_accepted.2 !! url = Some (RStr id)
    /\ db demo_accepted.2 !! id = Some (RHash h)
    /\ (forall f v, repository !! f = Some v -> h !! f = Some (Py.str v))
    /\ files demo_accepted.2 = files demo_empty /\ flocks demo_accepted.2 = flocks demo_empty
    /\ exists l, effects_since demo_empty demo_accepted.2 = l ++ [Spawn id]
                 /\ Forall (fun e => forall k, e <> Spawn k) l.
Proof.
  apply (accepted_registration demo_quiet_env (Json demo_repository) demo_empty).
  apply run_outcome. vm_compute. reflexivity.
Defined.

(** X8: on a store the handlers can produce, registering a URL that is
    not mapped yet takes exactly one identity from the counter: the
    counter goes from [c] to [c + 1], the URL is mapped to
    ['git_repo_id:<c+1>'], the record is created with the fields of the
    request and nothing else, a process is started for it, in this order,
    and no other key of the store changes. *)
Theorem first_registration_allocates w c url repository :
  store_ok (db w) = true -> counter (db w) = Some c ->
  has_scheme url = true -> db w !! url = None ->
  repository !! "url" = Some (Py.JStr url) ->
  exists w',
    clone_checkout_git_repository url repository w = (Ret (repo_key (c + 1)), w')
    /\ effects_since w w'
       = [Incr counter_key (c + 1); GetSet url (repo_key (c + 1));
          HmSet (repo_key (c + 1)) (Py.str <$> repository); Spawn (repo_key (c + 1))]
    /\ counter (db w') = Some (c + 1)
    /\ db w' !! url = Some (RStr (repo_key (c + 1)))
    /\ db w' !! repo_key (c + 1) = Some (RHash (Py.str <$> repository))
    /\ forall k, k <> counter_key -> k <> url -> k <> repo_key (c + 1) ->
                 db w' !! k = db w !! k.
Proof.
  intros [c0 Hwf]%store_ok_spec Hc Hu Hnone Hrepo.
  assert (c0 = c) as -> by (pose proof (wf_counter _ _ Hwf); congruence).
  assert (url <> counter_key) as Huc by (intros ->; done).
  assert (db w !! repo_key (c + 1) = None) as Hfresh by (eapply wf_repo_key_fresh; [done|lia]).
  assert (url <> repo_key (c + 1)) as Hur by (intros ->; done).
  pose proof (repo_key_not_counter (c + 1)) as Hkc.
  eexists. split; [apply clone_checkout_fresh; try done; by eapply fmap_str_nonempty|].
  cbn [db]. split_and!.
  - unfold effects_since. cbn [trace]. by rewrite drop_app_length.
  - unfold counter. rewrite !lookup_insert_ne, lookup_insert_eq by done. apply parse_int_str_int.
  - by rewrite lookup_insert_ne, lookup_insert_eq.
  - by rewrite lookup_insert_eq.
  - intros k ? ? ?. by rewrite !lookup_insert_ne.
Qed.

Lemma first_registration_allocates_witness :
  exists w',
    clone_checkout_git_repository demo_url demo_repository demo_empty
    = (Ret (repo_key (0 + 1)), w')
    /\ effects_since demo_empty w'
       = [Incr counter_key (0 + 1); GetSet demo_url (repo_key (0 + 1));
          HmSet (repo_key (0 + 1)) (Py.str <$> demo_repository); Spawn (repo_key (0 + 1))]
    /\ counter (db w') = Some (0 + 1)
    /\ db w' !! demo_url = Some (RStr (repo_key (0 + 1)))
    /\ db w' !! repo_key (0 + 1) = Some (RHash (Py.str <$> demo_repository))
    /\ forall k, k <> counter_key -> k <> demo_url -> k <> repo_key (0 + 1) ->
                 db w' !! k = db demo_empty !! k.
Proof.
  apply (first_registration_allocates demo_empty 0 demo_url demo_repository);
    vm_compute; reflexivity.
Defined.






(** ** Removal, as a whole *)

(** A removal that succeeds. *)
Lemma remove_repo_Ret env v w w' :
  remove_repo env v w = (Ret tt, w') ->
  exists h url,
    db w !! id_key v = Some (RHash h) /\ h !! "url" = Some url /\ url <> ""
    /\ materialized env w url (id_key v) = true
    /\ db w' = delete url (delete (id_key v) (db w))
    /\ files w' = without_tree (working_copy env url) (files w)
    /\ flocks w' = flocks w
    /\ exists l, trace w' = trace w ++ l
                 /\ l.*1 = [Rmtree (working_copy env url); Delete (id_key v); Delete url].
Proof.
  rewrite remove_repo_eq. unfold no_url_found, not_yet_cloned.
  destruct (db w !! id_key v) as [[s|h]|] eqn:Hrec; [done| |done].
  destruct (h !! "url") as [[|a u]|] eqn:Hurl; [done| |done].
  destruct (materialized env w (String a u) (id_key v)) eqn:Hmat; [|done].
  intros [= <-]. exists h, (String a u). split_and!; try done.
  eexists. split; [reflexivity|done].
Qed.

Lemma remove_repos_by_id_Ret env ids w w' :
  remove_repos_by_id env ids w = (Ret tt, w') ->
  (forall v, v ∈ ids -> is_Some (registered_url (db w) (id_key v))
                        /\ db w' !! id_key v = None)
  /\ NoDup (Py.str <$> ids)
  /\ (forall k x, db w' !! k = Some x -> db w !! k = Some x)
  /\ exists l, trace w' = trace w ++ l /\ l.*1 = flat_map (removal_effects env (db w)) ids.
Proof.
  revert w. induction ids as [|v ids IH]; intros w; simpl.
  - intros [= <-]. split_and!; [by intros v ?%elem_of_nil|constructor|done|].
    exists []. by rewrite app_nil_r.
  - unfold bind. destruct (remove_repo env v w) as [[[]|e|] w1] eqn:Hv; [|done..].
    intros Hrest. destruct (IH _ Hrest) as (Hall & Hnd & Hsub & l2 & Htr2 & Hl2).
    destruct (remove_repo_Ret _ _ _ _ Hv)
      as (h & url & Hrec & Hurl & _ & _ & Hdb & _ & _ & l1 & Htr1 & Hl1).
    assert (db w1 !! id_key v = None) as Hgone.
    { rewrite Hdb. destruct (decide (url = id_key v)) as [->|?].
      - apply lookup_delete_eq.
      - rewrite lookup_delete_ne by done. apply lookup_delete_eq. }
    assert (forall k x, db w1 !! k = Some x -> db w !! k = Some x) as Hsub1.
    { intros k x. rewrite Hdb. by intros [_ [_ ?]%lookup_delete_Some]%lookup_delete_Some. }
    assert (forall v', v' ∈ ids ->
              registered_url (db w1) (id_key v') = registered_url (db w) (id_key v')) as Hreg.
    { intros v' Hin. destruct (Hall _ Hin) as [[u Hu] _].
      pose proof Hu as (h' & Hrec' & Hurl')%registered_url_Some.
      rewrite Hu. symmetry. apply registered_url_Some. eauto. }
    split_and!.
    + intros v' [->|Hin]%elem_of_cons.
      * split; [exists url; apply registered_url_Some; eauto|].
        destruct (db w' !! id_key v) as [x|] eqn:Hx; [|done].
        apply Hsub in Hx. congruence.
      * destruct (Hall _ Hin) as [Hu Hnone]. split; [|done]. by rewrite <- Hreg.
    + constructor; [|done]. intros [v' [Heq Hin]]%list_elem_of_fmap.
      destruct (Hall _ Hin) as [[u Hu] _].
      apply registered_url_Some in Hu as (h' & Hrec' & _).
      unfold id_key in *. rewrite <- Heq in Hrec'. congruence.
    + eauto.
    + exists (l1 ++ l2). split; [by rewrite Htr2, Htr1, app_assoc|].
      rewrite fmap_app, Hl1, Hl2. unfold removal_effects at 2.
      assert (registered_url (db w) (id_key v) = Some url) as ->
        by (apply registered_url_Some; eauto).
      simpl. do 3 f_equal.
      rewrite !flat_map_concat_map. f_equal. apply map_ext_in.
      intros v' Hin%list_elem_of_In. unfold removal_effects. by rewrite Hreg.
Qed.

(** X11: a batch that [remove_repos_by_id] removes to the end.  Every id
    of it had a record with a URL, and none has a record afterwards; no
    two ids of the batch spell the same id (a repetition fails at its
    second occurrence); the store has lost keys and gained none; and the
    effects are, id after id in the order of the batch, the removal of
    the working copy, of the record and of the mapping of the URL. *)
Theorem removed_batch_is_gone env ids w w' :
  remove_repos_by_id env ids w = (Ret tt, w') ->
  (forall v, v ∈ ids -> is_Some (registered_url (db w) (id_key v))
                        /\ db w' !! id_key v = None)
  /\ NoDup (Py.str <$> ids)
  /\ (forall k x, db w' !! k = Some x -> db w !! k = Some x)
  /\ effects_since w w' = flat_map (removal_effects env (db w)) ids.
Proof.
  intros (Hall & Hnd & Hsub & l & Htr & Hl)%remove_repos_by_id_Ret.
  split_and!; try done. by rewrite (effects_since_trace _ _ _ Htr).
Qed.

Lemma removed_batch_is_gone_witness :
  (forall v, v ∈ [Py.JInt 1] -> is_Some (registered_url (db demo_cloned) (id_key v))
                               /\ db demo_removed !! id_key v = None)
  /\ NoDup (Py.str <$> [Py.JInt 1])
  /\ (forall k x, db demo_removed !! k = Some x -> db demo_cloned !! k = Some x)
  /\ effects_since demo_cloned demo_removed
     = flat_map (removal_effects demo_quiet_env (db demo_cloned)) [Py.JInt 1].
Proof.
  apply (removed_batch_is_gone demo_quiet_env [Py.JInt 1] demo_cloned demo_removed).
  apply run_outcome. vm_compute. reflexivity.
Defined.

(** X12: when the loop of [remove_repos_by_id] comes to an id that has
    no record, or whose record names no URL, it raises the [BadRequest]
    ['Could not find an url ...'] for this id, which the DELETE request
    answers with status 400; the ids before it stay removed and nothing
    else is changed. *)
Theorem remove_unknown_refused env w pre git_repo post w1 :
  remove_repos_by_id env pre w = (Ret tt, w1) ->
  (forall s, db w1 !! id_key git_repo <> Some (RStr s)) ->
  registered_url (db w1) (id_key git_repo) = None ->
  remove_repos_by_id env (pre ++ git_repo :: post) w = (Raise (no_url_found git_repo), w1)
  /\ serve env (DELETE (Json (pre ++ git_repo :: post))) w
     = (Ret (Jsonified (<["message" := "Bad Request"]>
                         {["error" := "Could not find an url for repository "
                                      +:+ "with a given id " +:+ Py.str git_repo
                                      +:+ ". Repository may not exist."]}), 400), w1).
Proof.
  intros Hpre Hns Hreg.
  assert (remove_repos_by_id env (pre ++ git_repo :: post) w
          = (Raise (no_url_found git_repo), w1)) as Hall.
  { rewrite (remove_repos_app _ _ _ _ _ Hpre). simpl. unfold bind.
    rewrite remove_repo_eq. unfold registered_url in Hreg.
    destruct (db w1 !! id_key git_repo) as [[s|h]|]; [by destruct (Hns s)| |done].
    by rewrite Hreg. }
  split; [done|].
  unfold serve, get_post_delete_resources, delete_git_repositories.
  destruct (pre ++ git_repo :: post) as [|v ids] eqn:Hids; [by destruct pre|].
  erewrite bind_Raise; [|exact Hall]. reflexivity.
Qed.

Lemma remove_unknown_refused_witness :
  remove_repos_by_id demo_quiet_env ([] ++ Py.JInt 9 :: [Py.JInt 1]) demo_cloned
  = (Raise (no_url_found (Py.JInt 9)), demo_cloned)
  /\ serve demo_quiet_env (DELETE (Json ([] ++ Py.JInt 9 :: [Py.JInt 1]))) demo_cloned
     = (Ret (Jsonified (<["message" := "Bad Request"]>
                         {["error" := "Could not find an url for repository "
                                      +:+ "with a given id " +:+ Py.str (Py.JInt 9)
                                      +:+ ". Repository may not exist."]}), 400), demo_cloned).
Proof.
  apply (remove_unknown_refused demo_quiet_env demo_cloned [] (Py.JInt 9) [Py.JInt 1]
           demo_cloned).
  - reflexivity.
  - intros s. vm_compute. discriminate.
  - vm_compute. reflexivity.
Defined.





(** X14: what is removed is no longer listed.  On a store the handlers
    can produce, after a DELETE request answered with 200 a GET request
    without a body lists none of the ids of the request, and lists only
    records that were there before, unchanged. *)
Theorem removed_is_not_listed env ids w w' :
  store_ok (db w) = true ->
  serve env (DELETE (Json ids)) w = (Ret (Text "OK", 200), w') ->
  exists l,
    serve env (GET NoJson) w' = (Ret (Repositories l, 200), w')
    /\ (forall v h, v ∈ ids -> (Py.JStr (id_key v), h) ∉ l)
    /\ forall k h, (Py.JStr k, h) ∈ l -> db w !! k = Some (RHash h).
Proof.
  intros [c Hwf]%store_ok_spec. unfold serve. simpl. unfold delete_git_repositories.
  destruct ids as [|v0 ids]; [done|]. unfold bind at 1.
  destruct (remove_repos_by_id env (v0 :: ids) w) as [[[]|e|] w1] eqn:Hrem;
    [|by destruct e|done].
  intros [= <-].
  pose proof (remove_repos_by_id_wf _ _ _ _ _ _ Hwf Hrem) as Hwf1.
  destruct (remove_repos_by_id_Ret _ _ _ _ Hrem) as (Hall & _ & Hsub & _).
  eexists. split_and!; [by rewrite (get_all_eq _ _ Hwf1)|..].
  - intros v h Hv Hin%(listed_record _ c); [|done].
    destruct (Hall _ Hv) as [_ Hnone]. congruence.
  - intros k h Hin%(listed_record _ c); [|done]. by apply Hsub.
Qed.

Lemma removed_is_not_listed_witness :
  exists l,
    serve demo_quiet_env (GET NoJson)
      (serve demo_quiet_env (DELETE (Json [Py.JInt 1])) demo_cloned).2
    = (Ret (Repositories l, 200), (serve demo_quiet_env (DELETE (Json [Py.JInt 1])) demo_cloned).2)
    /\ (forall v h, v ∈ [Py.JInt 1] -> (Py.JStr (id_key v), h) ∉ l)
    /\ forall k h, (Py.JStr k, h) ∈ l -> db demo_cloned !! k = Some (RHash h).
Proof.
  apply (removed_is_not_listed demo_quiet_env [Py.JInt 1] demo_cloned).
  - vm_compute. reflexivity.
  - apply run_outcome. vm_compute. reflexivity.
Defined.

(** ** Working copies and lock files *)

Lemma has_slash_app a b : has_slash (a +:+ b) = has_slash a || has_slash b.
Proof.
  induction a as [|c a IH]; [done|].
  change (String c a +:+ b) with (String c (a +:+ b)). simpl. rewrite IH. by rewrite orb_assoc.
Qed.

Lemma prefix_has_slash p s : String.prefix p s = true -> has_slash p = true -> has_slash s = true.
Proof. intros [r ->]%prefix_split Hp. by rewrite has_slash_app, Hp. Qed.

Lemma split_on_cons sep c r :
  Py.split_on sep (String c r)
  = if Ascii.eqb c sep then "" :: Py.split_on sep r
    else match Py.split_on sep r with
         | h :: t => String c h :: t
         | [] => [String c ""]
         end.
Proof. reflexivity. Qed.

Lemma split_on_not_nil sep s : Py.split_on sep s <> [].
Proof.
  destruct s as [|c s]; simpl; [done|].
  destruct (Ascii.eqb c sep); [done|]. by destruct (Py.split_on sep s).
Qed.

Lemma split_on_no_slash s : Forall (fun x => has_slash x = false) (Py.split_on "/" s).
Proof.
  induction s as [|c s IH]; simpl; [by repeat constructor|].
  destruct (Ascii.eqb_spec c "/") as [->|Hne].
  - by constructor.
  - destruct (Py.split_on "/" s) as [|h t]; [repeat constructor; simpl|].
    + destruct (Ascii.eqb_spec c "/"); done.
    + inversion IH as [|? ? Hh Ht]; subst. constructor; [|done]. simpl.
      rewrite Hh. by destruct (Ascii.eqb_spec c "/").
Qed.

Lemma split_on_single s h : Py.split_on "/" s = [h] -> s = h.
Proof.
  revert h. induction s as [|c s IH]; intros h; simpl; [by intros [= <-]|].
  destruct (Ascii.eqb c "/").
  - intros [= _ H]. by destruct (split_on_not_nil "/" s).
  - pose proof (split_on_not_nil "/" s) as Hne.
    destruct (Py.split_on "/" s) as [|h' t]; [done|].
    intros [= <- ->]. by rewrite (IH h').
Qed.

Lemma last_elem (l : list string) : l <> [] -> List.last l "" ∈ l.
Proof.
  induction l as [|a l IH]; [done|]. intros _. destruct l as [|b l]; [by left|].
  right. by apply IH.
Qed.

Lemma repo_name_no_slash url : has_slash (repo_name url) = false.
Proof.
  unfold repo_name, Py.last_item.
  pose proof (split_on_no_slash url) as H. rewrite Forall_forall in H.
  apply H, last_elem, split_on_not_nil.
Qed.

Lemma repo_name_trailing_slash url : last_char url = Some "/"%char -> repo_name url = "".
Proof.
  unfold repo_name, Py.last_item.
  induction url as [|c s IH]; [done|]. destruct s as [|d s].
  - intros [= ->]. done.
  - intros H. specialize (IH H). rewrite split_on_cons.
    pose proof (split_on_not_nil "/" (String d s)) as Hne.
    pose proof (split_on_single (String d s)) as Hsingle.
    destruct (Py.split_on "/" (String d s)) as [|h [|h2 t]]; [done| |].
    + by specialize (Hsingle _ eq_refl) as <-.
    + by destruct (Ascii.eqb c "/").
Qed.

Lemma ends_with_slash_app a b : b <> "" -> Py.ends_with_slash (a +:+ b) = Py.ends_with_slash b.
Proof.
  intros Hb. induction a as [|c a IH]; [done|].
  change (String c a +:+ b) with (String c (a +:+ b)). simpl.
  destruct (a +:+ b) eqn:Hab; [|done].
  destruct a; [|done]. by destruct b.
Qed.

Lemma ends_with_slash_has_slash p : Py.ends_with_slash p = true -> has_slash p = true.
Proof.
  induction p as [|c p IH]; [done|]. simpl. destruct p as [|d p].
  - intros ->. done.
  - intros H. rewrite (IH H). apply orb_true_r.
Qed.

Lemma dir_prefix_slash p : Py.ends_with_slash p = true -> Py.dir_prefix p = p.
Proof. unfold Py.dir_prefix. destruct p; [done|]. by intros ->. Qed.

Lemma dir_prefix_cases p : p <> "" -> Py.dir_prefix p = p \/ Py.dir_prefix p = p +:+ "/".
Proof.
  unfold Py.dir_prefix. destruct p; [done|]. intros _.
  destruct (Py.ends_with_slash _); eauto.
Qed.

Lemma path_join_relative a b :
  (forall r, b <> String "/" r) -> Py.path_join a b = Py.dir_prefix a +:+ b.
Proof.
  unfold Py.path_join. destruct b as [|c b]; [done|]. intros Hb.
  destruct (ascii_dec c "/") as [->|Hne]; [by destruct (Hb b)|].
  destruct c as [[] [] [] [] [] [] [] []]; done.
Qed.

Lemma no_slash_relative b : has_slash b = false -> forall r, b <> String "/" r.
Proof. intros Hb r ->. done. Qed.

Lemma string_app_assoc a b c : (a +:+ b) +:+ c = a +:+ (b +:+ c).
Proof.
  induction a as [|x a IH]; [done|].
  change ((String x a +:+ b) +:+ c) with (String x ((a +:+ b) +:+ c)). by rewrite IH.
Qed.

Lemma repos_path_slash env : Py.ends_with_slash (GIT_REPOS_PATH env) = true.
Proof.
  unfold GIT_REPOS_PATH. rewrite path_join_relative by done.
  by rewrite ends_with_slash_app.
Qed.

Lemma repos_path_not_empty env : GIT_REPOS_PATH env <> "".
Proof. intros H. pose proof (repos_path_slash env) as Hs. by rewrite H in Hs. Qed.

Lemma working_copy_eq env url : working_copy env url = GIT_REPOS_PATH env +:+ repo_name url.
Proof.
  unfold working_copy. fold (repo_name url).
  rewrite path_join_relative by apply no_slash_relative, repo_name_no_slash.
  by rewrite dir_prefix_slash by apply repos_path_slash.
Qed.

Lemma working_copy_not_empty env url : working_copy env url <> "".
Proof.
  rewrite working_copy_eq. pose proof (repos_path_not_empty env).
  by destruct (GIT_REPOS_PATH env).
Qed.

Lemma index_path_eq env url :
  Py.path_join (working_copy env url) ".git/index"
  = Py.dir_prefix (working_copy env url) +:+ ".git/index".
Proof. reflexivity. Qed.

Lemma has_slash_dir_prefix env url : has_slash (Py.dir_prefix (working_copy env url)) = true.
Proof.
  assert (has_slash (working_copy env url) = true) as Hs.
  { rewrite working_copy_eq, has_slash_app.
    by rewrite (ends_with_slash_has_slash _ (repos_path_slash env)). }
  destruct (dir_prefix_cases _ (working_copy_not_empty env url)) as [-> | ->]; [done|].
  by rewrite has_slash_app, Hs.
Qed.

Lemma without_tree_lookup_ne path f file :
  String.prefix (Py.dir_prefix path) file = false -> without_tree path f !! file = f !! file.
Proof.
  intros H. unfold without_tree. destruct (f !! file) as [x|] eqn:Hf.
  - apply map_lookup_filter_Some. by split.
  - apply map_lookup_filter_None. by left.
Qed.

(** X15: the working copy of a URL is [GIT_REPOS_PATH] followed by what
    follows the last ['/'] of the URL, and its lock file is that name
    followed by ['.lock'], in the directory the process runs in; neither
    name has a ['/'] in it, whatever the URL is, so the rest of the URL
    (host, owner) plays no part in either. *)
Theorem working_copy_below_root env url :
  working_copy env url = GIT_REPOS_PATH env +:+ repo_name url
  /\ lock_file url = repo_name url +:+ ".lock"
  /\ has_slash (repo_name url) = false
  /\ has_slash (lock_file url) = false.
Proof.
  split_and!; [apply working_copy_eq|done|apply repo_name_no_slash|].
  unfold lock_file. fold (repo_name url). by rewrite has_slash_app, repo_name_no_slash.
Qed.

(** X16: a URL that ends with ['/'] has the empty name: its working copy
    is [GIT_REPOS_PATH] itself and its lock file is ['.lock'].  Removing
    such a repository removes every file under [GIT_REPOS_PATH], so that
    afterwards no repository at all passes the test of
    [check_repo_was_cloned]. *)
Theorem trailing_slash_removes_all env git_repo w w' url :
  remove_repo env git_repo w = (Ret tt, w') ->
  registered_url (db w) (id_key git_repo) = Some url ->
  last_char url = Some "/"%char ->
  working_copy env url = GIT_REPOS_PATH env
  /\ lock_file url = ".lock"
  /\ (forall file, String.prefix (GIT_REPOS_PATH env) file = true -> files w' !! file = None)
  /\ forall url' id', materialized env w' url' id' = false.
Proof.
  intros (h & u & Hrec & Hurl & _ & _ & _ & Hfiles & _)%remove_repo_Ret
    (h' & Hrec' & Hurl')%registered_url_Some Hlast.
  assert (u = url) as -> by congruence.
  assert (working_copy env url = GIT_REPOS_PATH env) as Hwc.
  { rewrite working_copy_eq, (repo_name_trailing_slash _ Hlast). apply append_nil_r. }
  assert (forall file, String.prefix (GIT_REPOS_PATH env) file = true -> files w' !! file = None)
    as Hgone.
  { intros file Hp. rewrite Hfiles. apply without_tree_lookup.
    by rewrite Hwc, dir_prefix_slash by apply repos_path_slash. }
  split_and!; [done| |done|].
  - unfold lock_file. fold (repo_name url). by rewrite (repo_name_trailing_slash _ Hlast).
  - intros url' id'. unfold materialized. rewrite Hgone; [done|].
    rewrite index_path_eq, working_copy_eq.
    destruct (dir_prefix_cases (GIT_REPOS_PATH env +:+ repo_name url')) as [-> | ->].
    + rewrite <- working_copy_eq. apply working_copy_not_empty.
    + rewrite string_app_assoc. apply prefix_app.
    + rewrite !string_app_assoc. apply prefix_app.
Qed.

Lemma trailing_slash_removes_all_witness :
  working_copy demo_quiet_env demo_slash_url = GIT_REPOS_PATH demo_quiet_env
  /\ lock_file demo_slash_url = ".lock"
  /\ (forall file, String.prefix (GIT_REPOS_PATH demo_quiet_env) file = true ->
        files (remove_repo demo_quiet_env (Py.JInt 1) demo_slash_cloned).2 !! file = None)
  /\ forall url' id',
       materialized demo_quiet_env (remove_repo demo_quiet_env (Py.JInt 1) demo_slash_cloned).2
         url' id' = false.
Proof.
  apply (trailing_slash_removes_all demo_quiet_env (Py.JInt 1) demo_slash_cloned).
  - apply run_outcome. vm_compute. reflexivity.
  - vm_compute. reflexivity.
  - vm_compute. reflexivity.
Defined.

(** X17: two URLs with the same last segment share the working copy and
    the lock file.  When the repository of one of them is removed, the
    other one does not pass the test of [check_repo_was_cloned] any more,
    whatever its record says: its index file went with the tree. *)
Theorem same_name_shares_working_copy env git_repo w w' url url' id' :
  remove_repo env git_repo w = (Ret tt, w') ->
  registered_url (db w) (id_key git_repo) = Some url ->
  repo_name url' = repo_name url ->
  working_copy env url' = working_copy env url
  /\ lock_file url' = lock_file url
  /\ materialized env w' url' id' = false.
Proof.
  intros (h & u & Hrec & Hurl & _ & _ & _ & Hfiles & _)%remove_repo_Ret
    (h' & Hrec' & Hurl')%registered_url_Some Hname.
  assert (u = url) as -> by congruence.
  assert (working_copy env url' = working_copy env url) as Hwc
    by by rewrite !working_copy_eq, Hname.
  split_and!; [done| |].
  - unfold lock_file. fold (repo_name url') (repo_name url). by rewrite Hname.
  - unfold materialized. rewrite Hwc, Hfiles, without_tree_lookup; [done|].
    rewrite index_path_eq. apply prefix_app.
Qed.

Lemma same_name_shares_working_copy_witness :
  working_copy demo_quiet_env demo_fork_url = working_copy demo_quiet_env demo_url
  /\ lock_file demo_fork_url = lock_file demo_url
  /\ materialized demo_quiet_env demo_removed demo_fork_url "git_repo_id:2" = false.
Proof.
  apply (same_name_shares_working_copy demo_quiet_env (Py.JInt 1) demo_cloned demo_removed
           demo_url demo_fork_url "git_repo_id:2").
  - apply run_outcome. vm_compute. reflexivity.
  - vm_compute. reflexivity.
  - vm_compute. reflexivity.
Defined.

(** X18: removing a repository leaves its lock file where it is, as it
    leaves every file whose path has no ['/']: [rmtree] is given the
    working copy only, and nothing in the handlers removes a lock file. *)
Theorem removal_leaves_lock_file env git_repo w w' url :
  remove_repo env git_repo w = (Ret tt, w') ->
  registered_url (db w) (id_key git_repo) = Some url ->
  files w' !! lock_file url = files w !! lock_file url
  /\ forall file, has_slash file = false -> files w' !! file = files w !! file.
Proof.
  intros (h & u & Hrec & Hurl & _ & _ & _ & Hfiles & _)%remove_repo_Ret
    (h' & Hrec' & Hurl')%registered_url_Some.
  assert (u = url) as -> by congruence.
  assert (forall file, has_slash file = false -> files w' !! file = files w !! file) as Hkeep.
  { intros file Hf. rewrite Hfiles. apply without_tree_lookup_ne.
    destruct (String.prefix _ file) eqn:Hp; [|done].
    apply prefix_has_slash in Hp; [congruence|apply has_slash_dir_prefix]. }
  split; [|done]. apply Hkeep.
  unfold lock_file. fold (repo_name url). by rewrite has_slash_app, repo_name_no_slash.
Qed.

Lemma removal_leaves_lock_file_witness :
  files demo_removed !! lock_file demo_url = files demo_cloned !! lock_file demo_url
  /\ forall file, has_slash file = false -> files demo_removed !! file = files demo_cloned !! file.
Proof.
  apply (removal_leaves_lock_file demo_quiet_env (Py.JInt 1) demo_cloned demo_removed demo_url).
  - apply run_outcome. vm_compute. reflexivity.
  - vm_compute. reflexivity.
Defined.

(** The lock file of the witness is there, before and after. *)
Example lock_file_is_left :
  files demo_cloned !! "HapticFeedback.lock" = Some 0%N
  /\ files demo_removed !! "HapticFeedback.lock" = Some 0%N
  /\ files demo_removed !! "/home/gitstat/git_repositories/HapticFeedback/.git/index" = None.
Proof. split_and!; vm_compute; reflexivity. Qed.






(** In the witness the second repository is cloned, and stays so. *)
Example other_repository_stays :
  materialized demo_quiet_env demo_two_cloned demo_other_url "git_repo_id:2" = true
  /\ materialized demo_quiet_env (remove_repo demo_quiet_env (Py.JInt 1) demo_two_cloned).2
       demo_other_url "git_repo_id:2" = true
  /\ materialized demo_quiet_env (remove_repo demo_quiet_env (Py.JInt 1) demo_two_cloned).2
       demo_url "git_repo_id:1" = false.
Proof. split_and!; vm_compute; reflexivity. Qed.


(** ** The background process, from its start *)

(** X20: while another open file holds the lock of the repository name,
    a run of [run_git_clone_or_checkout] opens (and so truncates) the
    lock file and then waits in [flock]: it has run no git operation and
    written nothing to the store, and the lock stays with its holder. *)
Theorem lock_held_blocks env pid git_repo_id w url holder :
  registered_url (db w) git_repo_id = Some url ->
  flocks w !! lock_file url = Some holder ->
  exists w',
    run_git_clone_or_checkout env pid git_repo_id w = (Blocked, w')
    /\ effects_since w w' = [OpenW (lock_file url)]
    /\ db w' = db w
    /\ flocks w' = flocks w
    /\ files w' = <[lock_file url := 0%N]> (files w).
Proof.
  intros (h & Hrec & Hurl)%registered_url_Some Hheld.
  unfold run_git_clone_or_checkout.
  do 3 (erewrite bind_Ret; [|by apply hmget_hash]). rewrite Hurl.
  fold (lock_file url). unfold with_open_w.
  unfold bind at 1. unfold flock_ex. cbn [flocks record set_files]. rewrite Hheld.
  eexists. split; [reflexivity|]. split_and!; try done.
  unfold effects_since, record, set_files. cbn [trace]. by rewrite drop_app_length.
Qed.

Lemma lock_held_blocks_witness :
  exists w',
    run_git_clone_or_checkout demo_update_env 2 "git_repo_id:1" demo_locked = (Blocked, w')
    /\ effects_since demo_locked w' = [OpenW (lock_file demo_url)]
    /\ db w' = db demo_locked
    /\ flocks w' = flocks demo_locked
    /\ files w' = <[lock_file demo_url := 0%N]> (files demo_locked).
Proof.
  apply (lock_held_blocks demo_update_env 2 "git_repo_id:1" demo_locked demo_url 7%N);
    vm_compute; reflexivity.
Defined.

(** X21: a process whose identity has no record (it was removed after
    the process was started), or whose record names no URL, raises
    [AttributeError] at [repo_url.split] before it opens the lock file:
    nothing at all is changed. *)
Theorem process_without_record env pid git_repo_id w :
  (forall s, db w !! git_repo_id <> Some (RStr s)) ->
  registered_url (db w) git_repo_id = None ->
  run_git_clone_or_checkout env pid git_repo_id w = (Raise AttributeError, w).
Proof.
  intros Hns Hreg. unfold run_git_clone_or_checkout. unfold registered_url in Hreg.
  destruct (db w !! git_repo_id) as [[s|h]|] eqn:Hrec; [by destruct (Hns s)|..].
  - do 3 (erewrite bind_Ret; [|by apply hmget_hash]). by rewrite Hreg.
  - do 3 (erewrite bind_Ret; [|by apply hmget_None]). done.
Qed.

Lemma process_without_record_witness :
  run_git_clone_or_checkout demo_update_env 2 "git_repo_id:1" demo_removed
  = (Raise AttributeError, demo_removed).
Proof.
  apply (process_without_record demo_update_env 2 "git_repo_id:1" demo_removed).
  - intros s. vm_compute. discriminate.
  - vm_compute. reflexivity.
Defined.

Lemma git_clone_from_eq env url path branch w :
  git_clone_from env url path branch w =
  match clone_from env url path branch (files w) with
  | (None, f) => (Ret tt, World (db w) f (flocks w) (now w)
                            (trace w ++ [(CloneFrom url path branch true, db w)]))
  | (Some e, f) => (Raise (GitError e), World (db w) f (flocks w) (now w)
                                          (trace w ++ [(CloneFrom url path branch false, db w)]))
  end.
Proof. unfold git_clone_from. by destruct (clone_from env url path branch (files w)) as [[e|] f]. Qed.

(** The block under the lock, for a repository that is not materialized. *)
Lemma first_block env id url h branch rev w1 :
  db w1 !! id = Some (RHash h) -> materialized env w1 url id = false ->
  materialize_block env id url (working_copy env url) branch rev w1
  = (git_clone_from env url (working_copy env url) branch ;;
     (if Py.truthy rev then git_checkout env (working_copy env url) (str_option rev)
      else ret tt) ;;
     update_repo_stats env id (working_copy env url)) w1.
Proof.
  intros Hrec Hmat. unfold materialize_block.
  erewrite bind_Ret;
    [|rewrite check_repo_was_cloned_eq, Hmat; [done|by intros s; rewrite Hrec]].
  cbv beta iota. by rewrite ?bind_assoc.
Qed.

(** A run that gets the lock, up to the block. *)
Lemma run_under_lock env pid git_repo_id w url h :
  db w !! git_repo_id = Some (RHash h) -> h !! "url" = Some url ->
  flocks w !! lock_file url = None ->
  let lf := lock_file url in
  let w1 := World (db w) (<[lf := 0%N]> (files w)) (<[lf := pid]> (flocks w)) (now w)
              (trace w ++ [(OpenW lf, db w); (Flock lf, db w)]) in
  run_git_clone_or_checkout env pid git_repo_id w
  = match (try_git (materialize_block env git_repo_id url (working_copy env url)
                      (requested_branch h) (h !! "revision")) log_error ;;
           flock_un lf pid) w1 with
    | (Blocked, w') => (Blocked, w')
    | (r, w') => (r, record (Close lf) (set_flocks (release lf pid (flocks w')) w'))
    end.
Proof.
  intros Hrec Hurl Hfree lf w1. unfold run_git_clone_or_checkout.
  do 3 (erewrite bind_Ret; [|by apply hmget_hash]). rewrite Hurl.
  fold (lock_file url). fold (working_copy env url). fold (requested_branch h).
  unfold with_open_w. erewrite bind_Ret; [|by unfold flock_ex; simpl; rewrite Hfree].
  set (w0 := record (Flock (lock_file url)) _).
  assert (w0 = w1) as ->.
  { unfold w0, w1, lf, record, set_flocks, set_files. simpl. by rewrite <- app_assoc. }
  reflexivity.
Qed.

(** X22: the first run for a repository (registered, not materialized,
    lock free) whose clone fails.  The git error is logged and the run
    returns normally, with the lock released; the store is untouched, so
    the record has no [last_checkout] and the repository stays in the
    state in which it can be neither removed nor told from one that is
    still being cloned. *)
Theorem failed_clone_is_only_logged env pid git_repo_id w url h e f1 :
  db w !! git_repo_id = Some (RHash h) -> h !! "url" = Some url ->
  materialized env w url git_repo_id = false ->
  flocks w !! lock_file url = None ->
  clone_from env url (working_copy env url) (requested_branch h)
    (<[lock_file url := 0%N]> (files w)) = (Some e, f1) ->
  let lf := lock_file url in
  run_git_clone_or_checkout env pid git_repo_id w
  = (Ret tt,
     World (db w) f1 (flocks w) (now w)
       (trace w ++ [(OpenW lf, db w); (Flock lf, db w);
                    (CloneFrom url (working_copy env url) (requested_branch h) false, db w);
                    (LogError e, db w); (Funlock lf, db w); (Close lf, db w)])).
Proof.
  intros Hrec Hurl Hmat Hfree Hclone lf.
  rewrite (run_under_lock _ _ _ _ _ _ Hrec Hurl Hfree). fold lf.
  set (w1 := World _ _ _ _ _).
  assert (materialized env w1 url git_repo_id = false) as Hmat1.
  { rewrite <- Hmat. unfold materialized, w1. simpl. rewrite lookup_insert_ne; [done|].
    apply lock_file_not_index. }
  unfold bind at 1.
  erewrite try_git_GitError.
  2:{ rewrite (first_block _ _ _ h) by done.
      erewrite bind_Raise; [reflexivity|]. rewrite git_clone_from_eq.
      change (files w1) with (<[lock_file url:=0%N]> (files w)). by rewrite Hclone. }
  unfold log_error, flock_un, record, set_flocks. simpl.
  rewrite !release_held by done. rewrite release_free by done.
  by rewrite <- !app_assoc.
Qed.

Lemma failed_clone_is_only_logged_witness :
  run_git_clone_or_checkout demo_offline_env 1 "git_repo_id:1" demo_registered
  = (Ret tt,
     World (db demo_registered) (<[lock_file demo_url := 0%N]> (files demo_registered))
       (flocks demo_registered) (now demo_registered)
       (trace demo_registered
        ++ [(OpenW (lock_file demo_url), db demo_registered);
            (Flock (lock_file demo_url), db demo_registered);
            (CloneFrom demo_url (working_copy demo_offline_env demo_url)
               (requested_branch (Py.str <$> demo_repository)) false, db demo_registered);
            (LogError GitCommandError, db demo_registered);
            (Funlock (lock_file demo_url), db demo_registered);
            (Close (lock_file demo_url), db demo_registered)])).
Proof.
  apply (failed_clone_is_only_logged demo_offline_env 1 "git_repo_id:1" demo_registered
           demo_url (Py.str <$> demo_repository) GitCommandError
           (<[lock_file demo_url := 0%N]> (files demo_registered)));
    [vm_compute; reflexivity..|reflexivity].
Defined.

(** X23: the first run for a repository (registered, not materialized,
    lock free) in which everything succeeds: the clone of the requested
    branch (['master'] when the record has none), the checkout of the
    revision when the record has one, and [du].  The run performs exactly
    these, in this order, and no [HDEL]; it then writes the statistics in
    one [HMSET], so that the record gets a [last_checkout], the time of
    the run, and keeps the URL it had; the lock is released and the files
    are those git left. *)
Theorem first_run_materializes env pid git_repo_id w url h f1 f2 out tok toks :
  db w !! git_repo_id = Some (RHash h) -> h !! "url" = Some url ->
  materialized env w url git_repo_id = false ->
  flocks w !! lock_file url = None ->
  let lf := lock_file url in
  let path := working_copy env url in
  let rev := h !! "revision" in
  clone_from env url path (requested_branch h) (<[lf := 0%N]> (files w)) = (None, f1) ->
  (if Py.truthy rev then checkout env path (str_option rev) f1 else (None, f1)) = (None, f2) ->
  du_sh env path f2 = Some out -> Py.split out = tok :: toks ->
  let stats := repo_stats env (set_files f2 w) path tok in
  exists w',
    run_git_clone_or_checkout env pid git_repo_id w = (Ret tt, w')
    /\ db w' = <[git_repo_id := RHash (stats ∪ h)]> (db w)
    /\ files w' = f2 /\ flocks w' = flocks w
    /\ effects_since w w'
       = [OpenW lf; Flock lf; CloneFrom url path (requested_branch h) true]
         ++ (if Py.truthy rev then [Checkout path (str_option rev) true] else [])
         ++ [HmSet git_repo_id stats; Funlock lf; Close lf]
    /\ last_checkout (db w') git_repo_id = Some (now w)
    /\ registered_url (db w') git_repo_id = Some url.
Proof.
  intros Hrec Hurl Hmat Hfree lf path rev Hclone Hrev Hdu Htok stats.
  rewrite (run_under_lock _ _ _ _ _ _ Hrec Hurl Hfree). fold lf.
  set (w1 := World _ _ _ _ _).
  assert (materialized env w1 url git_repo_id = false) as Hmat1.
  { rewrite <- Hmat. unfold materialized, w1. simpl. rewrite lookup_insert_ne; [done|].
    apply lock_file_not_index. }
  destruct (repo_stats_lookup env (set_files f2 w) path tok) as (Hs1 & Hs2 & Hs3).
  fold stats in Hs1, Hs2, Hs3.
  set (revs := if Py.truthy rev then [(Checkout path (str_option rev) true, db w)] else []).
  set (w3 := World (db w) f2 (<[lf := pid]> (flocks w)) (now w)
               (trace w ++ [(OpenW lf, db w); (Flock lf, db w);
                            (CloneFrom url path (requested_branch h) true, db w)] ++ revs)).
  assert ((git_clone_from env url path (requested_branch h) ;;
           (if Py.truthy rev then git_checkout env path (str_option rev) else ret tt) ;;
           update_repo_stats env git_repo_id path) w1
          = Redis.hmset git_repo_id stats w3) as Hblock.
  { erewrite bind_eq; [|apply git_clone_from_eq].
    change (files w1) with (<[lf:=0%N]> (files w)). rewrite Hclone.
    cbv beta iota. cbn [db files flocks now trace w1].
    unfold revs, w3. destruct (Py.truthy rev).
    - erewrite bind_eq; [|apply git_checkout_eq]. cbn [db files flocks now trace].
      rewrite Hrev. cbv beta iota. rewrite update_repo_stats_eq. cbn [db files flocks now trace].
      rewrite Hdu, Htok. rewrite <- !app_assoc. reflexivity.
    - injection Hrev as ->. unfold bind at 1, ret at 1.
      rewrite update_repo_stats_eq. cbn [db files flocks now trace].
      rewrite Hdu, Htok. rewrite <- !app_assoc. reflexivity. }
  assert (db w3 !! git_repo_id = Some (RHash h)) as Hrec3 by done.
  unfold bind at 1.
  erewrite try_git_Ret.
  2:{ rewrite (first_block _ _ _ h) by done.
      etrans; [exact Hblock|]. by apply hmset_hash. }
  unfold flock_un, record, set_flocks. cbn [db files flocks now trace w3].
  rewrite !release_held by done. rewrite release_free by done.
  eexists. split; [reflexivity|]. cbn [db files flocks now trace].
  split_and!; try done.
  - unfold effects_since. cbn [trace]. rewrite <- !app_assoc. rewrite drop_app_length.
    unfold revs. destruct (Py.truthy rev); reflexivity.
  - unfold last_checkout. rewrite lookup_insert_eq.
    apply lookup_union_Some_l. exact Hs1.
  - unfold registered_url. rewrite lookup_insert_eq. by rewrite lookup_union_r.
Qed.

Lemma first_run_materializes_witness :
  exists w',
    run_git_clone_or_checkout demo_update_env 1 "git_repo_id:1" demo_registered = (Ret tt, w')
    /\ db w' = <["git_repo_id:1" :=
                  RHash (repo_stats demo_update_env
                           (set_files (<[Py.path_join (working_copy demo_update_env demo_url)
                                           ".git/index" := 120%N]>
                                         (<[lock_file demo_url := 0%N]> (files demo_registered)))
                              demo_registered)
                           (working_copy demo_update_env demo_url) "440K"
                         ∪ (Py.str <$> demo_repository))]> (db demo_registered)
    /\ files w' = <[Py.path_join (working_copy demo_update_env demo_url) ".git/index" := 120%N]>
                    (<[lock_file demo_url := 0%N]> (files demo_registered))
    /\ flocks w' = flocks demo_registered
    /\ effects_since demo_registered w'
       = [OpenW (lock_file demo_url); Flock (lock_file demo_url);
          CloneFrom demo_url (working_copy demo_update_env demo_url)
            (requested_branch (Py.str <$> demo_repository)) true]
         ++ (if Py.truthy ((Py.str <$> demo_repository) !! "revision")
             then [Checkout (working_copy demo_update_env demo_url)
                     (str_option ((Py.str <$> demo_repository) !! "revision")) true]
             else [])
         ++ [HmSet "git_repo_id:1"
               (repo_stats demo_update_env
                  (set_files (<[Py.path_join (working_copy demo_update_env demo_url)
                                  ".git/index" := 120%N]>
                                (<[lock_file demo_url := 0%N]> (files demo_registered)))
                     demo_registered)
                  (working_copy demo_update_env demo_url) "440K");
             Funlock (lock_file demo_url); Close (lock_file demo_url)]
    /\ last_checkout (db w') "git_repo_id:1" = Some (now demo_registered)
    /\ registered_url (db w') "git_repo_id:1" = Some demo_url.
Proof.
  apply (first_run_materializes demo_update_env 1 "git_repo_id:1" demo_registered demo_url
           (Py.str <$> demo_repository)
           (<[Py.path_join (working_copy demo_update_env demo_url) ".git/index" := 120%N]>
              (<[lock_file demo_url := 0%N]> (files demo_registered)))
           (<[Py.path_join (working_copy demo_update_env demo_url) ".git/index" := 120%N]>
              (<[lock_file demo_url := 0%N]> (files demo_registered)))
           "440K" "440K" []);
    [vm_compute; reflexivity|vm_compute; reflexivity|vm_compute; reflexivity
    |vm_compute; reflexivity|reflexivity..].
Defined.

(** The run of the witness, effect by effect. *)
Example first_run_trace :
  effects_since demo_registered
    (run_git_clone_or_checkout demo_update_env 1 "git_repo_id:1" demo_registered).2
  = [OpenW "HapticFeedback.lock"; Flock "HapticFeedback.lock";
     CloneFrom demo_url "/home/gitstat/git_repositories/HapticFeedback" "master" true;
     Checkout "/home/gitstat/git_repositories/HapticFeedback"
       "60f36e54065bd44bfd29f5efd7ba88efc2c0c970" true;
     HmSet "git_repo_id:1"
       (repo_stats demo_update_env
          (run_git_clone_or_checkout demo_update_env 1 "git_repo_id:1" demo_registered).2
          "/home/gitstat/git_repositories/HapticFeedback" "440K");
     Funlock "HapticFeedback.lock"; Close "HapticFeedback.lock"].
Proof. vm_compute. reflexivity. Qed.

Lemma only_stats_bind {A B} id (m : M A) (k : A -> M B) :
  only_stats id m -> (forall a, only_stats id (k a)) -> only_stats id (bind m k).
Proof.
  intros Hm Hk w out w' Hrun. unfold bind in Hrun.
  destruct (m w) as [[a|e|] w1] eqn:Hmw; destruct (Hm _ _ _ Hmw) as [H1 H2].
  - destruct (Hk a _ _ _ Hrun) as [H3 H4].
    split; [intros k0 ?; by rewrite H3, H1|intros f ?; by rewrite H4, H2].
  - by simplify_eq.
  - by simplify_eq.
Qed.

Lemma only_stats_try_git {A} id (m : M A) (k : git_exc -> M A) :
  only_stats id m -> (forall e, only_stats id (k e)) -> only_stats id (try_git m k).
Proof.
  intros Hm Hk w out w' Hrun. unfold try_git in Hrun.
  destruct (m w) as [[a|e|] w1] eqn:Hmw; destruct (Hm _ _ _ Hmw) as [H1 H2];
    [by simplify_eq| |by simplify_eq].
  destruct e as [| | |g| | | | |]; try by simplify_eq.
  destruct (Hk g _ _ _ Hrun) as [H3 H4].
  split; [intros k0 ?; by rewrite H3, H1|intros f ?; by rewrite H4, H2].
Qed.

Lemma only_stats_same_db {A} id (m : M A) :
  (forall w, db (m w).2 = db w) -> only_stats id m.
Proof.
  intros H w out w' Hrun. specialize (H w). rewrite Hrun in H. simpl in H. by rewrite H.
Qed.

Lemma only_stats_with_open_w {A} id file pid (m : M A) :
  only_stats id m -> only_stats id (with_open_w file pid m).
Proof.
  intros Hm w out w' Hrun. unfold with_open_w in Hrun.
  destruct (m _) as [o w1] eqn:Hmw. destruct (Hm _ _ _ Hmw) as [H1 H2].
  destruct o; simplify_eq; done.
Qed.

Ltac same_store :=
  apply only_stats_same_db; intros ?;
  cbv beta delta
    [Redis.get Redis.hmget Redis.hgetall get_files strftime_localtime start_process rmtree
     log_error git_clone_from git_repo git_checkout flock_un flock_ex record set_db set_files
     set_flocks ret raise];
  repeat case_match; reflexivity.

Lemma only_stats_ret {A} id (a : A) : only_stats id (ret a).
Proof. same_store. Qed.
Lemma only_stats_raise {A} id e : only_stats id (@raise A e).
Proof. same_store. Qed.
Lemma only_stats_hmget id k f : only_stats id (Redis.hmget k f).
Proof. same_store. Qed.
Lemma only_stats_log_error id e : only_stats id (log_error e).
Proof. same_store. Qed.
Lemma only_stats_git_repo id env p : only_stats id (git_repo env p).
Proof. same_store. Qed.
Lemma only_stats_git_checkout id env p r : only_stats id (git_checkout env p r).
Proof. same_store. Qed.
Lemma only_stats_git_clone_from id env u p b : only_stats id (git_clone_from env u p b).
Proof. same_store. Qed.
Lemma only_stats_flock_ex id f pid : only_stats id (flock_ex f pid).
Proof. same_store. Qed.
Lemma only_stats_flock_un id f pid : only_stats id (flock_un f pid).
Proof. same_store. Qed.

Lemma only_stats_check_repo_was_cloned id p k : only_stats id (check_repo_was_cloned p k).
Proof.
  apply only_stats_same_db. intros w.
  unfold check_repo_was_cloned, bind, get_files, Redis.hmget, ret.
  repeat case_match; simplify_eq; reflexivity.
Qed.

Lemma only_stats_hdel id : only_stats id (Redis.hdel id "last_checkout").
Proof.
  intros w out w'. unfold Redis.hdel, Redis.write, record_field.
  destruct (db w !! id) as [[s|h]|] eqn:Hrec; intros [= <- <-]; cbn [db record set_db].
  - by rewrite Hrec.
  - case_decide as He.
    + split; [intros k ?; by rewrite lookup_delete_ne|].
      intros f Hf. rewrite lookup_delete_eq.
      assert (f <> "last_checkout") as Hne by (intros ->; apply Hf; set_solver).
      apply (f_equal (fun m => m !! f)) in He.
      by rewrite lookup_delete_ne, lookup_empty in He.
    + split; [intros k ?; by rewrite lookup_insert_ne|].
      intros f Hf. rewrite lookup_insert_eq.
      assert (f <> "last_checkout") as Hne by (intros ->; apply Hf; set_solver).
      by rewrite lookup_delete_ne.
  - by rewrite Hrec.
Qed.

Lemma only_stats_hmset id (m : gmap string string) :
  (forall f, f ∉ stats_fields -> m !! f = None) -> only_stats id (Redis.hmset id m).
Proof.
  intros Hm w out w'. unfold Redis.hmset, Redis.write, record_field.
  case_decide; [by intros [= <- <-]|].
  destruct (db w !! id) as [[s|h]|] eqn:Hrec; intros [= <- <-]; cbn [db record set_db];
    [by rewrite Hrec|..].
  - split; [intros k ?; by rewrite lookup_insert_ne|].
    intros f Hf. rewrite lookup_insert_eq. by rewrite lookup_union_r by auto.
  - split; [intros k ?; by rewrite lookup_insert_ne|].
    intros f Hf. rewrite lookup_insert_eq. auto.
Qed.

Lemma repo_stats_fields env w path du f :
  f ∉ stats_fields -> repo_stats env w path du !! f = None.
Proof.
  intros Hf. unfold repo_stats.
  rewrite !lookup_insert_ne; [done|intros <-; apply Hf; unfold stats_fields; set_solver..].
Qed.

Lemma only_stats_update_repo_stats env id p : only_stats id (update_repo_stats env id p).
Proof.
  intros w out w'. rewrite update_repo_stats_eq.
  destruct (du_sh env p (files w)) as [o|]; [|by intros [= <- <-]].
  destruct (Py.split o) as [|tok toks]; [by intros [= <- <-]|].
  apply only_stats_hmset. intros f. apply repo_stats_fields.
Qed.

Ltac only_stats_go :=
  repeat first
    [ apply only_stats_hmget | apply only_stats_raise | apply only_stats_ret
    | apply only_stats_flock_ex | apply only_stats_flock_un | apply only_stats_log_error
    | apply only_stats_check_repo_was_cloned | apply only_stats_update_repo_stats
    | apply only_stats_hdel | apply only_stats_git_repo | apply only_stats_git_checkout
    | apply only_stats_git_clone_from
    | apply only_stats_with_open_w
    | apply only_stats_try_git; [|intros ?]
    | match goal with
      | |- only_stats _ (match ?x with _ => _ end) => destruct x
      | |- only_stats _ (if ?x then _ else _) => destruct x
      end
    | apply only_stats_bind; [|intros ?] ].

(** X24: whatever the store, the files and the git operations are, and
    however the run ends, a run of [run_git_clone_or_checkout] changes
    nothing in the store but the six statistics fields of the record of
    its own identity: every other key is as it was, and so are the
    ['url'], the ['branch'] and the ['revision'] of the record, and any
    other field a request has put there. *)
Theorem process_writes_only_stats env pid git_repo_id w out w' :
  run_git_clone_or_checkout env pid git_repo_id w = (out, w') ->
  (forall k, k <> git_repo_id -> db w' !! k = db w !! k)
  /\ (forall f, f ∉ stats_fields ->
        record_field (db w') git_repo_id f = record_field (db w) git_repo_id f).
Proof.
  revert w out w'. change (only_stats git_repo_id (run_git_clone_or_checkout env pid git_repo_id)).
  unfold run_git_clone_or_checkout. only_stats_go.
Qed.

Lemma process_writes_only_stats_witness :
  (forall k, k <> "git_repo_id:1" -> db demo_update.2 !! k = db demo_cloned !! k)
  /\ (forall f, f ∉ stats_fields ->
        record_field (db demo_update.2) "git_repo_id:1" f
        = record_field (db demo_cloned) "git_repo_id:1" f).
Proof.
  apply (process_writes_only_stats demo_update_env 2 "git_repo_id:1" demo_cloned demo_update.1).
  apply run_result.
Defined.

(** X25: [update_repo_stats] writes the statistics at once or not at
    all.  When [du] prints something, the function returns after a single
    [HMSET] of exactly the six statistics fields, with the first word of
    the output of [du] as ['disk_usage'] and the time of the call as
    ['last_checkout'], on top of the fields the record had.  When [du]
    fails, or prints no word, or the key holds a string, the function
    raises [CalledProcessError], [IndexError] or [ResponseError], none of
    which [run_git_clone_or_checkout] catches, and nothing is written. *)
Theorem stats_written_at_once env git_repo_id path w out w' :
  update_repo_stats env git_repo_id path w = (out, w') ->
  (exists o tok toks stats,
     du_sh env path (files w) = Some o /\ Py.split o = tok :: toks
     /\ stats !! "disk_usage" = Some tok /\ stats !! "last_checkout" = Some (now w)
     /\ dom stats = list_to_set stats_fields
     /\ out = Ret tt
     /\ effects_since w w' = [HmSet git_repo_id stats]
     /\ db w' = <[git_repo_id := RHash (stats ∪ fields_at (db w) git_repo_id)]> (db w))
  \/ ((out = Raise CalledProcessError \/ out = Raise IndexError \/ out = Raise ResponseError)
      /\ w' = w).
Proof.
  rewrite update_repo_stats_eq.
  destruct (du_sh env path (files w)) as [o|] eqn:Hdu; [|intros [= <- <-]; eauto].
  destruct (Py.split o) as [|tok toks] eqn:Htok; [intros [= <- <-]; eauto|].
  destruct (repo_stats_lookup env w path tok) as (Hlc & _ & Hne).
  assert (repo_stats env w path tok !! "disk_usage" = Some tok) as Hdisk.
  { unfold repo_stats. do 4 (rewrite lookup_insert_ne by done). by rewrite lookup_insert_eq. }
  assert (dom (repo_stats env w path tok) = list_to_set stats_fields) as Hdom.
  { unfold repo_stats, stats_fields. rewrite !dom_insert_L. set_solver. }
  unfold Redis.hmset. rewrite decide_False by done. unfold fields_at.
  destruct (db w !! git_repo_id) as [[s|h]|]; [intros [= <- <-]; eauto 10|..];
    intros [= <- <-]; left; exists o, tok, toks, (repo_stats env w path tok);
    (split_and!; [done..| |]).
  - unfold effects_since, Redis.write, record. cbn [trace]. by rewrite drop_app_length.
  - done.
  - unfold effects_since, Redis.write, record. cbn [trace]. by rewrite drop_app_length.
  - simpl. by rewrite (right_id_L ∅ (∪)).
Qed.

Lemma stats_written_at_once_witness :
  (exists o tok toks stats,
     du_sh demo_update_env (working_copy demo_update_env demo_url) (files demo_cloned) = Some o
     /\ Py.split o = tok :: toks
     /\ stats !! "disk_usage" = Some tok /\ stats !! "last_checkout" = Some (now demo_cloned)
     /\ dom stats = list_to_set stats_fields
     /\ (update_repo_stats demo_update_env "git_repo_id:1"
           (working_copy demo_update_env demo_url) demo_cloned).1 = Ret tt
     /\ effects_since demo_cloned
          (update_repo_stats demo_update_env "git_repo_id:1"
             (working_copy demo_update_env demo_url) demo_cloned).2
        = [HmSet "git_repo_id:1" stats]
     /\ db (update_repo_stats demo_update_env "git_repo_id:1"
              (working_copy demo_update_env demo_url) demo_cloned).2
        = <["git_repo_id:1" := RHash (stats ∪ fields_at (db demo_cloned) "git_repo_id:1")]>
            (db demo_cloned))
  \/ (((update_repo_stats demo_update_env "git_repo_id:1"
          (working_copy demo_update_env demo_url) demo_cloned).1 = Raise CalledProcessError
       \/ (update_repo_stats demo_update_env "git_repo_id:1"
             (working_copy demo_update_env demo_url) demo_cloned).1 = Raise IndexError
       \/ (update_repo_stats demo_update_env "git_repo_id:1"
             (working_copy demo_update_env demo_url) demo_cloned).1 = Raise ResponseError)
      /\ (update_repo_stats demo_update_env "git_repo_id:1"
            (working_copy demo_update_env demo_url) demo_cloned).2 = demo_cloned).
Proof.
  apply (stats_written_at_once demo_update_env "git_repo_id:1"
           (working_copy demo_update_env demo_url) demo_cloned).
  apply run_result.
Defined.

Lemma total_files_plain_witness :
  record_field
    (db (update_repo_stats demo_update_env "git_repo_id:1"
           (working_copy demo_update_env demo_url) demo_cloned).2)
    "git_repo_id:1" "total_files"
  = Some (Py.str_int (Z.of_nat (length (tracked_files demo_update_env
                                          (working_copy demo_update_env demo_url)
                                          (files demo_cloned))))).
Proof.
  apply (total_files_plain demo_update_env "git_repo_id:1"
           (working_copy demo_update_env demo_url) demo_cloned).
  - vm_compute. reflexivity.
  - apply run_outcome. vm_compute. reflexivity.
Defined.

(** ** Identities, over the life of the service *)






Lemma run_without_record env pid id w :
  db w !! id = None -> run_git_clone_or_checkout env pid id w = (Raise AttributeError, w).
Proof.
  intros Hrec. unfold run_git_clone_or_checkout.
  do 3 (erewrite bind_Ret; [|by apply hmget_None]). done.
Qed.

(** X26: a process that runs after its repository was removed does
    nothing.  For every id of a batch that [remove_repos_by_id] removed
    to the end, a run of [run_git_clone_or_checkout] for that identity,
    such as the one a registration started before the removal, raises
    [AttributeError] and leaves the world as the removal left it: the
    record is not created again and nothing is cloned. *)
Theorem run_after_removal_does_nothing env pid ids git_repo w w1 :
  remove_repos_by_id env ids w = (Ret tt, w1) -> git_repo ∈ ids ->
  is_Some (registered_url (db w) (id_key git_repo))
  /\ run_git_clone_or_checkout env pid (id_key git_repo) w1 = (Raise AttributeError, w1).
Proof.
  intros (Hall & _)%remove_repos_by_id_Ret Hin.
  destruct (Hall _ Hin) as [Hreg Hnone]. split; [done|]. by apply run_without_record.
Qed.

Lemma run_after_removal_does_nothing_witness :
  is_Some (registered_url (db demo_cloned) (id_key (Py.JInt 1)))
  /\ run_git_clone_or_checkout demo_update_env 5 (id_key (Py.JInt 1)) demo_removed
     = (Raise AttributeError, demo_removed).
Proof.
  apply (run_after_removal_does_nothing demo_update_env 5 [Py.JInt 1] (Py.JInt 1) demo_cloned
           demo_removed).
  - apply run_outcome. vm_compute. reflexivity.
  - left.
Defined.







(** ** The tests of [run_tests.py], on the model *)

Example test_get_empty_resources :
  serve demo_quiet_env (GET NoJson) demo_empty = (Ret (Repositories [], 200), demo_empty).
Proof. vm_compute. reflexivity. Qed.

Example test_delete_empty_resources :
  exists d, serve demo_quiet_env (DELETE NoJson) demo_empty = (Ret (Jsonified d, 400), demo_empty)
            /\ is_Some (d !! "error") /\ d !! "message" = Some "Bad Request".
Proof. eexists. split; [vm_compute; reflexivity|]. split; [by eexists|done]. Qed.

Example test_get_non_empty_existing_resources :
  serve demo_quiet_env (GET NoJson) test_world
  = (Ret (Repositories [(Py.JStr "git_repo_id:1", test_repo_stats)], 200), test_world).
Proof. vm_compute. reflexivity. Qed.

Example test_get_non_empty_not_existing_resources :
  serve demo_quiet_env (GET (Json [Py.JInt 2; Py.JInt 3])) test_world
  = (Ret (Repositories [(Py.JInt 2, ∅); (Py.JInt 3, ∅)], 200), test_world).
Proof. vm_compute. reflexivity. Qed.

Example test_delete_non_existing_resources :
  (serve demo_quiet_env (DELETE (Json [Py.JInt 2; Py.JInt 3])) test_world).1
  = Ret (handle_invalid_usage "Bad Request" 400
           {["error" := "Could not find an url for repository with a given id 2. "
                        +:+ "Repository may not exist."]}).
Proof. vm_compute. reflexivity. Qed.

Example test_delete_existing_not_cloned_resources :
  (serve demo_quiet_env (DELETE (Json [Py.JInt 1])) test_world).1
  = Ret (handle_invalid_usage "Bad Request" 400
           {["error" := "The repository with id 1 is not yet cloned."]}).
Proof. vm_compute. reflexivity. Qed.

Example test_post_non_valid_resources :
  (serve demo_quiet_env (POST (Json {["foo" := Py.JStr "bar"]})) demo_empty).1
  = Ret (handle_invalid_usage "Bad Request" 400
           {["error" := "An Error while processing incoming JSON Git repository "
                        +:+ "information: 'url'. 'url' is an obligatory parameter."]}).
Proof. vm_compute. reflexivity. Qed.
